(** * LPC 17xx EEPROM character driver (eeprom.c): model and verification

    The driver is embedded function by function.  C integers are [Z] values
    with the wrap-around of their type written out, the memory-mapped
    register block is a peripheral that records the bus traffic it sees,
    and the driver's functions are computations in a small state monad
    over the machine state; the busy-wait on the interrupt status register
    takes a poll budget.  The user-space utility (app.c) is embedded from
    its argument handling on, over the driver's entry points. *)

From Stdlib Require Import ZArith List Lia Bool.
From Equations Require Import Equations.
Import ListNotations.
Local Open Scope Z_scope.

(** ** Machine integers *)

Module Int.

(** [u8], [u16], [u32]: unsigned types wrap modulo a power of two.
    The target is a 32-bit ARM core, so [size_t] is [u32]. *)
Definition to_u8 (z : Z) : Z := z mod 2 ^ 8.
Definition to_u16 (z : Z) : Z := z mod 2 ^ 16.
Definition to_u32 (z : Z) : Z := z mod 2 ^ 32.
Definition to_size_t (z : Z) : Z := to_u32 z.

(** [int] and [ssize_t] (32 bits) and [loff_t] (64 bits) are signed; the
    kernel is built with wrapping signed arithmetic. *)
Definition to_signed (bits : Z) (z : Z) : Z :=
  (z + 2 ^ (bits - 1)) mod 2 ^ bits - 2 ^ (bits - 1).
Definition to_int (z : Z) : Z := to_signed 32 z.
Definition to_loff_t (z : Z) : Z := to_signed 64 z.

Definition INT_MAX : Z := 2 ^ 31 - 1.
Definition LOFF_MIN : Z := - 2 ^ 63.
Definition LOFF_MAX : Z := 2 ^ 63 - 1.
Definition SIZE_MAX : Z := 2 ^ 32 - 1.

Definition is_loff_t (z : Z) : Prop := LOFF_MIN <= z <= LOFF_MAX.
Definition is_size_t (z : Z) : Prop := 0 <= z <= SIZE_MAX.

End Int.
Import Int.

(** ** Constants of eeprom.c *)

Definition EEPROM_PAGE_SIZE : Z := 64.
Definition EEPROM_PAGE_NUM : Z := 63.

Definition EEPROM_CMD_8BITS_READ : Z := 0.
Definition EEPROM_CMD_16BITS_READ : Z := 1.
Definition EEPROM_CMD_32BITS_READ : Z := 2.
Definition EEPROM_CMD_8BITS_WRITE : Z := 3.
Definition EEPROM_CMD_16BITS_WRITE : Z := 4.
Definition EEPROM_CMD_32BITS_WRITE : Z := 5.
Definition EEPROM_CMD_ERASE_PRG_PAGE : Z := 6.
Definition EEPROM_CMD_RDPREFETCH : Z := Z.shiftl 1 3.

Definition EEPROM_INT_ENDOFRW : Z := Z.shiftl 1 26.
Definition EEPROM_INT_ENDOFPROG : Z := Z.shiftl 1 28.

(** Capacity C = P * N of the device in bytes. *)
Definition CAPACITY : Z := EEPROM_PAGE_SIZE * EEPROM_PAGE_NUM.

(** Kernel constants the driver uses; their headers are not part of the
    driver (errno.h, fs.h). *)
Definition EBUSY : Z := 16.
Definition EINVAL : Z := 22.
Definition SEEK_SET : Z := 0.
Definition SEEK_CUR : Z := 1.
Definition SEEK_END : Z := 2.

(** ** The register block and the peripheral behind it *)

Module Hw.

(** The fields of [EEPROM_T], in the order of the struct. *)
Inductive reg : Set :=
| CMD | ADDR | WDATA | RDATA | WSTATE | CLKDIV | PWRDWN
| INTENCLR | INTENSET | INTSTAT | INTEN | INTSTATCLR | INTSTATSET.

Definition reg_eqb (a b : reg) : bool :=
  match a, b with
  | CMD, CMD | ADDR, ADDR | WDATA, WDATA | RDATA, RDATA
  | WSTATE, WSTATE | CLKDIV, CLKDIV | PWRDWN, PWRDWN
  | INTENCLR, INTENCLR | INTENSET, INTENSET | INTSTAT, INTSTAT
  | INTEN, INTEN | INTSTATCLR, INTSTATCLR | INTSTATSET, INTSTATSET => true
  | _, _ => false
  end.

(** One 32-bit bus transaction on the register block. *)
Inductive bus_event : Set :=
| StoreTo (r : reg) (v : Z)
| LoadFrom (r : reg) (v : Z).

(** Modelled from the spec: the EEPROM peripheral is hardware, so its
    behaviour is not in the driver's source.  It is the mock register
    block of the specification's test scenarios, which records the
    command, address and data traffic and acknowledges completion bits:
    the register latches, the 64-byte page register filled by 8-bit
    writes, the non-volatile cells, and the completion of the operation
    in flight, which becomes visible in INTSTAT after [latency] further
    polls of that register. *)
Record peripheral : Type := mkPeripheral {
  regs : reg -> Z;
  page_register : Z -> Z;
  cells : Z -> Z;
  latency : nat;
  busy : nat;
  due : Z;
  traffic : list bus_event
}.

Definition latch (r : reg) (v : Z) (p : peripheral) : peripheral :=
  mkPeripheral (fun r' => if reg_eqb r' r then v else regs p r')
               (page_register p) (cells p) (latency p) (busy p) (due p)
               (traffic p).

Definition record_event (e : bus_event) (p : peripheral) : peripheral :=
  mkPeripheral (regs p) (page_register p) (cells p) (latency p) (busy p)
               (due p) (traffic p ++ [e]).

(** The operation just started raises [bits] in INTSTAT once [latency]
    polls have gone by. *)
Definition complete_later (bits : Z) (p : peripheral) : peripheral :=
  mkPeripheral (regs p) (page_register p) (cells p) (latency p)
               (latency p) (Z.lor (due p) bits) (traffic p).

(** The address register holds 12 bits and is post-incremented by every
    byte access. *)
Definition post_increment (p : peripheral) : peripheral :=
  latch ADDR (Z.land (regs p ADDR + 1) 4095) p.

(** An 8-bit read: the addressed cell goes to RDATA. *)
Definition fetch (p : peripheral) : peripheral :=
  complete_later EEPROM_INT_ENDOFRW
    (post_increment (latch RDATA (cells p (regs p ADDR)) p)).

(** An 8-bit write: the byte goes to the page register at the page
    offset of ADDR. *)
Definition stage (v : Z) (p : peripheral) : peripheral :=
  complete_later EEPROM_INT_ENDOFRW
    (post_increment
       (mkPeripheral (regs p)
          (fun o => if o =? Z.land (regs p ADDR) 63 then Z.land v 255
                    else page_register p o)
          (cells p) (latency p) (busy p) (due p) (traffic p))).

(** Erase/program: the page register is committed to the page that the
    upper 6 bits of ADDR select. *)
Definition program (p : peripheral) : peripheral :=
  complete_later EEPROM_INT_ENDOFPROG
    (mkPeripheral (regs p) (page_register p)
       (fun a => if Z.shiftr a 6 =? Z.shiftr (regs p ADDR) 6
                 then page_register p (Z.land a 63) else cells p a)
       (latency p) (busy p) (due p) (traffic p)).

(** Time passes with every poll of INTSTAT. *)
Definition poll (p : peripheral) : peripheral :=
  match busy p with
  | O => mkPeripheral
           (fun r => if reg_eqb r INTSTAT then Z.lor (regs p INTSTAT) (due p)
                     else regs p r)
           (page_register p) (cells p) (latency p) O 0 (traffic p)
  | S n => mkPeripheral (regs p) (page_register p) (cells p) (latency p)
             n (due p) (traffic p)
  end.

Definition cmd_op (v : Z) : Z := Z.land v 7.
Definition cmd_prefetch (v : Z) : bool := Z.testbit v 3.

Definition mmio_store (r : reg) (v : Z) (p0 : peripheral) : peripheral :=
  let p := record_event (StoreTo r v) p0 in
  match r with
  | CMD =>
      let p := latch CMD v p in
      if cmd_op v =? EEPROM_CMD_ERASE_PRG_PAGE then program p
      else if cmd_op v =? EEPROM_CMD_8BITS_READ then fetch p
      else p
  | ADDR => latch ADDR (Z.land v 4095) p
  | WDATA =>
      let p := latch WDATA v p in
      if cmd_op (regs p CMD) =? EEPROM_CMD_8BITS_WRITE then stage v p else p
  | WSTATE | CLKDIV | PWRDWN => latch r v p
  | INTSTATCLR => latch INTSTAT (Z.ldiff (regs p INTSTAT) v) p
  | INTSTATSET => latch INTSTAT (Z.lor (regs p INTSTAT) v) p
  | RDATA | INTENCLR | INTENSET | INTSTAT | INTEN => p
  end.

Definition mmio_load (r : reg) (p0 : peripheral) : Z * peripheral :=
  match r with
  | INTSTAT =>
      let p := poll p0 in
      (regs p INTSTAT, record_event (LoadFrom INTSTAT (regs p INTSTAT)) p)
  | RDATA =>
      let v := regs p0 RDATA in
      let p := record_event (LoadFrom RDATA v) p0 in
      (v, if (cmd_op (regs p CMD) =? EEPROM_CMD_8BITS_READ)
             && cmd_prefetch (regs p CMD)
          then fetch p else p)
  | _ => (regs p0 r, record_event (LoadFrom r (regs p0 r)) p0)
  end.

End Hw.
Import Hw.

(** ** Machine state and the driver's monad *)

(** The calls that the stream translation makes into the page-level
    functions, logged at function entry with their arguments. *)
Inductive pe_call : Set :=
| Call_Read (pageOffset pageAddr pData byteNum : Z)
| Call_WritePageRegister (pageOffset pData byteNum : Z)
| Call_EraseProgramPage (pageAddr : Z).

(** [LPC_EEPROM] is the peripheral behind the register block, [user_mem]
    the bytes of the caller's address space (a pointer is an address in
    it), [eeprom_lock] the driver's global, and [access_ok] the kernel's
    check of a user buffer, whose definition is not part of the driver. *)
Record world : Type := mkWorld {
  LPC_EEPROM : peripheral;
  user_mem : Z -> Z;
  eeprom_lock : Z;
  access_ok : Z -> Z -> bool;
  pe_log : list pe_call
}.

Definition M (A : Type) : Type := world -> option (A * world).

Definition ret {A : Type} (a : A) : M A := fun w => Some (a, w).

Definition bind {A B : Type} (m : M A) (k : A -> M B) : M B :=
  fun w => match m w with
           | Some (a, w') => k a w'
           | None => None
           end.

(** The poll budget is spent. *)
Definition out_of_fuel {A : Type} : M A := fun _ => None.

Declare Scope drv_scope.
Delimit Scope drv_scope with drv.
Notation "x <- m ;; k" := (bind m (fun x => k))
  (at level 61, m at next level, right associativity) : drv_scope.
Notation "m ;; k" := (bind m (fun _ => k))
  (at level 61, right associativity) : drv_scope.
Local Open Scope drv_scope.

Definition store (r : reg) (v : Z) : M unit :=
  fun w => Some (tt, mkWorld (mmio_store r v (LPC_EEPROM w)) (user_mem w)
                        (eeprom_lock w) (access_ok w) (pe_log w)).

Definition load (r : reg) : M Z :=
  fun w => let '(v, p) := mmio_load r (LPC_EEPROM w) in
           Some (v, mkWorld p (user_mem w) (eeprom_lock w) (access_ok w)
                      (pe_log w)).

(** [pData[i]] as an rvalue and as an lvalue of type [u8]. *)
Definition user_get (a : Z) : M Z := fun w => Some (to_u8 (user_mem w a), w).

Definition user_put (a v : Z) : M unit :=
  fun w => Some (tt, mkWorld (LPC_EEPROM w)
                        (fun x => if x =? a then to_u8 v else user_mem w x)
                        (eeprom_lock w) (access_ok w) (pe_log w)).

Definition log_call (c : pe_call) : M unit :=
  fun w => Some (tt, mkWorld (LPC_EEPROM w) (user_mem w) (eeprom_lock w)
                        (access_ok w) (pe_log w ++ [c])).

(** ** Register interface *)

Definition EEPROM_SetCmd (cmd : Z) : M unit := store CMD cmd.

Definition EEPROM_SetAddr (pageAddr pageOffset : Z) : M unit :=
  store ADDR (to_u32 (Z.lor (Z.shiftl pageAddr 6) pageOffset)).

Definition EEPROM_WriteData (data : Z) : M unit := store WDATA data.

Definition EEPROM_ReadData : M Z := load RDATA.

Definition EEPROM_DisablePowerDown : M unit := store PWRDWN 0.

Definition EEPROM_SetWaitState (ws : Z) : M unit := store WSTATE ws.

Definition EEPROM_ClearIntStatus (mask : Z) : M unit := store INTSTATCLR mask.

Definition EEPROM_GetIntStatus : M Z := load INTSTAT.

(** ** Timing configuration *)

(** [cclk] is the value that [lpc178x_clock_get(CLOCK_PCLK)] returns. *)
Definition EEPROM_Init (cclk : Z) : M unit :=
  EEPROM_DisablePowerDown ;;
  store CLKDIV (to_u32 (cclk / 375000 - 1)) ;;
  let val := to_u32 (to_u32 (to_u32 (cclk / 1000000) * 15) / 1000 + 1) in
  let val := Z.lor val
               (to_u32 (Z.shiftl
                  (to_u32 (to_u32 (to_u32 (cclk / 1000000) * 55) / 1000 + 1))
                  8)) in
  let val := Z.lor val
               (to_u32 (Z.shiftl
                  (to_u32 (to_u32 (to_u32 (cclk / 1000000) * 35) / 1000 + 1))
                  16)) in
  EEPROM_SetWaitState val.

(** ** Page engine *)

(** The [while (1)] loop polls INTSTAT at most [fuel] times. *)
Fixpoint EEPROM_WaitForIntStatus (fuel : nat) (mask : Z) : M unit :=
  match fuel with
  | O => out_of_fuel
  | S fuel' =>
      status <- EEPROM_GetIntStatus ;;
      if Z.land status mask =? mask
      then EEPROM_ClearIntStatus mask
      else EEPROM_WaitForIntStatus fuel' mask
  end.

(** The [for] loop of [EEPROM_Read], with [n] iterations to go at index
    [i]. *)
Fixpoint EEPROM_Read_loop (fuel : nat) (pData i : Z) (n : nat) : M unit :=
  match n with
  | O => ret tt
  | S n' =>
      v <- EEPROM_ReadData ;;
      user_put (pData + i) v ;;
      EEPROM_WaitForIntStatus fuel EEPROM_INT_ENDOFRW ;;
      EEPROM_Read_loop fuel pData (i + 1) n'
  end.

Definition EEPROM_Read (fuel : nat) (pageOffset pageAddr pData byteNum : Z)
  : M Z :=
  log_call (Call_Read pageOffset pageAddr pData byteNum) ;;
  EEPROM_ClearIntStatus EEPROM_INT_ENDOFRW ;;
  EEPROM_SetAddr pageAddr pageOffset ;;
  EEPROM_SetCmd (Z.lor EEPROM_CMD_8BITS_READ EEPROM_CMD_RDPREFETCH) ;;
  EEPROM_Read_loop fuel pData 0 (Z.to_nat byteNum) ;;
  ret byteNum.

Definition EEPROM_EraseProgramPage (fuel : nat) (pageAddr : Z) : M unit :=
  log_call (Call_EraseProgramPage pageAddr) ;;
  EEPROM_ClearIntStatus EEPROM_CMD_ERASE_PRG_PAGE ;;
  EEPROM_SetAddr pageAddr 0 ;;
  EEPROM_SetCmd EEPROM_CMD_ERASE_PRG_PAGE ;;
  EEPROM_WaitForIntStatus fuel EEPROM_INT_ENDOFPROG.

Fixpoint EEPROM_WritePageRegister_loop (fuel : nat) (pData i : Z) (n : nat)
  : M unit :=
  match n with
  | O => ret tt
  | S n' =>
      b <- user_get (pData + i) ;;
      EEPROM_WriteData b ;;
      EEPROM_WaitForIntStatus fuel EEPROM_INT_ENDOFRW ;;
      EEPROM_WritePageRegister_loop fuel pData (i + 1) n'
  end.

Definition EEPROM_WritePageRegister (fuel : nat) (pageOffset pData byteNum : Z)
  : M Z :=
  log_call (Call_WritePageRegister pageOffset pData byteNum) ;;
  EEPROM_ClearIntStatus EEPROM_INT_ENDOFRW ;;
  EEPROM_SetCmd EEPROM_CMD_8BITS_WRITE ;;
  EEPROM_SetAddr 0 pageOffset ;;
  EEPROM_WritePageRegister_loop fuel pData 0 (Z.to_nat byteNum) ;;
  ret byteNum.

(** ** Device facade *)

(** [if (eeprom_lock ++ > 0)]: the old value is tested, the incremented
    one is stored back on both paths.  The module use counter that
    [try_module_get] and [module_put] maintain belongs to the kernel and is
    not part of the state. *)
Definition eeprom_open : M Z :=
  fun w =>
    let old := eeprom_lock w in
    let w' := mkWorld (LPC_EEPROM w) (user_mem w) (to_int (old + 1))
                (access_ok w) (pe_log w) in
    if old >? 0 then Some (- EBUSY, w') else Some (0, w').

Definition eeprom_release : M Z :=
  fun w => Some (0, mkWorld (LPC_EEPROM w) (user_mem w) 0 (access_ok w)
                      (pe_log w)).

(** [f_pos] is [filp->f_pos]; the result is the returned value and the
    file position afterwards. *)
Definition eeprom_llseek (f_pos offset whence : Z) : Z * Z :=
  if whence =? SEEK_SET then
    let newpos := offset in
    if newpos <? 0 then (- EINVAL, f_pos) else (newpos, newpos)
  else if whence =? SEEK_CUR then
    let newpos := to_loff_t (f_pos + offset) in
    if newpos <? 0 then (- EINVAL, f_pos) else (newpos, newpos)
  else if whence =? SEEK_END then
    let newpos := to_loff_t (EEPROM_PAGE_SIZE * EEPROM_PAGE_NUM + offset) in
    if newpos <? 0 then (- EINVAL, f_pos) else (newpos, newpos)
  else (- EINVAL, f_pos).

(** The [for] loop of [eeprom_read]; [iters] bounds its iterations.  The
    result is [*offset] at loop exit.  [buffer] is passed to every
    [EEPROM_Read] as it came in. *)
Fixpoint eeprom_read_loop (iters fuel : nat) (buffer to_read offset : Z)
  : M Z :=
  if to_read >? 0 then
    match iters with
    | O => out_of_fuel
    | S iters' =>
        let page := to_u16 (Z.shiftr offset 6) in
        let page_offset := to_size_t (Z.land offset (EEPROM_PAGE_SIZE - 1)) in
        let read_bytes :=
          if to_read >? to_size_t (EEPROM_PAGE_SIZE - page_offset)
          then to_size_t (EEPROM_PAGE_SIZE - page_offset)
          else to_read in
        EEPROM_Read fuel page_offset page buffer read_bytes ;;
        eeprom_read_loop iters' fuel buffer
          (to_size_t (to_read - read_bytes))
          (to_loff_t (offset + read_bytes))
    end
  else ret offset.

(** The result is the returned [ssize_t] and [*offset] afterwards. *)
Definition eeprom_read (fuel : nat) (buffer length offset : Z) : M (Z * Z) :=
  fun w =>
    if negb (access_ok w buffer length) then Some ((- EINVAL, offset), w)
    else
      let remaining :=
        to_size_t (EEPROM_PAGE_SIZE * EEPROM_PAGE_NUM - offset) in
      let length := if length >? remaining then remaining else length in
      if length =? 0 then Some ((0, offset), w)
      else
        (offset' <- eeprom_read_loop fuel fuel buffer length offset ;;
         ret (to_int length, offset')) w.

(** The [for] loop of [eeprom_write]; here [buffer] advances with the
    position. *)
Fixpoint eeprom_write_loop (iters fuel : nat) (buffer to_write offset : Z)
  : M Z :=
  if to_write >? 0 then
    match iters with
    | O => out_of_fuel
    | S iters' =>
        let page := to_u16 (Z.shiftr offset 6) in
        let page_offset := to_size_t (Z.land offset (EEPROM_PAGE_SIZE - 1)) in
        let write_bytes :=
          if to_write >? to_size_t (EEPROM_PAGE_SIZE - page_offset)
          then to_size_t (EEPROM_PAGE_SIZE - page_offset)
          else to_write in
        EEPROM_WritePageRegister fuel (to_u16 page_offset) buffer write_bytes ;;
        EEPROM_EraseProgramPage fuel page ;;
        eeprom_write_loop iters' fuel (buffer + write_bytes)
          (to_size_t (to_write - write_bytes))
          (to_loff_t (offset + write_bytes))
    end
  else ret offset.

Definition eeprom_write (fuel : nat) (buffer length offset : Z) : M (Z * Z) :=
  fun w =>
    if negb (access_ok w buffer length) then Some ((- EINVAL, offset), w)
    else
      let remaining :=
        to_size_t (EEPROM_PAGE_SIZE * EEPROM_PAGE_NUM - offset) in
      let length := if length >? remaining then remaining else length in
      if length =? 0 then Some ((0, offset), w)
      else
        (offset' <- eeprom_write_loop fuel fuel buffer length offset ;;
         ret (to_int length, offset')) w.

(** ** The open file

    The kernel's file layer is not part of the driver.  Modelled from the
    spec: a successful open starts a session whose file position is 0, a
    failed open leaves the session of the holder as it is, and the position
    the kernel hands to read, write and llseek is the session's. *)

Record session : Type := mkSession {
  machine : world;
  f_pos : Z
}.

Inductive request : Set :=
| Req_open
| Req_release
| Req_llseek (offset whence : Z)
| Req_read (buffer length : Z)
| Req_write (buffer length : Z).

Definition sys_open (s : session) : Z * session :=
  match eeprom_open (machine s) with
  | Some (r, w) => (r, mkSession w (if r =? 0 then 0 else f_pos s))
  | None => (- EBUSY, s)
  end.

Definition sys_release (s : session) : Z * session :=
  match eeprom_release (machine s) with
  | Some (r, w) => (r, mkSession w (f_pos s))
  | None => (0, s)
  end.

Definition dispatch (fuel : nat) (rq : request) (s : session)
  : option (Z * session) :=
  match rq with
  | Req_open => Some (sys_open s)
  | Req_release => Some (sys_release s)
  | Req_llseek offset whence =>
      let '(r, pos) := eeprom_llseek (f_pos s) offset whence in
      Some (r, mkSession (machine s) pos)
  | Req_read buffer length =>
      match eeprom_read fuel buffer length (f_pos s) (machine s) with
      | Some ((r, pos), w) => Some (r, mkSession w pos)
      | None => None
      end
  | Req_write buffer length =>
      match eeprom_write fuel buffer length (f_pos s) (machine s) with
      | Some ((r, pos), w) => Some (r, mkSession w pos)
      | None => None
      end
  end.

(** The session after a sequence of requests. *)
Fixpoint run (fuel : nat) (rqs : list request) (s : session)
  : option session :=
  match rqs with
  | [] => Some s
  | rq :: rest =>
      match dispatch fuel rq s with
      | Some (_, s') => run fuel rest s'
      | None => None
      end
  end.

(** The values returned by a sequence of requests. *)
Fixpoint results (fuel : nat) (rqs : list request) (s : session)
  : option (list Z) :=
  match rqs with
  | [] => Some []
  | rq :: rest =>
      match dispatch fuel rq s with
      | Some (r, s') => option_map (cons r) (results fuel rest s')
      | None => None
      end
  end.

(** ** A machine to run the driver on *)

(** A peripheral at rest with the given cell contents and latency. *)
Definition idle_peripheral (contents : Z -> Z) (lat : nat) : peripheral :=
  mkPeripheral (fun _ => 0) (fun _ => 0) contents lat O 0 [].

(** A machine whose user memory is all zero and where every user buffer is
    accessible, as on the MMU-less target. *)
Definition boot (contents : Z -> Z) (lat : nat) : world :=
  mkWorld (idle_peripheral contents lat) (fun _ => 0) 0 (fun _ _ => true) [].

(** Cell [a] holds the low byte of its own address. *)
Definition ramp (a : Z) : Z := a mod 256.

(** ** The stream translation as the specification words it *)

(** chunk = min(remaining, P - page_offset), with page_offset = pos mod P. *)
Definition st_chunk (pos remaining : Z) : Z :=
  Z.min remaining (EEPROM_PAGE_SIZE - pos mod EEPROM_PAGE_SIZE).

#[local] Opaque st_chunk.

(** The chunks [(page, page_offset, chunk)] of a request of [remaining]
    bytes at position [pos]: while remaining > 0, page = pos / P,
    page_offset = pos mod P, then advance by the chunk. *)
Equations? st_chunks (pos remaining : Z) : list (Z * Z * Z)
  by wf (Z.to_nat remaining) lt :=
  st_chunks pos remaining with Z_gt_dec remaining 0 => {
    | left _ =>
        (pos / EEPROM_PAGE_SIZE, pos mod EEPROM_PAGE_SIZE,
         st_chunk pos remaining)
        :: st_chunks (pos + st_chunk pos remaining)
             (remaining - st_chunk pos remaining);
    | right _ => [] }.
Proof.
  with_strategy transparent [st_chunk] unfold st_chunk.
  assert (0 <= pos mod EEPROM_PAGE_SIZE < EEPROM_PAGE_SIZE)
    by (apply Z.mod_pos_bound; reflexivity).
  unfold EEPROM_PAGE_SIZE in *. lia.
Qed.

#[local] Transparent st_chunk.

(** write(pos, buf, len): per chunk, write_page_register(page_offset,
    chunk bytes at buf), then erase_program_page(page), then advance. *)
Fixpoint st_write_calls (buf : Z) (chunks : list (Z * Z * Z)) : list pe_call :=
  match chunks with
  | [] => []
  | (page, page_offset, chunk) :: rest =>
      Call_WritePageRegister page_offset buf chunk
      :: Call_EraseProgramPage page
      :: st_write_calls (buf + chunk) rest
  end.

Definition st_write (pos buf len : Z) : list pe_call :=
  st_write_calls buf (st_chunks pos len).

(** The calls of the read loop: one [EEPROM_Read] per chunk, each with the
    buffer pointer [buf]. *)
Definition read_calls (buf : Z) (chunks : list (Z * Z * Z)) : list pe_call :=
  map (fun c => match c with
                | (page, page_offset, chunk) =>
                    Call_Read page_offset page buf chunk
                end) chunks.

(** [len] consecutive integers from [start]. *)
Fixpoint Zseq (start : Z) (len : nat) : list Z :=
  match len with
  | O => []
  | S len' => start :: Zseq (start + 1) len'
  end.

(** The pages that hold a byte of [pos .. pos + len - 1], in increasing
    order. *)
Definition pages_touched (pos len : Z) : list Z :=
  if len >? 0
  then Zseq (pos / EEPROM_PAGE_SIZE)
         (Z.to_nat ((pos + len - 1) / EEPROM_PAGE_SIZE
                    - pos / EEPROM_PAGE_SIZE + 1))
  else [].

(** Bytes moved by a logged call, and the pages it programs. *)
Definition bytes_of (c : pe_call) : Z :=
  match c with
  | Call_Read _ _ _ n => n
  | Call_WritePageRegister _ _ n => n
  | Call_EraseProgramPage _ => 0
  end.

Definition transferred (log : list pe_call) : Z :=
  fold_right (fun c acc => bytes_of c + acc) 0 log.

Definition erased_pages (log : list pe_call) : list Z :=
  flat_map (fun c => match c with
                     | Call_EraseProgramPage page => [page]
                     | _ => []
                     end) log.

(** The preconditions of the page engine, for one call. *)
Definition pe_precondition (c : pe_call) : Prop :=
  match c with
  | Call_Read pageOffset pageAddr _ byteNum =>
      0 <= pageAddr < EEPROM_PAGE_NUM /\ 0 <= pageOffset < EEPROM_PAGE_SIZE
      /\ 0 <= byteNum /\ pageOffset + byteNum <= EEPROM_PAGE_SIZE
  | Call_WritePageRegister pageOffset _ byteNum =>
      0 <= pageOffset < EEPROM_PAGE_SIZE
      /\ 0 <= byteNum /\ pageOffset + byteNum <= EEPROM_PAGE_SIZE
  | Call_EraseProgramPage pageAddr => 0 <= pageAddr < EEPROM_PAGE_NUM
  end.

(** The stores to CMD and ADDR among the bus traffic. *)
Definition is_cmd_addr (e : bus_event) : bool :=
  match e with
  | StoreTo CMD _ | StoreTo ADDR _ => true
  | _ => false
  end.

Definition cmd_addr_stores (t : list bus_event) : list bus_event :=
  filter is_cmd_addr t.

(** The CMD and ADDR stores that one chunk of a write makes. *)
Definition write_chunk_stores (c : Z * Z * Z) : list bus_event :=
  match c with
  | (page, page_offset, _) =>
      [StoreTo CMD EEPROM_CMD_8BITS_WRITE; StoreTo ADDR page_offset;
       StoreTo ADDR (Z.shiftl page 6); StoreTo CMD EEPROM_CMD_ERASE_PRG_PAGE]
  end.

Definition is_poll (e : bus_event) : Prop :=
  exists v, e = LoadFrom INTSTAT v.

(** ** The open state as the specification words it *)

Inductive open_state : Set := free | held.

Definition spec_open (st : open_state) : Z * open_state :=
  match st with
  | free => (0, held)
  | held => (- EBUSY, held)
  end.

Definition spec_release (st : open_state) : Z * open_state := (0, free).

(** The driver tests [eeprom_lock > 0]. *)
Definition open_state_of (w : world) : open_state :=
  if eeprom_lock w >? 0 then held else free.

Definition lock_request (rq : request) : Prop :=
  match rq with
  | Req_open | Req_release => True
  | _ => False
  end.

Fixpoint spec_run (rqs : list request) (st : open_state)
  : list Z * open_state :=
  match rqs with
  | [] => ([], st)
  | rq :: rest =>
      let '(r, st') := match rq with
                       | Req_open => spec_open st
                       | _ => spec_release st
                       end in
      let '(rs, st'') := spec_run rest st' in
      (r :: rs, st'')
  end.

(** The session with the lock counter at [k]: what an open leaves of a
    session whose position it does not reset. *)
Definition with_lock (s : session) (k : Z) : session :=
  mkSession (mkWorld (LPC_EEPROM (machine s)) (user_mem (machine s)) k
               (access_ok (machine s)) (pe_log (machine s)))
            (f_pos s).

(** ** Requests as a caller can make them *)

Definition wf_request (rq : request) : Prop :=
  match rq with
  | Req_llseek offset _ => is_loff_t offset
  | Req_read _ length | Req_write _ length => is_size_t length
  | _ => True
  end.

(** The seek, if the request is one, leaves the position at most at the
    capacity. *)
Definition seek_within (rq : request) (s : session) : Prop :=
  match rq with
  | Req_llseek offset whence =>
      snd (eeprom_llseek (f_pos s) offset whence) <= CAPACITY
  | _ => True
  end.

(** Every seek of the run leaves the position at most at the capacity. *)
Fixpoint seeks_within (fuel : nat) (rqs : list request) (s : session) : Prop :=
  match rqs with
  | [] => True
  | rq :: rest =>
      seek_within rq s
      /\ match dispatch fuel rq s with
         | Some (_, s') => seeks_within fuel rest s'
         | None => True
         end
  end.

(** The new position that the specification gives for a seek, when the
    whence value is one of the three it names. *)
Definition spec_newpos (pos offset whence : Z) : option Z :=
  if whence =? SEEK_SET then Some offset
  else if whence =? SEEK_CUR then Some (pos + offset)
  else if whence =? SEEK_END then Some (CAPACITY + offset)
  else None.

(** The command that [EEPROM_Read] programs. *)
Definition read_prefetch : Z :=
  Z.lor EEPROM_CMD_8BITS_READ EEPROM_CMD_RDPREFETCH.

(** ** Frames

    What a page-engine operation leaves alone. *)

(** The data of the peripheral: everything but the status register, the
    clock of the operation in flight and the traffic. *)
Definition same_data (p p' : peripheral) : Prop :=
  (forall r, r <> INTSTAT -> regs p' r = regs p r)
  /\ page_register p' = page_register p
  /\ cells p' = cells p
  /\ latency p' = latency p.

(** The kernel's side of the machine state. *)
Definition same_kernel (w w' : world) : Prop :=
  eeprom_lock w' = eeprom_lock w
  /\ access_ok w' = access_ok w
  /\ latency (LPC_EEPROM w') = latency (LPC_EEPROM w).

(** ** Module initialisation *)


(** ** Views of the bus traffic *)

(** A poll of the interrupt status register. *)
Definition is_status_poll (e : bus_event) : bool :=
  match e with
  | LoadFrom INTSTAT _ => true
  | _ => false
  end.

Definition polls_of (t : list bus_event) : list bus_event :=
  filter is_status_poll t.

(** The traffic without the polls: what the driver asks of the
    peripheral. *)
Definition actions_of (t : list bus_event) : list bus_event :=
  filter (fun e => negb (is_status_poll e)) t.

(** The traffic of one completed wait on [mask] at latency [lat]: [lat]
    polls of INTSTAT that do not show the mask, one poll that shows it,
    and then the clear of the mask. *)
Definition wait_traffic (mask : Z) (lat : nat) (t : list bus_event) : Prop :=
  exists early last,
    t = map (LoadFrom INTSTAT) early
        ++ [LoadFrom INTSTAT last; StoreTo INTSTATCLR mask]
    /\ length early = lat
    /\ Forall (fun status => Z.land status mask <> mask) early
    /\ Z.land last mask = mask.

(** The traffic of a byte loop: for each value in turn the data
    transaction [move v], followed by a completed wait on END_OF_RW, and
    nothing else. *)
Fixpoint byte_traffic (move : Z -> bus_event) (lat : nat) (vs : list Z)
  (t : list bus_event) : Prop :=
  match vs with
  | [] => t = []
  | v :: vs' =>
      exists tw t',
        t = move v :: tw ++ t'
        /\ wait_traffic EEPROM_INT_ENDOFRW lat tw
        /\ byte_traffic move lat vs' t'
  end.

(** The transactions on the data registers: a load of RDATA takes a byte
    out of the device, a store to WDATA hands one to it. *)
Definition is_data_move (e : bus_event) : bool :=
  match e with
  | LoadFrom RDATA _ | StoreTo WDATA _ => true
  | _ => false
  end.

Definition data_moves (t : list bus_event) : list bus_event :=
  filter is_data_move t.

(** What the read loop leaves in the caller's memory: the chunks are
    taken in order, and each lands at [buffer], on top of the one
    before. *)
Fixpoint delivered (contents : Z -> Z) (buffer : Z)
  (chunks : list (Z * Z * Z)) (mem : Z -> Z) : Z -> Z :=
  match chunks with
  | [] => mem
  | (page, page_offset, chunk) :: rest =>
      delivered contents buffer rest
        (fun x => if (buffer <=? x) && (x <? buffer + chunk)
                  then to_u8 (contents (page * EEPROM_PAGE_SIZE + page_offset
                                        + (x - buffer)))
                  else mem x)
  end.

(** What a completed wait leaves of the peripheral besides its data: no
    operation in flight, and the awaited bits taken out of the status. *)
Definition settled (mask status : Z) (p' : peripheral) : Prop :=
  busy p' = O /\ due p' = 0 /\ regs p' INTSTAT = Z.ldiff status mask.

(** ** The user-space utility (app.c)

    [main] after its argument handling: [usage], or one of the two
    commands with the values that [atoi] and [strlen] return; [text] is
    the address of the argument string.  [buf] is the address of the local
    array [buf[8]].  The calls of [open], [read], [write] and [close] go
    through the driver's entry points. *)
Inductive invocation : Set :=
| Usage
| Cmd_read (page npages : Z)
| Cmd_write (offset text len : Z).

(** What one iteration of the dump prints: the address and the 8 bytes of
    [buf]; the formatting is printf's. *)
Definition dump_line : Set := (Z * list Z)%type.

Definition print_line (addr buf : Z) (w : world) : dump_line :=
  (addr, map (user_mem w) (Zseq buf 8)).

(** [for (i=0; i< page*8; i++)]: dummy reads of 8 bytes instead of lseek;
    the flag tells whether every read returned 8. *)
Fixpoint main_seek_pages (fuel : nat) (buf : Z) (n : nat) (addr : Z)
  (s : session) : option (bool * Z * session) :=
  match n with
  | O => Some (true, addr, s)
  | S n' =>
      match dispatch fuel (Req_read buf 8) s with
      | None => None
      | Some (r, s') =>
          if r =? 8 then main_seek_pages fuel buf n' (to_int (addr + 8)) s'
          else Some (false, addr, s')
      end
  end.

(** [for (i=0; i< 8*npages; i++)]: read 8 bytes, print the line. *)
Fixpoint main_dump (fuel : nat) (buf : Z) (n : nat) (addr : Z) (s : session)
  : option (bool * list dump_line * session) :=
  match n with
  | O => Some (true, [], s)
  | S n' =>
      match dispatch fuel (Req_read buf 8) s with
      | None => None
      | Some (r, s') =>
          if r =? 8 then
            match main_dump fuel buf n' (to_int (addr + 8)) s' with
            | None => None
            | Some (ok, lines, s'') =>
                Some (ok, print_line addr buf (machine s') :: lines, s'')
            end
          else Some (false, [], s')
      end
  end.

(** [while (offset > 0)]: reads of 8 bytes, then of the rest, whose
    results are not looked at; [iters] bounds the iterations. *)
Fixpoint main_seek_bytes (iters fuel : nat) (buf offset : Z) (s : session)
  : option session :=
  if offset >? 0 then
    match iters with
    | O => None
    | S iters' =>
        if offset >? 8 then
          match dispatch fuel (Req_read buf 8) s with
          | None => None
          | Some (_, s') =>
              main_seek_bytes iters' fuel buf (to_size_t (offset - 8)) s'
          end
        else
          match dispatch fuel (Req_read buf offset) s with
          | None => None
          | Some (_, s') => Some s'
          end
    end
  else Some s.

(** The value that [main] returns (1 is the exit status of [usage]), the
    lines it prints and the session it leaves. *)
Definition main (fuel : nat) (buf : Z) (inv : invocation) (s : session)
  : option (Z * list dump_line * session) :=
  match inv with
  | Usage => Some (1, [], s)
  | Cmd_read page npages =>
      let '(fd, s1) := sys_open s in
      if fd <? 0 then Some (-1, [], s1)
      else
        match main_seek_pages fuel buf (Z.to_nat (to_int (page * 8))) 0 s1 with
        | None => None
        | Some (false, _, s2) => Some (-1, [], snd (sys_release s2))
        | Some (true, addr, s2) =>
            match main_dump fuel buf (Z.to_nat (to_int (8 * npages))) addr s2
            with
            | None => None
            | Some (ok, lines, s3) =>
                Some (if ok then 0 else -1, lines, snd (sys_release s3))
            end
        end
  | Cmd_write offset text len =>
      let '(fd, s1) := sys_open s in
      if fd <? 0 then Some (-1, [], s1)
      else
        match main_seek_bytes fuel fuel buf (to_size_t offset) s1 with
        | None => None
        | Some s2 =>
            match dispatch fuel (Req_write text (to_size_t len)) s2 with
            | None => None
            | Some (r, s3) =>
                Some (if r =? to_int len then 0 else -1, [],
                      snd (sys_release s3))
            end
        end
  end.

(** The line that shows the 8 device bytes of block [k]. *)
Definition device_line (contents : Z -> Z) (k : Z) : dump_line :=
  (8 * k, map (fun a => to_u8 (contents a)) (Zseq (8 * k) 8)).

(** The number of 8-byte blocks of the device. *)
Definition BLOCKS : Z := 504.

(** The session-level facts that the utility's loops carry along. *)
Definition same_session_kernel (s s' : session) : Prop :=
  same_kernel (machine s) (machine s')
  /\ cells (LPC_EEPROM (machine s')) = cells (LPC_EEPROM (machine s)).

(** * Verification *)

(** ** Machine integers *)

Lemma to_u32_id (z : Z) : 0 <= z < 2 ^ 32 -> to_u32 z = z.
Proof. intros H. unfold to_u32. apply Z.mod_small. exact H. Qed.

Lemma to_size_t_id (z : Z) : is_size_t z -> to_size_t z = z.
Proof.
  unfold is_size_t, SIZE_MAX, to_size_t. intros H. apply to_u32_id. lia.
Qed.

Lemma to_u16_id (z : Z) : 0 <= z < 2 ^ 16 -> to_u16 z = z.
Proof. intros H. unfold to_u16. apply Z.mod_small. exact H. Qed.

Lemma to_int_id (z : Z) : - 2 ^ 31 <= z <= INT_MAX -> to_int z = z.
Proof.
  unfold INT_MAX, to_int, to_signed. intros H.
  rewrite Z.mod_small; lia.
Qed.

Lemma to_loff_t_id (z : Z) : is_loff_t z -> to_loff_t z = z.
Proof.
  unfold is_loff_t, LOFF_MIN, LOFF_MAX, to_loff_t, to_signed. intros H.
  rewrite Z.mod_small; lia.
Qed.

Lemma to_loff_t_range (z : Z) : is_loff_t (to_loff_t z).
Proof.
  unfold is_loff_t, LOFF_MIN, LOFF_MAX, to_loff_t, to_signed.
  pose proof (Z.mod_pos_bound (z + 2 ^ (64 - 1)) (2 ^ 64) eq_refl).
  change (2 ^ (64 - 1)) with (2 ^ 63) in *.
  change (2 ^ 64) with (2 * 2 ^ 63) in *. lia.
Qed.

(** ** Seek *)

Lemma eeprom_llseek_position (pos offset whence : Z) :
  0 <= pos -> 0 <= snd (eeprom_llseek pos offset whence).
Proof.
  intros Hpos. unfold eeprom_llseek.
  repeat match goal with
         | |- context [if ?c then _ else _] => destruct c eqn:?
         end; simpl; try lia;
  match goal with H : (_ <? 0) = false |- _ => apply Z.ltb_ge in H; exact H end.
Qed.

(** C6: seek computes offset for SET, position + offset for CUR and
    C + offset for END (the sum being a value of the 64-bit position
    type); an invalid whence fails with INVALID; a negative new position
    fails with INVALID and leaves the position as it was; otherwise the
    position becomes the new position and that value is returned; and
    seek(SET, k) followed by seek(CUR, 0) returns k for 0 <= k <= C. *)
Theorem eeprom_llseek_spec (pos offset whence : Z) :
  is_loff_t pos -> is_loff_t offset ->
  (forall newpos, spec_newpos pos offset whence = Some newpos ->
                  is_loff_t newpos) ->
  match spec_newpos pos offset whence with
  | None => eeprom_llseek pos offset whence = (- EINVAL, pos)
  | Some newpos =>
      if newpos <? 0
      then eeprom_llseek pos offset whence = (- EINVAL, pos)
      else eeprom_llseek pos offset whence = (newpos, newpos)
  end
  /\ forall k, 0 <= k <= CAPACITY ->
       fst (eeprom_llseek (snd (eeprom_llseek pos k SEEK_SET)) 0 SEEK_CUR) = k.
Proof.
  intros Hpos Hoff Hnew. split.
  - unfold spec_newpos, eeprom_llseek in *.
    destruct (whence =? SEEK_SET) eqn:Hset.
    + destruct (offset <? 0); reflexivity.
    + destruct (whence =? SEEK_CUR) eqn:Hcur.
      * rewrite (to_loff_t_id (pos + offset)) by (apply Hnew; reflexivity).
        destruct (pos + offset <? 0); reflexivity.
      * destruct (whence =? SEEK_END) eqn:Hend.
        -- change (EEPROM_PAGE_SIZE * EEPROM_PAGE_NUM) with CAPACITY.
           rewrite (to_loff_t_id (CAPACITY + offset))
             by (apply Hnew; reflexivity).
           destruct (CAPACITY + offset <? 0); reflexivity.
        -- reflexivity.
  - intros k Hk. unfold eeprom_llseek. simpl.
    destruct (k <? 0) eqn:Hneg; [apply Z.ltb_lt in Hneg; lia|].
    simpl. rewrite Z.add_0_r.
    rewrite to_loff_t_id
      by (unfold is_loff_t, LOFF_MIN, LOFF_MAX, CAPACITY, EEPROM_PAGE_SIZE,
          EEPROM_PAGE_NUM in *; lia).
    rewrite Hneg. reflexivity.
Qed.

Lemma eeprom_llseek_spec_witness :
  eeprom_llseek 10 (-4) SEEK_CUR = (6, 6)
  /\ forall k, 0 <= k <= CAPACITY ->
       fst (eeprom_llseek (snd (eeprom_llseek 10 k SEEK_SET)) 0 SEEK_CUR) = k.
Proof.
  apply (eeprom_llseek_spec 10 (-4) SEEK_CUR).
  - unfold is_loff_t, LOFF_MIN, LOFF_MAX. lia.
  - unfold is_loff_t, LOFF_MIN, LOFF_MAX. lia.
  - intros newpos H. vm_compute in H. injection H as <-.
    unfold is_loff_t, LOFF_MIN, LOFF_MAX. lia.
Defined.

(** ** Timing configuration *)

Lemma wait_state_field (f_pclk ns : Z) :
  0 <= f_pclk < 2 ^ 32 -> 0 <= ns <= 55 ->
  to_u32 (to_u32 (to_u32 (f_pclk / 1000000) * ns) / 1000 + 1)
  = f_pclk / 1000000 * ns / 1000 + 1
  /\ 0 < f_pclk / 1000000 * ns / 1000 + 1 < 256.
Proof.
  intros Hf Hns.
  assert (Hm : 0 <= f_pclk / 1000000 < 4295).
  { split.
    - apply Z.div_pos; lia.
    - apply Z.div_lt_upper_bound; lia. }
  assert (Hp : 0 <= f_pclk / 1000000 * ns <= 236170) by nia.
  assert (Hq : 0 <= f_pclk / 1000000 * ns / 1000 < 237).
  { split.
    - apply Z.div_pos; lia.
    - apply Z.div_lt_upper_bound; lia. }
  rewrite (to_u32_id (f_pclk / 1000000)) by lia.
  rewrite (to_u32_id (f_pclk / 1000000 * ns)) by lia.
  rewrite to_u32_id by lia.
  lia.
Qed.

(** C9: initialisation disables power-down, programs
    CLKDIV = f_pclk / 375000 - 1 and WSTATE = ws1 | ws2 << 8 | ws3 << 16
    with ws1, ws2, ws3 from 15, 55 and 35 ns, all divisions truncating; the
    registers are 32 bits wide, and no intermediate value of the wait
    states leaves that range. *)
Theorem EEPROM_Init_programs (f_pclk : Z) (w : world) :
  0 <= f_pclk < 2 ^ 32 ->
  let ws1 := f_pclk / 1000000 * 15 / 1000 + 1 in
  let ws2 := f_pclk / 1000000 * 55 / 1000 + 1 in
  let ws3 := f_pclk / 1000000 * 35 / 1000 + 1 in
  let wstate := Z.lor (Z.lor ws1 (Z.shiftl ws2 8)) (Z.shiftl ws3 16) in
  exists w',
    EEPROM_Init f_pclk w = Some (tt, w')
    /\ traffic (LPC_EEPROM w')
       = traffic (LPC_EEPROM w)
         ++ [StoreTo PWRDWN 0;
             StoreTo CLKDIV (to_u32 (f_pclk / 375000 - 1));
             StoreTo WSTATE wstate]
    /\ regs (LPC_EEPROM w') PWRDWN = 0
    /\ regs (LPC_EEPROM w') CLKDIV = to_u32 (f_pclk / 375000 - 1)
    /\ regs (LPC_EEPROM w') WSTATE = wstate
    /\ (375000 <= f_pclk ->
        regs (LPC_EEPROM w') CLKDIV = f_pclk / 375000 - 1).
Proof.
  intros Hf ws1 ws2 ws3 wstate.
  destruct (wait_state_field f_pclk 15 Hf) as [E1 B1]; [lia|].
  destruct (wait_state_field f_pclk 55 Hf) as [E2 B2]; [lia|].
  destruct (wait_state_field f_pclk 35 Hf) as [E3 B3]; [lia|].
  fold ws1 in E1, B1. fold ws2 in E2, B2. fold ws3 in E3, B3.
  assert (S2 : to_u32 (Z.shiftl ws2 8) = Z.shiftl ws2 8).
  { apply to_u32_id. rewrite Z.shiftl_mul_pow2 by lia. lia. }
  assert (S3 : to_u32 (Z.shiftl ws3 16) = Z.shiftl ws3 16).
  { apply to_u32_id. rewrite Z.shiftl_mul_pow2 by lia. lia. }
  eexists. split; [|split; [|split; [|split; [|split]]]].
  - unfold EEPROM_Init, EEPROM_DisablePowerDown, EEPROM_SetWaitState, bind,
      store. cbv zeta. rewrite E1, E2, E3, S2, S3. reflexivity.
  - cbn [LPC_EEPROM traffic mmio_store latch record_event].
    rewrite <- !app_assoc. reflexivity.
  - reflexivity.
  - reflexivity.
  - reflexivity.
  - intros Hlow. cbn [LPC_EEPROM regs mmio_store latch record_event reg_eqb].
    apply to_u32_id.
    assert (1 <= f_pclk / 375000) by (apply Z.div_le_lower_bound; lia).
    assert (f_pclk / 375000 < 11454)
      by (apply Z.div_lt_upper_bound; lia).
    lia.
Qed.

Lemma EEPROM_Init_programs_witness :
  0 <= 60000000 < 2 ^ 32
  /\ exists w',
       EEPROM_Init 60000000 (boot ramp 0) = Some (tt, w')
       /\ traffic (LPC_EEPROM w')
          = [StoreTo PWRDWN 0; StoreTo CLKDIV 159; StoreTo WSTATE 197633].
Proof.
  assert (H : 0 <= 60000000 < 2 ^ 32) by lia.
  split; [exact H|].
  destruct (EEPROM_Init_programs 60000000 (boot ramp 0) H)
    as [w' [Hrun [Htraffic _]]].
  exists w'. split; [exact Hrun | exact Htraffic].
Defined.

(** ** Open and release *)

Lemma eeprom_open_step (w : world) :
  0 <= eeprom_lock w < INT_MAX ->
  exists w',
    eeprom_open w = Some (fst (spec_open (open_state_of w)), w')
    /\ open_state_of w' = snd (spec_open (open_state_of w))
    /\ eeprom_lock w' = eeprom_lock w + 1
    /\ LPC_EEPROM w' = LPC_EEPROM w
    /\ user_mem w' = user_mem w
    /\ pe_log w' = pe_log w.
Proof.
  intros Hlock. unfold eeprom_open, open_state_of.
  rewrite to_int_id by (unfold INT_MAX in *; lia).
  eexists. split; [|split; [|split; [|split; [|split]]]].
  - destruct (eeprom_lock w >? 0); reflexivity.
  - cbn [eeprom_lock].
    replace (eeprom_lock w + 1 >? 0) with true
      by (symmetry; apply Z.gtb_lt; lia).
    destruct (eeprom_lock w >? 0); reflexivity.
  - reflexivity.
  - reflexivity.
  - reflexivity.
  - reflexivity.
Qed.

Lemma lock_run_refines (fuel : nat) (rqs : list request) :
  forall s0 : session,
    0 <= eeprom_lock (machine s0) ->
    eeprom_lock (machine s0) + Z.of_nat (length rqs) <= INT_MAX ->
    Forall lock_request rqs ->
    exists s,
      run fuel rqs s0 = Some s
      /\ results fuel rqs s0
         = Some (fst (spec_run rqs (open_state_of (machine s0))))
      /\ open_state_of (machine s)
         = snd (spec_run rqs (open_state_of (machine s0)))
      /\ 0 <= eeprom_lock (machine s)
         <= eeprom_lock (machine s0) + Z.of_nat (length rqs)
      /\ LPC_EEPROM (machine s) = LPC_EEPROM (machine s0).
Proof.
  induction rqs as [|rq rest IH]; intros s0 Hlo Hhi Hrq.
  - exists s0. cbn [run results spec_run fst snd length]. repeat split; lia.
  - inversion Hrq as [|? ? Hhead Hrest]; subst.
    cbn [length] in Hhi. rewrite Nat2Z.inj_succ in Hhi.
    destruct rq; try contradiction.
    + destruct (eeprom_open_step (machine s0)) as [w' (Ho & Hst & Hl & Hd & _)];
        [lia|].
      set (s1 := mkSession w'
                   (if fst (spec_open (open_state_of (machine s0))) =? 0
                    then 0 else f_pos s0)).
      destruct (IH s1) as [s (Hr & Hres & Hos & Hb & Hdev)];
        [unfold s1; cbn [machine]; lia | unfold s1; cbn [machine]; lia
        | exact Hrest |].
      unfold s1 in *. clear s1.
      cbn [machine] in Hres, Hos, Hb, Hdev. rewrite Hst in Hres, Hos.
      exists s. cbn [run results dispatch spec_run]. unfold sys_open.
      rewrite Ho. cbn [fst snd]. rewrite Hr, Hres.
      destruct (spec_open (open_state_of (machine s0))) as [r st'].
      cbn [fst snd] in *.
      destruct (spec_run rest st') as [rs st''].
      cbn [fst snd option_map] in *.
      repeat split; try assumption; try lia;
        [cbn [length]; rewrite Nat2Z.inj_succ; lia | congruence].
    + set (s1 := mkSession
                   (mkWorld (LPC_EEPROM (machine s0)) (user_mem (machine s0)) 0
                      (access_ok (machine s0)) (pe_log (machine s0)))
                   (f_pos s0)).
      destruct (IH s1) as [s (Hr & Hres & Hos & Hb & Hdev)];
        [unfold s1; cbn [machine eeprom_lock]; lia
        | unfold s1; cbn [machine eeprom_lock]; lia | exact Hrest |].
      change (open_state_of (machine s1)) with free in Hos, Hres.
      unfold s1 in *. clear s1.
      exists s. cbn [run results dispatch spec_run]. unfold sys_release.
      unfold eeprom_release. rewrite Hr, Hres.
      unfold spec_release.
      destruct (spec_run rest free) as [rs st''] eqn:Hsr.
      cbn [fst snd option_map machine eeprom_lock LPC_EEPROM] in *.
      repeat split; try assumption; try lia.
      cbn [length]; rewrite Nat2Z.inj_succ; lia.
Qed.

(** X19: along every sequence of fewer than INT_MAX open and release calls
    from the free state the driver follows the free/held machine: an open
    of the free device succeeds and holds it; an open while held fails
    with -EBUSY, leaves the device held and changes neither the holder's
    file position nor the peripheral (its timing registers and its
    contents) nor user memory; release succeeds and frees the device. *)
Theorem open_release_state_machine
  (fuel : nat) (rqs : list request) (s0 : session) :
  eeprom_lock (machine s0) = 0 ->
  Forall lock_request rqs ->
  Z.of_nat (length rqs) < INT_MAX ->
  exists s,
    run fuel rqs s0 = Some s
    /\ results fuel rqs s0 = Some (fst (spec_run rqs free))
    /\ open_state_of (machine s) = snd (spec_run rqs free)
    /\ LPC_EEPROM (machine s) = LPC_EEPROM (machine s0)
    /\ (open_state_of (machine s) = free ->
        fst (sys_open s) = 0
        /\ open_state_of (machine (snd (sys_open s))) = held
        /\ f_pos (snd (sys_open s)) = 0)
    /\ (open_state_of (machine s) = held ->
        fst (sys_open s) = - EBUSY
        /\ open_state_of (machine (snd (sys_open s))) = held
        /\ f_pos (snd (sys_open s)) = f_pos s
        /\ LPC_EEPROM (machine (snd (sys_open s))) = LPC_EEPROM (machine s)
        /\ user_mem (machine (snd (sys_open s))) = user_mem (machine s))
    /\ fst (sys_release s) = 0
    /\ open_state_of (machine (snd (sys_release s))) = free.
Proof.
  intros Hfree Hrq Hlen.
  destruct (lock_run_refines fuel rqs s0) as [s (Hr & Hres & Hos & Hb & Hdev)];
    [lia | lia | exact Hrq |].
  assert (Hinit : open_state_of (machine s0) = free)
    by (unfold open_state_of; rewrite Hfree; reflexivity).
  rewrite Hinit in Hres, Hos.
  exists s. split; [exact Hr|]. split; [exact Hres|]. split; [exact Hos|].
  split; [exact Hdev|].
  destruct (eeprom_open_step (machine s)) as [w' (Ho & Hst & Hl & Hd & Hu & _)];
    [lia|].
  split; [|split; [|split]].
  - intros Hf. unfold sys_open. rewrite Ho, Hf. cbn [spec_open fst snd machine f_pos].
    rewrite Hst, Hf. repeat split.
  - intros Hh. unfold sys_open. rewrite Ho, Hh.
    cbn [spec_open fst snd machine f_pos].
    rewrite Hst, Hh. repeat split; assumption.
  - reflexivity.
  - reflexivity.
Qed.

Lemma open_release_state_machine_witness :
  exists s,
    run 1 [Req_open; Req_open; Req_release; Req_open]
        (mkSession (boot ramp 0) 0) = Some s
    /\ results 1 [Req_open; Req_open; Req_release; Req_open]
         (mkSession (boot ramp 0) 0) = Some [0; - EBUSY; 0; 0]
    /\ open_state_of (machine s) = held.
Proof.
  destruct (open_release_state_machine 1
              [Req_open; Req_open; Req_release; Req_open]
              (mkSession (boot ramp 0) 0))
    as [s (Hr & Hres & Hos & _)].
  - reflexivity.
  - repeat constructor.
  - vm_compute. reflexivity.
  - exists s. split; [exact Hr|]. split; [exact Hres | exact Hos].
Defined.

(** ** The lock counter past its range

    A failed open increments [eeprom_lock] like a successful one, and only
    release resets it. *)

Lemma failed_opens (fuel : nat) (rest : list request) (n : nat) :
  forall s : session,
    0 < eeprom_lock (machine s) ->
    eeprom_lock (machine s) + Z.of_nat n <= INT_MAX ->
    run fuel (repeat Req_open n ++ rest) s
    = run fuel rest (with_lock s (eeprom_lock (machine s) + Z.of_nat n))
    /\ results fuel (repeat Req_open n ++ rest) s
       = option_map (app (repeat (- EBUSY) n))
           (results fuel rest
              (with_lock s (eeprom_lock (machine s) + Z.of_nat n))).
Proof.
  induction n as [|n IH]; intros s Hheld Hmax.
  - assert (Hs : with_lock s (eeprom_lock (machine s) + Z.of_nat 0) = s).
    { destruct s as [[p m l a g] pos]. unfold with_lock.
      cbn [machine f_pos LPC_EEPROM user_mem eeprom_lock access_ok pe_log].
      rewrite Z.add_0_r. reflexivity. }
    rewrite Hs. cbn [repeat app]. split; [reflexivity|].
    destruct (results fuel rest s); reflexivity.
  - rewrite Nat2Z.inj_succ in Hmax.
    assert (Hopen : sys_open s
                    = (- EBUSY, with_lock s (eeprom_lock (machine s) + 1))).
    { unfold sys_open, eeprom_open, with_lock.
      rewrite to_int_id by (unfold INT_MAX in *; lia).
      replace (eeprom_lock (machine s) >? 0) with true
        by (symmetry; apply Z.gtb_lt; lia).
      reflexivity. }
    assert (Hst : with_lock (with_lock s (eeprom_lock (machine s) + 1))
                    (eeprom_lock
                       (machine (with_lock s (eeprom_lock (machine s) + 1)))
                     + Z.of_nat n)
                  = with_lock s (eeprom_lock (machine s) + Z.of_nat (S n))).
    { cbn [with_lock machine f_pos LPC_EEPROM user_mem eeprom_lock access_ok
             pe_log].
      rewrite Nat2Z.inj_succ.
      replace (eeprom_lock (machine s) + 1 + Z.of_nat n)
        with (eeprom_lock (machine s) + Z.succ (Z.of_nat n)) by lia.
      reflexivity. }
    destruct (IH (with_lock s (eeprom_lock (machine s) + 1))) as [Hrun Hres].
    + cbn [with_lock machine eeprom_lock]. lia.
    + cbn [with_lock machine eeprom_lock]. lia.
    + rewrite Hst in Hrun, Hres.
      cbn [repeat app run results dispatch]. rewrite Hopen, Hrun, Hres.
      split; [reflexivity|].
      destruct (results fuel rest
                  (with_lock s (eeprom_lock (machine s) + Z.of_nat (S n))));
        reflexivity.
Qed.

Lemma spec_run_failed_opens (rest : list request) (n : nat) :
  spec_run (repeat Req_open n ++ rest) held
  = (repeat (- EBUSY) n ++ fst (spec_run rest held),
     snd (spec_run rest held)).
Proof.
  induction n as [|n IH].
  - cbn [repeat app]. destruct (spec_run rest held); reflexivity.
  - cbn [repeat app spec_run spec_open]. rewrite IH. reflexivity.
Qed.

(** From the free state: one open that succeeds, [failing] opens that
    fail and bring the lock counter to INT_MAX, one more that fails and
    wraps it, and then an open that succeeds. *)
Lemma lock_counter_wraps (failing : nat) :
  1 + Z.of_nat failing = INT_MAX ->
  let s0 := mkSession (boot ramp 0) 0 in
  let wrapped := Req_open :: repeat Req_open failing ++ [Req_open] in
  Forall lock_request (wrapped ++ [Req_open])
  /\ results 1 (wrapped ++ [Req_open]) s0
     = Some (0 :: repeat (- EBUSY) failing ++ [- EBUSY; 0])
  /\ fst (spec_run (wrapped ++ [Req_open]) free)
     = 0 :: repeat (- EBUSY) failing ++ [- EBUSY; - EBUSY]
  /\ run 1 wrapped s0 = Some (with_lock s0 (- 2 ^ 31))
  /\ open_state_of (machine (with_lock s0 (- 2 ^ 31))) = free
  /\ snd (spec_run wrapped free) = held.
Proof.
  intros Hm s0 wrapped. unfold wrapped.
  assert (Hopen : sys_open s0 = (0, with_lock s0 1)) by reflexivity.
  assert (Hwrap : sys_open (with_lock s0 INT_MAX)
                  = (- EBUSY, with_lock s0 (- 2 ^ 31))) by reflexivity.
  assert (Hagain : sys_open (with_lock s0 (- 2 ^ 31))
                   = (0, with_lock s0 (- 2 ^ 31 + 1))) by reflexivity.
  assert (Hat : with_lock (with_lock s0 1)
                  (eeprom_lock (machine (with_lock s0 1)) + Z.of_nat failing)
                = with_lock s0 INT_MAX).
  { cbn [with_lock machine eeprom_lock f_pos LPC_EEPROM user_mem access_ok
           pe_log]. rewrite Hm. reflexivity. }
  split; [|split; [|split; [|split; [|split]]]].
  - cbn [app]. constructor; [exact I|].
    rewrite <- app_assoc. apply Forall_app. split.
    + apply Forall_forall. intros rq Hin.
      rewrite (repeat_spec _ _ _ Hin). exact I.
    + repeat constructor.
  - cbn [app results dispatch]. rewrite Hopen, <- app_assoc.
    destruct (failed_opens 1 ([Req_open] ++ [Req_open]) failing
                (with_lock s0 1)) as [_ Hres].
    + cbn [with_lock machine eeprom_lock]. lia.
    + cbn [with_lock machine eeprom_lock]. lia.
    + rewrite Hres, Hat. cbn [app results dispatch].
      rewrite Hwrap, Hagain. reflexivity.
  - cbn [app spec_run spec_open]. rewrite <- app_assoc.
    rewrite spec_run_failed_opens. reflexivity.
  - cbn [app run dispatch]. rewrite Hopen.
    destruct (failed_opens 1 [Req_open] failing (with_lock s0 1))
      as [Hrun _].
    + cbn [with_lock machine eeprom_lock]. lia.
    + cbn [with_lock machine eeprom_lock]. lia.
    + rewrite Hrun, Hat. cbn [run dispatch]. rewrite Hwrap. reflexivity.
  - reflexivity.
  - cbn [app spec_run spec_open]. rewrite spec_run_failed_opens. reflexivity.
Qed.

(** C5 (the code departs from it): the lock counter is an [int] that every
    failed open increments.  From the free state, one open takes the
    device and INT_MAX - 1 further opens fail and bring the counter to
    INT_MAX; the next open still fails but wraps the counter to INT_MIN,
    which the test [eeprom_lock > 0] reads as free; so the open after
    that succeeds although the device was never released, where the
    state machine answers BUSY. *)
Theorem eeprom_open_succeeds_while_held :
  let s0 := mkSession (boot ramp 0) 0 in
  let failing := Z.to_nat (INT_MAX - 1) in
  let wrapped := Req_open :: repeat Req_open failing ++ [Req_open] in
  Forall lock_request (wrapped ++ [Req_open])
  /\ results 1 (wrapped ++ [Req_open]) s0
     = Some (0 :: repeat (- EBUSY) failing ++ [- EBUSY; 0])
  /\ fst (spec_run (wrapped ++ [Req_open]) free)
     = 0 :: repeat (- EBUSY) failing ++ [- EBUSY; - EBUSY]
  /\ run 1 wrapped s0 = Some (with_lock s0 (- 2 ^ 31))
  /\ open_state_of (machine (with_lock s0 (- 2 ^ 31))) = free
  /\ snd (spec_run wrapped free) = held.
Proof.
  apply (lock_counter_wraps (Z.to_nat (INT_MAX - 1))).
  rewrite Z2Nat.id; unfold INT_MAX; lia.
Qed.

(** ** The peripheral and the completion wait *)

Lemma same_kernel_refl (w : world) : same_kernel w w.
Proof. repeat split. Qed.

Lemma same_kernel_trans (w1 w2 w3 : world) :
  same_kernel w1 w2 -> same_kernel w2 w3 -> same_kernel w1 w3.
Proof.
  unfold same_kernel. intros (A1 & B1 & C1) (A2 & B2 & C2).
  repeat split; congruence.
Qed.

Lemma land_lor_absorb (a m : Z) : Z.land (Z.lor a m) m = m.
Proof.
  apply Z.bits_inj'. intros i _.
  rewrite Z.land_spec, Z.lor_spec.
  destruct (Z.testbit a i), (Z.testbit m i); reflexivity.
Qed.

Lemma land_lor_raised (a b m : Z) :
  Z.land (Z.lor a (Z.lor b m)) m = m.
Proof. rewrite Z.lor_assoc. apply land_lor_absorb. Qed.

Lemma polls_are_silent (polls : list bus_event) :
  Forall is_poll polls -> cmd_addr_stores polls = [].
Proof.
  induction 1 as [|e l [v ->] _ IH]; [reflexivity|].
  unfold cmd_addr_stores in *. cbn [filter is_cmd_addr]. exact IH.
Qed.

(** The wait returns as soon as the operation in flight has had its
    latency, provided the bits waited for are raised or due. *)
Lemma EEPROM_WaitForIntStatus_returns (mask : Z) (fuel : nat) :
  forall w : world,
    (busy (LPC_EEPROM w) < fuel)%nat ->
    Z.land (Z.lor (regs (LPC_EEPROM w) INTSTAT) (due (LPC_EEPROM w))) mask
    = mask ->
    exists w' polls,
      EEPROM_WaitForIntStatus fuel mask w = Some (tt, w')
      /\ same_kernel w w'
      /\ user_mem w' = user_mem w
      /\ pe_log w' = pe_log w
      /\ same_data (LPC_EEPROM w) (LPC_EEPROM w')
      /\ polls <> []
      /\ Forall is_poll polls
      /\ traffic (LPC_EEPROM w')
         = traffic (LPC_EEPROM w) ++ polls ++ [StoreTo INTSTATCLR mask].
Proof.
  induction fuel as [|fuel IH]; intros w Hbusy Hbits; [lia|].
  cbn [EEPROM_WaitForIntStatus]. unfold bind, EEPROM_GetIntStatus, load.
  cbn [mmio_load]. unfold poll.
  destruct (busy (LPC_EEPROM w)) as [|n] eqn:Hb.
  - cbn [regs reg_eqb]. rewrite Hbits, Z.eqb_refl.
    unfold EEPROM_ClearIntStatus, store. cbn [LPC_EEPROM user_mem eeprom_lock access_ok pe_log].
    eexists. exists [LoadFrom INTSTAT
                  (Z.lor (regs (LPC_EEPROM w) INTSTAT) (due (LPC_EEPROM w)))].
    split; [reflexivity|].
    cbn [LPC_EEPROM user_mem eeprom_lock access_ok pe_log mmio_store
           record_event latch regs page_register cells latency traffic].
    repeat split.
    + intros r Hr. destruct r; try reflexivity. contradiction.
    + discriminate.
    + repeat constructor. eexists. reflexivity.
    + rewrite <- app_assoc. reflexivity.
  - cbn [regs record_event].
    destruct (Z.land (regs (LPC_EEPROM w) INTSTAT) mask =? mask) eqn:Hnow.
    + unfold EEPROM_ClearIntStatus, store.
      eexists. exists [LoadFrom INTSTAT (regs (LPC_EEPROM w) INTSTAT)].
      split; [reflexivity|].
      cbn [LPC_EEPROM user_mem eeprom_lock access_ok pe_log mmio_store
             record_event latch regs page_register cells latency traffic].
      repeat split.
      * intros r Hr. destruct r; try reflexivity. contradiction.
      * discriminate.
      * repeat constructor. eexists. reflexivity.
      * rewrite <- app_assoc. reflexivity.
    + match goal with
      | |- context [EEPROM_WaitForIntStatus fuel mask ?w1] =>
          destruct (IH w1) as [w' [polls (Hrun & Hk & Hu & Hl & Hd & Hne & Hp & Ht)]]
      end.
      * cbn [LPC_EEPROM busy record_event]. lia.
      * cbn [LPC_EEPROM regs due record_event]. exact Hbits.
      * exists w'.
        exists (LoadFrom INTSTAT (regs (LPC_EEPROM w) INTSTAT) :: polls).
        split; [exact Hrun|].
        cbn [LPC_EEPROM user_mem eeprom_lock access_ok pe_log record_event
               regs page_register cells latency traffic] in *.
        repeat split; try assumption; try (apply Hk); try (apply Hd).
        -- discriminate.
        -- constructor; [eexists; reflexivity | exact Hp].
        -- rewrite Ht, <- app_assoc. reflexivity.
Qed.

(** ** Page engine *)

Ltac unfold_ri :=
  unfold bind, ret, log_call, user_get, user_put, EEPROM_ClearIntStatus,
    EEPROM_SetAddr, EEPROM_SetCmd, EEPROM_WriteData, EEPROM_ReadData, store,
    load.

Ltac simpl_machine :=
  cbn [LPC_EEPROM user_mem eeprom_lock access_ok pe_log mmio_store mmio_load
         record_event latch complete_later post_increment program fetch stage
         regs page_register cells latency busy due traffic reg_eqb fst snd].

Ltac simpl_machine_in H :=
  cbn [LPC_EEPROM user_mem eeprom_lock access_ok pe_log mmio_store mmio_load
         record_event latch complete_later post_increment program fetch stage
         regs page_register cells latency busy due traffic reg_eqb fst snd]
    in H.

Lemma EEPROM_EraseProgramPage_returns (fuel : nat) (pageAddr : Z) (w : world) :
  (latency (LPC_EEPROM w) < fuel)%nat ->
  exists w' polls,
    EEPROM_EraseProgramPage fuel pageAddr w = Some (tt, w')
    /\ same_kernel w w'
    /\ user_mem w' = user_mem w
    /\ pe_log w' = pe_log w ++ [Call_EraseProgramPage pageAddr]
    /\ polls <> []
    /\ Forall is_poll polls
    /\ traffic (LPC_EEPROM w')
       = traffic (LPC_EEPROM w)
         ++ [StoreTo INTSTATCLR EEPROM_CMD_ERASE_PRG_PAGE;
             StoreTo ADDR (to_u32 (Z.lor (Z.shiftl pageAddr 6) 0));
             StoreTo CMD EEPROM_CMD_ERASE_PRG_PAGE]
         ++ polls ++ [StoreTo INTSTATCLR EEPROM_INT_ENDOFPROG].
Proof.
  intros Hfuel. unfold EEPROM_EraseProgramPage. unfold_ri. simpl_machine.
  change (cmd_op EEPROM_CMD_ERASE_PRG_PAGE =? EEPROM_CMD_ERASE_PRG_PAGE)
    with true. cbv iota. simpl_machine.
  match goal with
  | |- context [EEPROM_WaitForIntStatus fuel _ ?w1] =>
      destruct (EEPROM_WaitForIntStatus_returns EEPROM_INT_ENDOFPROG fuel w1)
        as [w' [polls (Hrun & Hk & Hu & Hl & Hd & Hne & Hp & Ht)]]
  end.
  - simpl_machine. exact Hfuel.
  - simpl_machine. apply land_lor_raised.
  - exists w', polls. split; [exact Hrun|].
    simpl_machine_in Hk. simpl_machine_in Hu. simpl_machine_in Hl.
    simpl_machine_in Ht.
    repeat split; try assumption; try apply Hk.
    rewrite Ht. rewrite <- !app_assoc. reflexivity.
Qed.

(** C3 (the code departs from it): the first register action of
    erase-program-page is a store of the command value 6 to the
    status-clear register, which clears status bits 1 and 2 and not
    END_OF_PROG (bit 28); a stale END_OF_PROG therefore survives, and the
    completion wait that follows the ERASE_PROGRAM command returns at its
    first poll while the programming is still in flight. *)
Theorem EEPROM_EraseProgramPage_clears_command_bits :
  let stale :=
    mkWorld (mkPeripheral (fun r => if reg_eqb r INTSTAT
                                    then EEPROM_INT_ENDOFPROG else 0)
               (fun _ => 0) ramp 2%nat O 0 [])
      (fun _ => 0) 1 (fun _ _ => true) [] in
  exists w',
    EEPROM_EraseProgramPage 3 0 stale = Some (tt, w')
    /\ traffic (LPC_EEPROM w')
       = [StoreTo INTSTATCLR 6; StoreTo ADDR 0;
          StoreTo CMD EEPROM_CMD_ERASE_PRG_PAGE;
          LoadFrom INTSTAT EEPROM_INT_ENDOFPROG;
          StoreTo INTSTATCLR EEPROM_INT_ENDOFPROG]
    /\ Z.testbit 6 28 = false
    /\ Z.testbit EEPROM_INT_ENDOFPROG 28 = true
    /\ busy (LPC_EEPROM w') = 1%nat.
Proof.
  intros stale. eexists. split; [vm_compute; reflexivity|].
  cbn [LPC_EEPROM traffic busy]. repeat split.
Qed.

Lemma cmd_addr_stores_app (t1 t2 : list bus_event) :
  cmd_addr_stores (t1 ++ t2) = cmd_addr_stores t1 ++ cmd_addr_stores t2.
Proof. apply filter_app. Qed.

Lemma EEPROM_WritePageRegister_loop_returns (fuel : nat) (pData : Z) (n : nat) :
  forall (i : Z) (w : world),
    (latency (LPC_EEPROM w) < fuel)%nat ->
    cmd_op (regs (LPC_EEPROM w) CMD) = EEPROM_CMD_8BITS_WRITE ->
    exists w' t,
      EEPROM_WritePageRegister_loop fuel pData i n w = Some (tt, w')
      /\ same_kernel w w'
      /\ user_mem w' = user_mem w
      /\ pe_log w' = pe_log w
      /\ cmd_addr_stores t = []
      /\ traffic (LPC_EEPROM w') = traffic (LPC_EEPROM w) ++ t.
Proof.
  induction n as [|n IH]; intros i w Hfuel Hcmd.
  - exists w, []. cbn [EEPROM_WritePageRegister_loop]. unfold ret.
    rewrite app_nil_r. repeat split.
  - cbn [EEPROM_WritePageRegister_loop]. unfold_ri. simpl_machine.
    rewrite Hcmd, Z.eqb_refl. simpl_machine.
    match goal with
    | |- context [EEPROM_WaitForIntStatus fuel _ ?w1] =>
        destruct (EEPROM_WaitForIntStatus_returns EEPROM_INT_ENDOFRW fuel w1)
          as [w2 [polls (Hrun & Hk & Hu & Hl & Hd & Hne & Hp & Ht)]]
    end.
    + simpl_machine. exact Hfuel.
    + simpl_machine. apply land_lor_raised.
    + rewrite Hrun.
      simpl_machine_in Hk. simpl_machine_in Hu. simpl_machine_in Hl.
      simpl_machine_in Ht. destruct Hd as (Hregs & _).
      simpl_machine_in Hregs.
      destruct Hk as (Hk1 & Hk2 & Hk3).
      destruct (IH (i + 1) w2) as [w' [t (Hrun' & Hk' & Hu' & Hl' & Hs' & Ht')]].
      * rewrite Hk3. exact Hfuel.
      * rewrite (Hregs CMD) by discriminate. exact Hcmd.
      * exists w'.
        exists ([StoreTo WDATA (to_u8 (user_mem w (pData + i)))] ++ polls
                ++ [StoreTo INTSTATCLR EEPROM_INT_ENDOFRW] ++ t).
        split; [exact Hrun'|].
        split; [apply (same_kernel_trans w w2 w');
                [repeat split; assumption | exact Hk']|].
        split; [congruence|]. split; [congruence|].
        split.
        -- rewrite !cmd_addr_stores_app, (polls_are_silent polls Hp), Hs'.
           reflexivity.
        -- rewrite Ht', Ht. rewrite <- !app_assoc. reflexivity.
Qed.

Lemma EEPROM_WritePageRegister_returns
  (fuel : nat) (pageOffset pData byteNum : Z) (w : world) :
  (latency (LPC_EEPROM w) < fuel)%nat ->
  exists w' t,
    EEPROM_WritePageRegister fuel pageOffset pData byteNum w
    = Some (byteNum, w')
    /\ same_kernel w w'
    /\ user_mem w' = user_mem w
    /\ pe_log w' = pe_log w ++ [Call_WritePageRegister pageOffset pData byteNum]
    /\ cmd_addr_stores t
       = [StoreTo CMD EEPROM_CMD_8BITS_WRITE;
          StoreTo ADDR (to_u32 (Z.lor (Z.shiftl 0 6) pageOffset))]
    /\ traffic (LPC_EEPROM w') = traffic (LPC_EEPROM w) ++ t.
Proof.
  intros Hfuel. unfold EEPROM_WritePageRegister. unfold_ri. simpl_machine.
  change (cmd_op EEPROM_CMD_8BITS_WRITE =? EEPROM_CMD_ERASE_PRG_PAGE)
    with false.
  change (cmd_op EEPROM_CMD_8BITS_WRITE =? EEPROM_CMD_8BITS_READ) with false.
  cbv iota. simpl_machine.
  match goal with
  | |- context [EEPROM_WritePageRegister_loop fuel pData 0 ?n ?w1] =>
      destruct (EEPROM_WritePageRegister_loop_returns fuel pData n 0 w1)
        as [w' [t (Hrun & Hk & Hu & Hl & Hs & Ht)]]
  end.
  - simpl_machine. exact Hfuel.
  - simpl_machine. reflexivity.
  - rewrite Hrun. exists w'.
    exists ([StoreTo INTSTATCLR EEPROM_INT_ENDOFRW;
             StoreTo CMD EEPROM_CMD_8BITS_WRITE;
             StoreTo ADDR (to_u32 (Z.lor (Z.shiftl 0 6) pageOffset))] ++ t).
    simpl_machine_in Hk. simpl_machine_in Hu. simpl_machine_in Hl.
    simpl_machine_in Ht.
    split; [reflexivity|]. split; [exact Hk|]. split; [exact Hu|].
    split; [exact Hl|]. split.
    + rewrite cmd_addr_stores_app, Hs. reflexivity.
    + rewrite Ht. rewrite <- !app_assoc. reflexivity.
Qed.

Lemma EEPROM_Read_loop_returns (fuel : nat) (pData : Z) (n : nat) :
  forall (i : Z) (w : world),
    (latency (LPC_EEPROM w) < fuel)%nat ->
    regs (LPC_EEPROM w) CMD = read_prefetch ->
    exists w',
      EEPROM_Read_loop fuel pData i n w = Some (tt, w')
      /\ same_kernel w w'
      /\ pe_log w' = pe_log w.
Proof.
  induction n as [|n IH]; intros i w Hfuel Hcmd.
  - exists w. cbn [EEPROM_Read_loop]. unfold ret. repeat split.
  - cbn [EEPROM_Read_loop]. unfold_ri. simpl_machine.
    rewrite Hcmd.
    change ((cmd_op read_prefetch =? EEPROM_CMD_8BITS_READ)
            && cmd_prefetch read_prefetch) with true.
    cbv iota. simpl_machine.
    match goal with
    | |- context [EEPROM_WaitForIntStatus fuel _ ?w1] =>
        destruct (EEPROM_WaitForIntStatus_returns EEPROM_INT_ENDOFRW fuel w1)
          as [w2 [polls (Hrun & Hk & Hu & Hl & Hd & _)]]
    end.
    + simpl_machine. exact Hfuel.
    + simpl_machine. apply land_lor_raised.
    + rewrite Hrun.
      simpl_machine_in Hk. simpl_machine_in Hl.
      destruct Hd as (Hregs & _). simpl_machine_in Hregs.
      destruct Hk as (Hk1 & Hk2 & Hk3).
      destruct (IH (i + 1) w2) as [w' (Hrun' & Hk' & Hl')].
      * rewrite Hk3. exact Hfuel.
      * rewrite (Hregs CMD) by discriminate. exact Hcmd.
      * exists w'. split; [exact Hrun'|].
        split; [apply (same_kernel_trans w w2 w');
                [repeat split; assumption | exact Hk']|].
        congruence.
Qed.

Lemma EEPROM_Read_returns
  (fuel : nat) (pageOffset pageAddr pData byteNum : Z) (w : world) :
  (latency (LPC_EEPROM w) < fuel)%nat ->
  exists w',
    EEPROM_Read fuel pageOffset pageAddr pData byteNum w = Some (byteNum, w')
    /\ same_kernel w w'
    /\ pe_log w' = pe_log w ++ [Call_Read pageOffset pageAddr pData byteNum].
Proof.
  intros Hfuel. unfold EEPROM_Read. unfold_ri. simpl_machine.
  fold read_prefetch.
  change (cmd_op read_prefetch =? EEPROM_CMD_ERASE_PRG_PAGE) with false.
  change (cmd_op read_prefetch =? EEPROM_CMD_8BITS_READ) with true.
  cbv iota. simpl_machine.
  match goal with
  | |- context [EEPROM_Read_loop fuel pData 0 ?n ?w1] =>
      destruct (EEPROM_Read_loop_returns fuel pData n 0 w1)
        as [w' (Hrun & Hk & Hl)]
  end.
  - simpl_machine. exact Hfuel.
  - simpl_machine. reflexivity.
  - rewrite Hrun. exists w'.
    simpl_machine_in Hk. simpl_machine_in Hl.
    split; [reflexivity|]. split; [exact Hk | exact Hl].
Qed.

(** ** The chunks of a request *)

Lemma st_chunk_bounds (pos remaining : Z) :
  remaining > 0 ->
  0 < st_chunk pos remaining <= remaining
  /\ pos mod EEPROM_PAGE_SIZE + st_chunk pos remaining <= EEPROM_PAGE_SIZE.
Proof.
  intros Hrem. unfold st_chunk.
  assert (0 <= pos mod EEPROM_PAGE_SIZE < EEPROM_PAGE_SIZE)
    by (apply Z.mod_pos_bound; reflexivity).
  unfold EEPROM_PAGE_SIZE in *. lia.
Qed.

Lemma st_chunks_step (pos remaining : Z) :
  remaining > 0 ->
  st_chunks pos remaining
  = (pos / EEPROM_PAGE_SIZE, pos mod EEPROM_PAGE_SIZE, st_chunk pos remaining)
    :: st_chunks (pos + st_chunk pos remaining)
         (remaining - st_chunk pos remaining).
Proof.
  intros Hrem. rewrite st_chunks_equation_1.
  destruct (Z_gt_dec remaining 0); [reflexivity | contradiction].
Qed.

Lemma st_chunks_done (pos remaining : Z) :
  remaining <= 0 -> st_chunks pos remaining = [].
Proof.
  intros Hrem. rewrite st_chunks_equation_1.
  destruct (Z_gt_dec remaining 0); [lia | reflexivity].
Qed.

Lemma transferred_app (l1 l2 : list pe_call) :
  transferred (l1 ++ l2) = transferred l1 + transferred l2.
Proof.
  unfold transferred. induction l1 as [|c l1 IH]; cbn [app fold_right]; lia.
Qed.

Lemma st_chunks_transferred (pos remaining : Z) :
  0 <= remaining ->
  forall buf,
    transferred (read_calls buf (st_chunks pos remaining)) = remaining
    /\ transferred (st_write_calls buf (st_chunks pos remaining)) = remaining.
Proof.
  funelim (st_chunks pos remaining); intros Hrem buf.
  - pose proof (st_chunk_bounds pos remaining g) as [Hc _].
    destruct (H ltac:(lia) buf) as [IHr _].
    destruct (H ltac:(lia) (buf + st_chunk pos remaining)) as [_ IHw].
    unfold transferred in *.
    cbn [read_calls map st_write_calls fold_right bytes_of].
    unfold read_calls in IHr. rewrite IHr, IHw. lia.
  - split; cbn; lia.
Qed.

Lemma st_chunks_preconditions (pos remaining : Z) :
  0 <= pos -> pos + remaining <= CAPACITY ->
  forall buf,
    Forall pe_precondition (read_calls buf (st_chunks pos remaining))
    /\ Forall pe_precondition (st_write_calls buf (st_chunks pos remaining)).
Proof.
  funelim (st_chunks pos remaining); intros Hpos Hcap buf.
  - pose proof (st_chunk_bounds pos remaining g) as [Hc Hp].
    assert (Hm : 0 <= pos mod EEPROM_PAGE_SIZE < EEPROM_PAGE_SIZE)
      by (apply Z.mod_pos_bound; reflexivity).
    assert (Hd : 0 <= pos / EEPROM_PAGE_SIZE < EEPROM_PAGE_NUM).
    { unfold CAPACITY, EEPROM_PAGE_SIZE, EEPROM_PAGE_NUM in *. split.
      - apply Z.div_pos; lia.
      - apply Z.div_lt_upper_bound; lia. }
    destruct (H ltac:(lia) ltac:(lia) buf) as [IHr _].
    destruct (H ltac:(lia) ltac:(lia) (buf + st_chunk pos remaining))
      as [_ IHw].
    cbn [read_calls map st_write_calls]. split.
    + constructor; [|exact IHr]. cbn [pe_precondition]. lia.
    + constructor; [cbn [pe_precondition]; lia|].
      constructor; [cbn [pe_precondition]; lia | exact IHw].
  - split; constructor.
Qed.

Lemma erased_pages_st_write_calls (chunks : list (Z * Z * Z)) :
  forall buf,
    erased_pages (st_write_calls buf chunks)
    = map (fun c => fst (fst c)) chunks.
Proof.
  induction chunks as [|[[page page_offset] chunk] rest IH]; intros buf.
  - reflexivity.
  - cbn [st_write_calls erased_pages flat_map map fst app].
    unfold erased_pages in IH. rewrite IH. reflexivity.
Qed.

(** Each page that holds a byte of the request is the page of exactly one
    chunk, and the chunks come in increasing page order. *)
Lemma st_chunks_pages (pos remaining : Z) :
  0 <= pos ->
  map (fun c => fst (fst c)) (st_chunks pos remaining)
  = pages_touched pos remaining.
Proof.
  funelim (st_chunks pos remaining); intros Hpos.
  - pose proof (st_chunk_bounds pos remaining g) as [Hc Hp].
    assert (Hm : 0 <= pos mod EEPROM_PAGE_SIZE < EEPROM_PAGE_SIZE)
      by (apply Z.mod_pos_bound; reflexivity).
    cbn [map fst]. rewrite H by lia.
    unfold pages_touched.
    replace (remaining >? 0) with true by (symmetry; apply Z.gtb_lt; lia).
    pose proof (Z.div_mod pos EEPROM_PAGE_SIZE ltac:(discriminate)) as Hdm.
    destruct (Z_gt_dec (remaining - st_chunk pos remaining) 0) as [Hmore|Hlast].
    + replace (remaining - st_chunk pos remaining >? 0) with true
        by (symmetry; apply Z.gtb_lt; lia).
      assert (Hfull : st_chunk pos remaining
                      = EEPROM_PAGE_SIZE - pos mod EEPROM_PAGE_SIZE)
        by (unfold st_chunk in *; lia).
      assert (Hnext : (pos + st_chunk pos remaining) / EEPROM_PAGE_SIZE
                      = pos / EEPROM_PAGE_SIZE + 1).
      { replace (pos + st_chunk pos remaining)
          with ((pos / EEPROM_PAGE_SIZE + 1) * EEPROM_PAGE_SIZE) by lia.
        apply Z.div_mul. discriminate. }
      rewrite Hnext.
      replace (pos + st_chunk pos remaining
               + (remaining - st_chunk pos remaining) - 1)
        with (pos + remaining - 1) by lia.
      assert (Hle : pos / EEPROM_PAGE_SIZE + 1
                    <= (pos + remaining - 1) / EEPROM_PAGE_SIZE).
      { apply Z.div_le_lower_bound; [reflexivity|]. lia. }
      replace ((pos + remaining - 1) / EEPROM_PAGE_SIZE
               - pos / EEPROM_PAGE_SIZE + 1)
        with (Z.succ ((pos + remaining - 1) / EEPROM_PAGE_SIZE
                      - (pos / EEPROM_PAGE_SIZE + 1) + 1)) by lia.
      rewrite Z2Nat.inj_succ by lia. reflexivity.
    + replace (remaining - st_chunk pos remaining >? 0) with false
        by (symmetry; rewrite Z.gtb_ltb; apply Z.ltb_ge; lia).
      assert (Hsame : (pos + remaining - 1) / EEPROM_PAGE_SIZE
                      = pos / EEPROM_PAGE_SIZE).
      { symmetry.
        apply (Z.div_unique _ _ _ (pos mod EEPROM_PAGE_SIZE + remaining - 1));
          unfold EEPROM_PAGE_SIZE in *; lia. }
      rewrite Hsame, Z.sub_diag. reflexivity.
  - unfold pages_touched.
    replace (remaining >? 0) with false
      by (symmetry; rewrite Z.gtb_ltb; apply Z.ltb_ge; lia).
    reflexivity.
Qed.

(** ** Stream translation *)

(** The integer conversions of one loop iteration lose nothing while the
    request lies inside the device. *)
Lemma loop_step_arith (offset n : Z) :
  0 <= offset -> 0 < n -> offset + n <= CAPACITY ->
  let page_offset := to_size_t (Z.land offset (EEPROM_PAGE_SIZE - 1)) in
  to_u16 (Z.shiftr offset 6) = offset / EEPROM_PAGE_SIZE
  /\ page_offset = offset mod EEPROM_PAGE_SIZE
  /\ to_u16 page_offset = offset mod EEPROM_PAGE_SIZE
  /\ (if n >? to_size_t (EEPROM_PAGE_SIZE - page_offset)
      then to_size_t (EEPROM_PAGE_SIZE - page_offset) else n)
     = st_chunk offset n
  /\ to_size_t (n - st_chunk offset n) = n - st_chunk offset n
  /\ to_loff_t (offset + st_chunk offset n) = offset + st_chunk offset n.
Proof.
  intros Hoff Hn Hcap page_offset.
  assert (Hm : 0 <= offset mod EEPROM_PAGE_SIZE < EEPROM_PAGE_SIZE)
    by (apply Z.mod_pos_bound; reflexivity).
  assert (Hpo : page_offset = offset mod EEPROM_PAGE_SIZE).
  { unfold page_offset.
    change (EEPROM_PAGE_SIZE - 1) with (Z.ones 6).
    rewrite Z.land_ones by lia.
    change (2 ^ 6) with EEPROM_PAGE_SIZE.
    apply to_size_t_id. unfold is_size_t, SIZE_MAX, EEPROM_PAGE_SIZE in *. lia. }
  pose proof (st_chunk_bounds offset n ltac:(lia)) as [Hc Hp].
  unfold CAPACITY, EEPROM_PAGE_SIZE, EEPROM_PAGE_NUM in *.
  split; [|split; [|split; [|split; [|split]]]].
  - rewrite Z.shiftr_div_pow2 by lia. change (2 ^ 6) with 64.
    apply to_u16_id. split.
    + apply Z.div_pos; lia.
    + apply Z.div_lt_upper_bound; lia.
  - exact Hpo.
  - rewrite Hpo. apply to_u16_id. lia.
  - rewrite Hpo. unfold st_chunk, EEPROM_PAGE_SIZE.
    rewrite to_size_t_id by (unfold is_size_t, SIZE_MAX; lia).
    destruct (n >? 64 - offset mod 64) eqn:Hcmp.
    + apply Z.gtb_lt in Hcmp. lia.
    + rewrite Z.gtb_ltb in Hcmp. apply Z.ltb_ge in Hcmp. lia.
  - apply to_size_t_id. unfold is_size_t, SIZE_MAX. lia.
  - apply to_loff_t_id. unfold is_loff_t, LOFF_MIN, LOFF_MAX. lia.
Qed.

Lemma eeprom_read_loop_returns (fuel : nat) (buffer : Z) (iters : nat) :
  forall (to_read offset : Z) (w : world),
    (latency (LPC_EEPROM w) < fuel)%nat ->
    0 <= offset -> 0 <= to_read -> offset + to_read <= CAPACITY ->
    (Z.to_nat to_read <= iters)%nat ->
    exists w',
      eeprom_read_loop iters fuel buffer to_read offset w
      = Some (offset + to_read, w')
      /\ same_kernel w w'
      /\ pe_log w' = pe_log w ++ read_calls buffer (st_chunks offset to_read).
Proof.
  induction iters as [|iters IH];
    intros to_read offset w Hfuel Hoff Hrd Hcap Hiters.
  - assert (to_read = 0) by lia. subst to_read.
    exists w. cbn [eeprom_read_loop]. unfold ret.
    rewrite st_chunks_done by lia. cbn [read_calls map].
    rewrite Z.add_0_r, app_nil_r. repeat split.
  - cbn [eeprom_read_loop].
    destruct (to_read >? 0) eqn:Hpos.
    + apply Z.gtb_lt in Hpos.
      destruct (loop_step_arith offset to_read Hoff Hpos Hcap)
        as (Epage & Epo & _ & Echunk & Erest & Enext).
      cbv zeta. rewrite Echunk, Epage, Epo, Erest, Enext.
      pose proof (st_chunk_bounds offset to_read ltac:(lia)) as [Hc _].
      unfold bind at 1.
      destruct (EEPROM_Read_returns fuel (offset mod EEPROM_PAGE_SIZE)
                  (offset / EEPROM_PAGE_SIZE) buffer
                  (st_chunk offset to_read) w Hfuel)
        as [w1 (Hrun1 & Hk1 & Hl1)].
      rewrite Hrun1.
      destruct (IH (to_read - st_chunk offset to_read)
                  (offset + st_chunk offset to_read) w1)
        as [w' (Hrun & Hk & Hl)]; try lia.
      * destruct Hk1 as (_ & _ & Hlat). rewrite Hlat. exact Hfuel.
      * exists w'. split.
        -- rewrite Hrun. f_equal. f_equal. lia.
        -- split; [exact (same_kernel_trans w w1 w' Hk1 Hk)|].
           rewrite Hl, Hl1, (st_chunks_step offset to_read) by lia.
           cbn [read_calls map]. rewrite <- app_assoc. reflexivity.
    + rewrite Z.gtb_ltb in Hpos. apply Z.ltb_ge in Hpos.
      assert (to_read = 0) by lia. subst to_read.
      exists w. unfold ret.
      rewrite st_chunks_done by lia. cbn [read_calls map].
      rewrite Z.add_0_r, app_nil_r. repeat split.
Qed.

Lemma to_u32_page_address (page : Z) :
  0 <= page < EEPROM_PAGE_NUM ->
  to_u32 (Z.lor (Z.shiftl page 6) 0) = Z.shiftl page 6.
Proof.
  intros Hp. rewrite Z.lor_0_r. apply to_u32_id.
  rewrite Z.shiftl_mul_pow2 by lia. unfold EEPROM_PAGE_NUM in *. lia.
Qed.

Lemma to_u32_page_offset (page_offset : Z) :
  0 <= page_offset < EEPROM_PAGE_SIZE ->
  to_u32 (Z.lor (Z.shiftl 0 6) page_offset) = page_offset.
Proof.
  intros Hp. rewrite Z.shiftl_0_l, Z.lor_0_l. apply to_u32_id.
  unfold EEPROM_PAGE_SIZE in *. lia.
Qed.

Lemma eeprom_write_loop_returns (fuel : nat) (iters : nat) :
  forall (buffer to_write offset : Z) (w : world),
    (latency (LPC_EEPROM w) < fuel)%nat ->
    0 <= offset -> 0 <= to_write -> offset + to_write <= CAPACITY ->
    (Z.to_nat to_write <= iters)%nat ->
    exists w' t,
      eeprom_write_loop iters fuel buffer to_write offset w
      = Some (offset + to_write, w')
      /\ same_kernel w w'
      /\ user_mem w' = user_mem w
      /\ pe_log w'
         = pe_log w ++ st_write_calls buffer (st_chunks offset to_write)
      /\ cmd_addr_stores t
         = flat_map write_chunk_stores (st_chunks offset to_write)
      /\ traffic (LPC_EEPROM w') = traffic (LPC_EEPROM w) ++ t.
Proof.
  induction iters as [|iters IH];
    intros buffer to_write offset w Hfuel Hoff Hwr Hcap Hiters.
  - assert (to_write = 0) by lia. subst to_write.
    exists w, []. cbn [eeprom_write_loop]. unfold ret.
    rewrite st_chunks_done by lia. cbn [st_write_calls flat_map].
    rewrite Z.add_0_r, !app_nil_r. repeat split.
  - cbn [eeprom_write_loop].
    destruct (to_write >? 0) eqn:Hpos.
    + apply Z.gtb_lt in Hpos.
      destruct (loop_step_arith offset to_write Hoff Hpos Hcap)
        as (Epage & Epo & Epo16 & Echunk & Erest & Enext).
      cbv zeta. rewrite Echunk, Epage, Epo16, Erest, Enext.
      pose proof (st_chunk_bounds offset to_write ltac:(lia)) as [Hc _].
      assert (Hm : 0 <= offset mod EEPROM_PAGE_SIZE < EEPROM_PAGE_SIZE)
        by (apply Z.mod_pos_bound; reflexivity).
      assert (Hd : 0 <= offset / EEPROM_PAGE_SIZE < EEPROM_PAGE_NUM).
      { unfold CAPACITY, EEPROM_PAGE_SIZE, EEPROM_PAGE_NUM in *. split.
        - apply Z.div_pos; lia.
        - apply Z.div_lt_upper_bound; lia. }
      unfold bind at 1.
      destruct (EEPROM_WritePageRegister_returns fuel
                  (offset mod EEPROM_PAGE_SIZE) buffer
                  (st_chunk offset to_write) w Hfuel)
        as [w1 [t1 (Hrun1 & Hk1 & Hu1 & Hl1 & Hs1 & Ht1)]].
      rewrite Hrun1. unfold bind at 1.
      assert (Hfuel1 : (latency (LPC_EEPROM w1) < fuel)%nat)
        by (destruct Hk1 as (_ & _ & Hlat); rewrite Hlat; exact Hfuel).
      destruct (EEPROM_EraseProgramPage_returns fuel
                  (offset / EEPROM_PAGE_SIZE) w1 Hfuel1)
        as [w2 [polls (Hrun2 & Hk2 & Hu2 & Hl2 & _ & Hp2 & Ht2)]].
      rewrite Hrun2.
      destruct (IH (buffer + st_chunk offset to_write)
                  (to_write - st_chunk offset to_write)
                  (offset + st_chunk offset to_write) w2)
        as [w' [t (Hrun & Hk & Hu & Hl & Hs & Ht)]]; try lia.
      * destruct Hk2 as (_ & _ & Hlat). rewrite Hlat. exact Hfuel1.
      * exists w'.
        exists (t1 ++ ([StoreTo INTSTATCLR EEPROM_CMD_ERASE_PRG_PAGE;
                        StoreTo ADDR (to_u32 (Z.lor (Z.shiftl
                                        (offset / EEPROM_PAGE_SIZE) 6) 0));
                        StoreTo CMD EEPROM_CMD_ERASE_PRG_PAGE]
                       ++ polls ++ [StoreTo INTSTATCLR EEPROM_INT_ENDOFPROG])
                   ++ t).
        split; [rewrite Hrun; f_equal; f_equal; lia|].
        split; [exact (same_kernel_trans w w1 w' Hk1
                         (same_kernel_trans w1 w2 w' Hk2 Hk))|].
        split; [congruence|].
        split.
        -- rewrite Hl, Hl2, Hl1, (st_chunks_step offset to_write) by lia.
           cbn [st_write_calls]. rewrite <- !app_assoc. reflexivity.
        -- split.
           ++ rewrite (st_chunks_step offset to_write) by lia.
              cbn [flat_map write_chunk_stores].
              rewrite !cmd_addr_stores_app, Hs1, Hs,
                (polls_are_silent polls Hp2).
              rewrite to_u32_page_offset by exact Hm.
              rewrite to_u32_page_address by exact Hd.
              reflexivity.
           ++ rewrite Ht, Ht2, Ht1. rewrite <- !app_assoc. reflexivity.
    + rewrite Z.gtb_ltb in Hpos. apply Z.ltb_ge in Hpos.
      assert (to_write = 0) by lia. subst to_write.
      exists w, []. unfold ret.
      rewrite st_chunks_done by lia. cbn [st_write_calls flat_map].
      rewrite Z.add_0_r, !app_nil_r. repeat split.
Qed.

Lemma clamp_is_min (length offset : Z) :
  0 <= offset <= CAPACITY -> is_size_t length ->
  (if length >? to_size_t (EEPROM_PAGE_SIZE * EEPROM_PAGE_NUM - offset)
   then to_size_t (EEPROM_PAGE_SIZE * EEPROM_PAGE_NUM - offset) else length)
  = Z.min length (CAPACITY - offset).
Proof.
  intros Hoff Hlen. change (EEPROM_PAGE_SIZE * EEPROM_PAGE_NUM) with CAPACITY.
  rewrite to_size_t_id
    by (unfold is_size_t, SIZE_MAX, CAPACITY, EEPROM_PAGE_SIZE,
        EEPROM_PAGE_NUM in *; lia).
  destruct (length >? CAPACITY - offset) eqn:Hcmp.
  - apply Z.gtb_lt in Hcmp. lia.
  - rewrite Z.gtb_ltb in Hcmp. apply Z.ltb_ge in Hcmp. lia.
Qed.

Lemma eeprom_read_returns (fuel : nat) (buffer length offset : Z) (w : world) :
  0 <= offset <= CAPACITY -> is_size_t length ->
  access_ok w buffer length = true ->
  (latency (LPC_EEPROM w) < fuel)%nat -> (Z.to_nat CAPACITY <= fuel)%nat ->
  let n := Z.min length (CAPACITY - offset) in
  exists w',
    eeprom_read fuel buffer length offset w = Some ((n, offset + n), w')
    /\ same_kernel w w'
    /\ pe_log w' = pe_log w ++ read_calls buffer (st_chunks offset n).
Proof.
  intros Hoff Hlen Hok Hfuel Hiters n.
  assert (Hn : 0 <= n <= CAPACITY - offset)
    by (unfold n, is_size_t in *; lia).
  assert (HC : CAPACITY = 4032) by reflexivity.
  unfold eeprom_read. rewrite Hok. cbn [negb].
  rewrite (clamp_is_min length offset Hoff Hlen). fold n.
  destruct (n =? 0) eqn:Hz.
  - apply Z.eqb_eq in Hz. exists w. rewrite Hz, Z.add_0_r.
    rewrite st_chunks_done by lia. cbn [read_calls map].
    rewrite app_nil_r. repeat split.
  - unfold bind.
    destruct (eeprom_read_loop_returns fuel buffer fuel n offset w)
      as [w' (Hrun & Hk & Hl)]; try lia.
    exists w'. rewrite Hrun. unfold ret.
    rewrite to_int_id by (unfold INT_MAX; lia).
    repeat split; try apply Hk. exact Hl.
Qed.

Lemma eeprom_write_returns (fuel : nat) (buffer length offset : Z) (w : world) :
  0 <= offset <= CAPACITY -> is_size_t length ->
  access_ok w buffer length = true ->
  (latency (LPC_EEPROM w) < fuel)%nat -> (Z.to_nat CAPACITY <= fuel)%nat ->
  let n := Z.min length (CAPACITY - offset) in
  exists w' t,
    eeprom_write fuel buffer length offset w = Some ((n, offset + n), w')
    /\ same_kernel w w'
    /\ user_mem w' = user_mem w
    /\ pe_log w' = pe_log w ++ st_write offset buffer n
    /\ cmd_addr_stores t = flat_map write_chunk_stores (st_chunks offset n)
    /\ traffic (LPC_EEPROM w') = traffic (LPC_EEPROM w) ++ t.
Proof.
  intros Hoff Hlen Hok Hfuel Hiters n.
  assert (Hn : 0 <= n <= CAPACITY - offset)
    by (unfold n, is_size_t in *; lia).
  assert (HC : CAPACITY = 4032) by reflexivity.
  unfold eeprom_write, st_write. rewrite Hok. cbn [negb].
  rewrite (clamp_is_min length offset Hoff Hlen). fold n.
  destruct (n =? 0) eqn:Hz.
  - apply Z.eqb_eq in Hz. exists w, []. rewrite Hz, Z.add_0_r.
    rewrite st_chunks_done by lia. cbn [st_write_calls flat_map].
    rewrite !app_nil_r. repeat split.
  - unfold bind.
    destruct (eeprom_write_loop_returns fuel fuel buffer n offset w)
      as [w' [t (Hrun & Hk & Hu & Hl & Hs & Ht)]]; try lia.
    exists w', t. rewrite Hrun. unfold ret.
    rewrite to_int_id by (unfold INT_MAX; lia).
    repeat split; try apply Hk; assumption.
Qed.

(** C10: for a read or write at a position in [0, C], every call that the
    loops make into the page engine has a page index below 63, a page
    offset below 64, and a chunk that ends inside the page. *)
Theorem pe_calls_meet_preconditions
  (fuel : nat) (buffer len pos : Z) (w : world) :
  0 <= pos <= CAPACITY -> is_size_t len ->
  access_ok w buffer len = true ->
  (latency (LPC_EEPROM w) < fuel)%nat -> (Z.to_nat CAPACITY <= fuel)%nat ->
  (exists r w' calls,
     eeprom_read fuel buffer len pos w = Some (r, w')
     /\ pe_log w' = pe_log w ++ calls /\ Forall pe_precondition calls)
  /\ (exists r w' calls,
        eeprom_write fuel buffer len pos w = Some (r, w')
        /\ pe_log w' = pe_log w ++ calls /\ Forall pe_precondition calls).
Proof.
  intros Hpos Hlen Hok Hfuel Hiters.
  assert (Hn : pos + Z.min len (CAPACITY - pos) <= CAPACITY) by lia.
  split.
  - destruct (eeprom_read_returns fuel buffer len pos w Hpos Hlen Hok Hfuel
                Hiters) as [w' (Hrun & _ & Hl)].
    eexists. exists w'. eexists.
    split; [exact Hrun|]. split; [exact Hl|].
    apply st_chunks_preconditions; lia.
  - destruct (eeprom_write_returns fuel buffer len pos w Hpos Hlen Hok Hfuel
                Hiters) as [w' [t (Hrun & _ & _ & Hl & _)]].
    eexists. exists w'. eexists.
    split; [exact Hrun|]. split; [exact Hl|].
    apply st_chunks_preconditions; lia.
Qed.

Lemma pe_calls_meet_preconditions_witness :
  (exists r w' calls,
     eeprom_read 4032 1000 100 4000 (boot ramp 1) = Some (r, w')
     /\ pe_log w' = pe_log (boot ramp 1) ++ calls
     /\ Forall pe_precondition calls)
  /\ (exists r w' calls,
        eeprom_write 4032 1000 100 4000 (boot ramp 1) = Some (r, w')
        /\ pe_log w' = pe_log (boot ramp 1) ++ calls
        /\ Forall pe_precondition calls).
Proof.
  apply (pe_calls_meet_preconditions 4032 1000 100 4000 (boot ramp 1)).
  - unfold CAPACITY, EEPROM_PAGE_SIZE, EEPROM_PAGE_NUM. lia.
  - unfold is_size_t, SIZE_MAX. lia.
  - reflexivity.
  - cbn [boot idle_peripheral LPC_EEPROM latency]. lia.
  - unfold CAPACITY, EEPROM_PAGE_SIZE, EEPROM_PAGE_NUM. lia.
Defined.

(** C8: a write of [len] > 0 bytes that fits the device makes, chunk by
    chunk, the calls of the specification's loop: write_page_register at
    the page offset with the chunk at the advancing buffer, then
    erase_program_page of the page; so the pages programmed are the pages
    of the request, each once, in increasing order, and each chunk's
    ERASE_PROGRAM command follows an address store of its page; 8 bytes at
    position 60 split 4/4 over pages 0 and 1. *)
Theorem eeprom_write_translation
  (fuel : nat) (buffer len pos : Z) (w : world) :
  0 <= pos -> 0 < len -> pos + len <= CAPACITY ->
  access_ok w buffer len = true ->
  (latency (LPC_EEPROM w) < fuel)%nat -> (Z.to_nat CAPACITY <= fuel)%nat ->
  (exists w' t,
     eeprom_write fuel buffer len pos w = Some ((len, pos + len), w')
     /\ pe_log w' = pe_log w ++ st_write pos buffer len
     /\ traffic (LPC_EEPROM w') = traffic (LPC_EEPROM w) ++ t
     /\ cmd_addr_stores t = flat_map write_chunk_stores (st_chunks pos len))
  /\ erased_pages (st_write pos buffer len) = pages_touched pos len
  /\ st_write 60 buffer 8
     = [Call_WritePageRegister 60 buffer 4; Call_EraseProgramPage 0;
        Call_WritePageRegister 0 (buffer + 4) 4; Call_EraseProgramPage 1].
Proof.
  intros Hpos Hlen Hcap Hok Hfuel Hiters.
  assert (HC : CAPACITY = 4032) by reflexivity.
  split; [|split].
  - destruct (eeprom_write_returns fuel buffer len pos w) as
      [w' [t (Hrun & _ & _ & Hl & Hs & Ht)]];
      try assumption; try lia.
    { unfold is_size_t, SIZE_MAX. lia. }
    replace (Z.min len (CAPACITY - pos)) with len in * by lia.
    exists w', t. repeat split; assumption.
  - unfold st_write. rewrite erased_pages_st_write_calls.
    apply st_chunks_pages. exact Hpos.
  - unfold st_write.
    rewrite (st_chunks_step 60 8) by lia.
    change (st_chunk 60 8) with 4. change (60 + 4) with 64.
    change (8 - 4) with 4.
    rewrite (st_chunks_step 64 4) by lia.
    change (st_chunk 64 4) with 4. change (4 - 4) with 0.
    rewrite (st_chunks_done (64 + 4) 0) by lia.
    reflexivity.
Qed.

Lemma eeprom_write_translation_witness :
  (exists w' t,
     eeprom_write 4032 1000 8 60 (boot ramp 2) = Some ((8, 60 + 8), w')
     /\ pe_log w' = pe_log (boot ramp 2) ++ st_write 60 1000 8
     /\ traffic (LPC_EEPROM w') = traffic (LPC_EEPROM (boot ramp 2)) ++ t
     /\ cmd_addr_stores t = flat_map write_chunk_stores (st_chunks 60 8))
  /\ erased_pages (st_write 60 1000 8) = pages_touched 60 8
  /\ st_write 60 1000 8
     = [Call_WritePageRegister 60 1000 4; Call_EraseProgramPage 0;
        Call_WritePageRegister 0 (1000 + 4) 4; Call_EraseProgramPage 1].
Proof.
  apply (eeprom_write_translation 4032 1000 8 60 (boot ramp 2)).
  - lia.
  - lia.
  - unfold CAPACITY, EEPROM_PAGE_SIZE, EEPROM_PAGE_NUM. lia.
  - reflexivity.
  - cbn [boot idle_peripheral LPC_EEPROM latency]. lia.
  - unfold CAPACITY, EEPROM_PAGE_SIZE, EEPROM_PAGE_NUM. lia.
Defined.

(** ** The file position along a session *)

Lemma dispatch_keeps_position (fuel : nat) (rq : request) (s : session) :
  0 <= f_pos s <= CAPACITY ->
  (latency (LPC_EEPROM (machine s)) < fuel)%nat ->
  (Z.to_nat CAPACITY <= fuel)%nat ->
  wf_request rq -> seek_within rq s ->
  exists r s',
    dispatch fuel rq s = Some (r, s')
    /\ 0 <= f_pos s' <= CAPACITY
    /\ latency (LPC_EEPROM (machine s')) = latency (LPC_EEPROM (machine s)).
Proof.
  intros Hpos Hfuel Hiters Hwf Hseek.
  destruct rq as [| |offset whence|buffer length|buffer length];
    cbn [dispatch wf_request seek_within] in *.
  - unfold sys_open, eeprom_open.
    destruct (eeprom_lock (machine s) >? 0); do 2 eexists;
      (split; [reflexivity|]); cbn [f_pos machine LPC_EEPROM];
      (split; [destruct (_ =? 0); lia | reflexivity]).
  - unfold sys_release, eeprom_release. do 2 eexists.
    split; [reflexivity|]. cbn [f_pos machine LPC_EEPROM]. split; [lia|reflexivity].
  - pose proof (eeprom_llseek_position (f_pos s) offset whence ltac:(lia)).
    destruct (eeprom_llseek (f_pos s) offset whence) as [r pos'].
    cbn [snd] in *. do 2 eexists. split; [reflexivity|].
    cbn [f_pos machine]. split; [lia | reflexivity].
  - destruct (access_ok (machine s) buffer length) eqn:Hok.
    + destruct (eeprom_read_returns fuel buffer length (f_pos s) (machine s)
                  Hpos Hwf Hok Hfuel Hiters) as [w' (Hrun & Hk & _)].
      rewrite Hrun. do 2 eexists. split; [reflexivity|].
      cbn [f_pos machine]. unfold is_size_t in Hwf.
      split; [lia | apply Hk].
    + unfold eeprom_read. rewrite Hok. cbn [negb].
      do 2 eexists. split; [reflexivity|].
      cbn [f_pos machine]. split; [lia | reflexivity].
  - destruct (access_ok (machine s) buffer length) eqn:Hok.
    + destruct (eeprom_write_returns fuel buffer length (f_pos s) (machine s)
                  Hpos Hwf Hok Hfuel Hiters) as [w' [t (Hrun & Hk & _)]].
      rewrite Hrun. do 2 eexists. split; [reflexivity|].
      cbn [f_pos machine]. unfold is_size_t in Hwf.
      split; [lia | apply Hk].
    + unfold eeprom_write. rewrite Hok. cbn [negb].
      do 2 eexists. split; [reflexivity|].
      cbn [f_pos machine]. split; [lia | reflexivity].
Qed.

(** C4 does not hold as stated: a seek to 4033 succeeds and leaves the
    position of a freshly opened handle above C. *)
Lemma seek_leaves_device :
  exists s,
    run 1 [Req_open; Req_llseek 4033 SEEK_SET] (mkSession (boot ramp 0) 0)
    = Some s
    /\ f_pos s = 4033
    /\ ~ (0 <= f_pos s <= CAPACITY).
Proof.
  eexists. split; [reflexivity|]. cbn [f_pos]. split; [reflexivity|].
  unfold CAPACITY, EEPROM_PAGE_SIZE, EEPROM_PAGE_NUM. lia.
Qed.

(** C4 as amended: from a freshly opened handle (position 0), along every
    sequence of open, release, seek, read and write requests in which no
    seek leaves the position above C, the file position is in [0, C] after
    every request. *)
Theorem position_stays_in_device (fuel : nat) (rqs : list request) :
  forall s0 : session,
    f_pos s0 = 0 ->
    (latency (LPC_EEPROM (machine s0)) < fuel)%nat ->
    (Z.to_nat CAPACITY <= fuel)%nat ->
    Forall wf_request rqs ->
    seeks_within fuel rqs s0 ->
    forall k : nat,
    exists s,
      run fuel (firstn k rqs) s0 = Some s /\ 0 <= f_pos s <= CAPACITY.
Proof.
  intros s0 Hfresh.
  assert (Hpos : 0 <= f_pos s0 <= CAPACITY)
    by (rewrite Hfresh; unfold CAPACITY, EEPROM_PAGE_SIZE, EEPROM_PAGE_NUM;
        lia).
  clear Hfresh. revert s0 Hpos.
  induction rqs as [|rq rest IH]; intros s0 Hpos Hfuel Hiters Hwf Hseek k.
  - exists s0. rewrite firstn_nil. split; [reflexivity | exact Hpos].
  - destruct k as [|k].
    + exists s0. split; [reflexivity | exact Hpos].
    + inversion Hwf as [|? ? Hwf1 Hwf2]; subst.
      cbn [seeks_within] in Hseek. destruct Hseek as [Hs1 Hs2].
      destruct (dispatch_keeps_position fuel rq s0 Hpos Hfuel Hiters Hwf1 Hs1)
        as [r [s1 (Hd & Hpos1 & Hlat)]].
      rewrite Hd in Hs2.
      destruct (IH s1 Hpos1 ltac:(rewrite Hlat; exact Hfuel) Hiters Hwf2 Hs2 k)
        as [s (Hrun & Hin)].
      exists s. cbn [firstn run]. rewrite Hd. split; assumption.
Qed.

Lemma position_stays_in_device_witness :
  exists s,
    run 4032
      (firstn 5 [Req_open; Req_llseek 4028 SEEK_SET; Req_write 1000 16;
                 Req_llseek 0 SEEK_CUR; Req_read 1000 16])
      (mkSession (boot ramp 1) 0) = Some s
    /\ 0 <= f_pos s <= CAPACITY.
Proof.
  apply (position_stays_in_device 4032
           [Req_open; Req_llseek 4028 SEEK_SET; Req_write 1000 16;
            Req_llseek 0 SEEK_CUR; Req_read 1000 16]
           (mkSession (boot ramp 1) 0)).
  - reflexivity.
  - cbn [boot idle_peripheral LPC_EEPROM latency machine]. lia.
  - unfold CAPACITY, EEPROM_PAGE_SIZE, EEPROM_PAGE_NUM. lia.
  - repeat constructor; unfold is_loff_t, is_size_t, LOFF_MIN, LOFF_MAX,
      SIZE_MAX; lia.
  - cbn [seeks_within seek_within dispatch sys_open f_pos machine].
    vm_compute. intuition discriminate.
Defined.

(** ** Requests at and beyond the end of the device *)

(** X2: At position C a request moves nothing, returns 0 and changes neither
    the position nor the machine. *)
Lemma eof_at_capacity (fuel : nat) (buffer len : Z) (w : world) :
  is_size_t len -> access_ok w buffer len = true ->
  eeprom_read fuel buffer len CAPACITY w = Some ((0, CAPACITY), w)
  /\ eeprom_write fuel buffer len CAPACITY w = Some ((0, CAPACITY), w).
Proof.
  intros Hlen Hok. unfold eeprom_read, eeprom_write. rewrite Hok. cbn [negb].
  change (to_size_t (EEPROM_PAGE_SIZE * EEPROM_PAGE_NUM - CAPACITY)) with 0.
  unfold is_size_t in Hlen.
  destruct (len >? 0) eqn:Hcmp.
  - split; reflexivity.
  - rewrite Z.gtb_ltb in Hcmp. apply Z.ltb_ge in Hcmp.
    replace len with 0 by lia. split; reflexivity.
Qed.

(** C2 (the code departs from it): at position 4033, one past C, the
    remaining length C - pos wraps to 2^32 - 1 as a [size_t], the request
    is not clamped, and a read or write of 1 byte moves 1 byte at page 63,
    returns 1 and advances the position to 4034; the write programs
    page 63. *)
Theorem transfer_beyond_capacity :
  (exists w',
     eeprom_read 3 1000 1 4033 (boot ramp 2) = Some ((1, 4034), w')
     /\ pe_log w' = [Call_Read 1 63 1000 1]
     /\ user_mem w' 1000 = ramp 4033)
  /\ (exists w',
        eeprom_write 3 1000 1 4033 (boot ramp 2) = Some ((1, 4034), w')
        /\ pe_log w' = [Call_WritePageRegister 1 1000 1;
                        Call_EraseProgramPage 63]
        /\ cells (LPC_EEPROM w') 4033 <> cells (LPC_EEPROM (boot ramp 2)) 4033)
  /\ to_size_t (EEPROM_PAGE_SIZE * EEPROM_PAGE_NUM - 4033) = SIZE_MAX.
Proof.
  split; [|split].
  - eexists. split; [vm_compute; reflexivity|].
    cbn [pe_log user_mem]. split; reflexivity.
  - eexists. split; [vm_compute; reflexivity|].
    cbn [pe_log LPC_EEPROM cells]. split; [reflexivity|].
    vm_compute. discriminate.
  - reflexivity.
Qed.

(** ** A read that spans pages *)

(** C1 (the code departs from it): the read loop hands the same buffer
    pointer to every chunk, so a read of 8 bytes at position 60 puts the 4
    bytes of page 1 over the 4 bytes of page 0 at the start of the buffer
    and leaves the last 4 bytes of the buffer as they were; the buffer
    holds device bytes 64..67 followed by its old contents, not device
    bytes 60..67. *)
Theorem eeprom_read_overwrites_first_chunk :
  exists w',
    eeprom_read 3 1000 8 60 (boot ramp 2) = Some ((8, 68), w')
    /\ pe_log w' = [Call_Read 60 0 1000 4; Call_Read 0 1 1000 4]
    /\ map (user_mem w') (Zseq 1000 8) = [64; 65; 66; 67; 0; 0; 0; 0]
    /\ map (cells (LPC_EEPROM w')) (Zseq 60 8)
       = [60; 61; 62; 63; 64; 65; 66; 67]
    /\ user_mem w' (1000 + 0) <> cells (LPC_EEPROM w') (60 + 0).
Proof.
  eexists. split; [vm_compute; reflexivity|].
  cbn [pe_log user_mem LPC_EEPROM cells].
  split; [reflexivity|]. split; [vm_compute; reflexivity|].
  split; [vm_compute; reflexivity|]. vm_compute. discriminate.
Qed.

(** ** The data path within one page *)

Lemma lor_page_offset (page page_offset : Z) :
  0 <= page -> 0 <= page_offset < EEPROM_PAGE_SIZE ->
  Z.lor (Z.shiftl page 6) page_offset = page * EEPROM_PAGE_SIZE + page_offset.
Proof.
  intros Hp Ho.
  assert (Hdisjoint : Z.land (Z.shiftl page 6) page_offset = 0).
  { apply Z.bits_inj'. intros i Hi.
    rewrite Z.land_spec, Z.bits_0.
    destruct (Z_lt_dec i 6) as [Hlow|Hhigh].
    - rewrite Z.shiftl_spec_low by exact Hlow. reflexivity.
    - replace (Z.testbit page_offset i) with false;
        [apply andb_false_r|].
      symmetry. destruct (Z.eq_dec page_offset 0) as [->|Hnz].
      + apply Z.bits_0.
      + apply Z.bits_above_log2; [lia|].
        assert (Z.log2 page_offset < 6)
          by (apply Z.log2_lt_pow2; unfold EEPROM_PAGE_SIZE in *; lia).
        lia. }
  rewrite <- Z.lxor_lor by exact Hdisjoint.
  rewrite <- Z.add_nocarry_lxor by exact Hdisjoint.
  rewrite Z.shiftl_mul_pow2 by lia. reflexivity.
Qed.

Lemma land_address (a : Z) : 0 <= a < 4096 -> Z.land a 4095 = a.
Proof.
  intros Ha. change 4095 with (Z.ones 12).
  rewrite Z.land_ones by lia. apply Z.mod_small. exact Ha.
Qed.

(** With the cell at [a] in RDATA and the address register at [a + 1],
    [n] iterations of the read loop store the cells [a .. a + n - 1] at
    [pData + i ..]. *)
Lemma EEPROM_Read_loop_data (fuel : nat) (pData : Z) (n : nat) :
  forall (i a : Z) (w : world),
    (latency (LPC_EEPROM w) < fuel)%nat ->
    regs (LPC_EEPROM w) CMD = read_prefetch ->
    regs (LPC_EEPROM w) RDATA = cells (LPC_EEPROM w) a ->
    regs (LPC_EEPROM w) ADDR = a + 1 ->
    0 <= a -> a + Z.of_nat n + 1 < 4096 ->
    exists w',
      EEPROM_Read_loop fuel pData i n w = Some (tt, w')
      /\ cells (LPC_EEPROM w') = cells (LPC_EEPROM w)
      /\ forall x,
           user_mem w' x
           = if (pData + i <=? x) && (x <? pData + i + Z.of_nat n)
             then to_u8 (cells (LPC_EEPROM w) (a + (x - (pData + i))))
             else user_mem w x.
Proof.
  induction n as [|n IH]; intros i a w Hfuel Hcmd Hdata Haddr Ha Hend.
  - exists w. cbn [EEPROM_Read_loop]. unfold ret.
    split; [reflexivity|]. split; [reflexivity|].
    intros x. replace ((pData + i <=? x) && (x <? pData + i + Z.of_nat 0))
      with false; [reflexivity|].
    symmetry. apply andb_false_iff.
    destruct (pData + i <=? x) eqn:E; [right | left; reflexivity].
    apply Z.leb_le in E. apply Z.ltb_ge. lia.
  - rewrite Nat2Z.inj_succ in Hend.
    cbn [EEPROM_Read_loop]. unfold_ri. simpl_machine.
    rewrite Hcmd.
    change ((cmd_op read_prefetch =? EEPROM_CMD_8BITS_READ)
            && cmd_prefetch read_prefetch) with true.
    cbv iota. simpl_machine.
    match goal with
    | |- context [EEPROM_WaitForIntStatus fuel _ ?w1] =>
        destruct (EEPROM_WaitForIntStatus_returns EEPROM_INT_ENDOFRW fuel w1)
          as [w2 [polls (Hrun & Hk & Hu & _ & Hd & _)]]
    end.
    + simpl_machine. exact Hfuel.
    + simpl_machine. apply land_lor_raised.
    + rewrite Hrun.
      simpl_machine_in Hk. simpl_machine_in Hu.
      destruct Hd as (Hregs & _ & Hcells & _).
      simpl_machine_in Hregs. simpl_machine_in Hcells.
      destruct Hk as (_ & _ & Hk3).
      destruct (IH (i + 1) (a + 1) w2) as [w' (Hrun' & Hcells' & Hmem')].
      * rewrite Hk3. exact Hfuel.
      * rewrite (Hregs CMD) by discriminate. exact Hcmd.
      * rewrite (Hregs RDATA) by discriminate. rewrite Hcells, Haddr.
        reflexivity.
      * rewrite (Hregs ADDR) by discriminate. rewrite Haddr.
        apply land_address. lia.
      * lia.
      * lia.
      * exists w'. split; [exact Hrun'|].
        split; [congruence|].
        intros x. rewrite Hmem', Hu, Hcells, Hdata, Nat2Z.inj_succ.
        cbv beta.
        destruct (pData + (i + 1) <=? x) eqn:E1;
          destruct (x <? pData + (i + 1) + Z.of_nat n) eqn:E2;
          destruct (pData + i <=? x) eqn:E3;
          destruct (x <? pData + i + Z.succ (Z.of_nat n)) eqn:E4;
          destruct (x =? pData + i) eqn:E5;
          cbn [andb];
          first [apply Z.leb_le in E1 | apply Z.leb_gt in E1];
          first [apply Z.ltb_lt in E2 | apply Z.ltb_ge in E2];
          first [apply Z.leb_le in E3 | apply Z.leb_gt in E3];
          first [apply Z.ltb_lt in E4 | apply Z.ltb_ge in E4];
          first [apply Z.eqb_eq in E5 | apply Z.eqb_neq in E5];
          try lia; try reflexivity; f_equal; f_equal; lia.
Qed.

Lemma EEPROM_Read_data
  (fuel : nat) (pageOffset pageAddr pData byteNum : Z) (w : world) :
  (latency (LPC_EEPROM w) < fuel)%nat ->
  0 <= pageAddr < EEPROM_PAGE_NUM -> 0 <= pageOffset < EEPROM_PAGE_SIZE ->
  0 <= byteNum -> pageOffset + byteNum <= EEPROM_PAGE_SIZE ->
  exists w',
    EEPROM_Read fuel pageOffset pageAddr pData byteNum w = Some (byteNum, w')
    /\ cells (LPC_EEPROM w') = cells (LPC_EEPROM w)
    /\ forall x,
         user_mem w' x
         = if (pData <=? x) && (x <? pData + byteNum)
           then to_u8 (cells (LPC_EEPROM w)
                         (pageAddr * EEPROM_PAGE_SIZE + pageOffset
                          + (x - pData)))
           else user_mem w x.
Proof.
  intros Hfuel Hpa Hpo Hn Hfit.
  set (a := pageAddr * EEPROM_PAGE_SIZE + pageOffset).
  assert (Ha : 0 <= a /\ a + byteNum + 1 < 4096)
    by (unfold a, EEPROM_PAGE_SIZE, EEPROM_PAGE_NUM in *; lia).
  assert (Haddr : Z.land (to_u32 (Z.lor (Z.shiftl pageAddr 6) pageOffset)) 4095
                  = a).
  { rewrite lor_page_offset by lia. fold a.
    rewrite to_u32_id by lia. apply land_address. lia. }
  unfold EEPROM_Read. unfold_ri. simpl_machine.
  fold read_prefetch.
  change (cmd_op read_prefetch =? EEPROM_CMD_ERASE_PRG_PAGE) with false.
  change (cmd_op read_prefetch =? EEPROM_CMD_8BITS_READ) with true.
  cbv iota. simpl_machine. rewrite Haddr.
  match goal with
  | |- context [EEPROM_Read_loop fuel pData 0 ?n ?w1] =>
      destruct (EEPROM_Read_loop_data fuel pData n 0 a w1)
        as [w' (Hrun & Hcells & Hmem)]
  end.
  - simpl_machine. exact Hfuel.
  - simpl_machine. reflexivity.
  - simpl_machine. reflexivity.
  - simpl_machine. apply land_address. lia.
  - lia.
  - rewrite Z2Nat.id by lia. lia.
  - rewrite Hrun. exists w'.
    simpl_machine_in Hcells. simpl_machine_in Hmem.
    split; [reflexivity|]. split; [exact Hcells|].
    intros x. rewrite Hmem, Z.add_0_r, Z2Nat.id by lia. reflexivity.
Qed.

(** What the read does deliver: when the request lies within one page,
    the buffer receives the device bytes at pos, pos + 1, ... in order. *)
Theorem eeprom_read_within_page
  (fuel : nat) (buffer len pos : Z) (w : world) :
  0 <= pos -> 0 < len -> pos + len <= CAPACITY ->
  pos mod EEPROM_PAGE_SIZE + len <= EEPROM_PAGE_SIZE ->
  access_ok w buffer len = true ->
  (latency (LPC_EEPROM w) < fuel)%nat -> (0 < fuel)%nat ->
  exists w',
    eeprom_read fuel buffer len pos w = Some ((len, pos + len), w')
    /\ cells (LPC_EEPROM w') = cells (LPC_EEPROM w)
    /\ forall i, 0 <= i < len ->
         user_mem w' (buffer + i) = to_u8 (cells (LPC_EEPROM w) (pos + i)).
Proof.
  intros Hpos Hlen Hcap Hpage Hok Hfuel Hiters.
  assert (HC : CAPACITY = 4032) by reflexivity.
  assert (Hm : 0 <= pos mod EEPROM_PAGE_SIZE < EEPROM_PAGE_SIZE)
    by (apply Z.mod_pos_bound; reflexivity).
  assert (Hd : 0 <= pos / EEPROM_PAGE_SIZE < EEPROM_PAGE_NUM).
  { unfold CAPACITY, EEPROM_PAGE_SIZE, EEPROM_PAGE_NUM in *. split.
    - apply Z.div_pos; lia.
    - apply Z.div_lt_upper_bound; lia. }
  pose proof (Z.div_mod pos EEPROM_PAGE_SIZE ltac:(discriminate)) as Hdm.
  unfold eeprom_read. rewrite Hok. cbn [negb].
  rewrite (clamp_is_min len pos) by (unfold is_size_t, SIZE_MAX; lia).
  replace (Z.min len (CAPACITY - pos)) with len by lia.
  replace (len =? 0) with false by (symmetry; apply Z.eqb_neq; lia).
  destruct fuel as [|iters]; [lia|].
  unfold bind at 1. cbn [eeprom_read_loop].
  replace (len >? 0) with true by (symmetry; apply Z.gtb_lt; lia).
  destruct (loop_step_arith pos len Hpos Hlen Hcap)
    as (Epage & Epo & _ & Echunk & Erest & Enext).
  cbv zeta. rewrite Echunk, Epage, Epo, Erest, Enext.
  assert (Hchunk : st_chunk pos len = len) by (unfold st_chunk; lia).
  rewrite Hchunk, Z.sub_diag.
  unfold bind at 1.
  destruct (EEPROM_Read_data (S iters) (pos mod EEPROM_PAGE_SIZE)
              (pos / EEPROM_PAGE_SIZE) buffer len w Hfuel Hd Hm)
    as [w' (Hrun & Hcells & Hmem)]; try lia.
  rewrite Hrun.
  replace (eeprom_read_loop iters (S iters) buffer 0 (pos + len) w')
    with (Some (pos + len, w')) by (destruct iters; reflexivity).
  exists w'. unfold ret.
  rewrite to_int_id by (unfold INT_MAX; lia).
  split; [reflexivity|]. split; [exact Hcells|].
  intros i Hi. rewrite Hmem.
  replace ((buffer <=? buffer + i) && (buffer + i <? buffer + len)) with true.
  - f_equal. f_equal. lia.
  - symmetry. apply andb_true_iff. split.
    + apply Z.leb_le. lia.
    + apply Z.ltb_lt. lia.
Qed.

Lemma land_byte (v : Z) : Z.land (to_u8 v) 255 = to_u8 v.
Proof.
  unfold to_u8. change 255 with (Z.ones 8).
  rewrite Z.land_ones by lia. apply Z.mod_mod. discriminate.
Qed.

Lemma land_page_offset (o : Z) : 0 <= o < EEPROM_PAGE_SIZE -> Z.land o 63 = o.
Proof.
  intros Ho. change 63 with (Z.ones 6).
  rewrite Z.land_ones by lia. apply Z.mod_small. exact Ho.
Qed.

(** With the address register at page offset [o], [n] iterations of the
    write loop stage the bytes at [pData + i ..] in the page register at
    [o .. o + n - 1]. *)
Lemma EEPROM_WritePageRegister_loop_data (fuel : nat) (pData : Z) (n : nat) :
  forall (i o : Z) (w : world),
    (latency (LPC_EEPROM w) < fuel)%nat ->
    cmd_op (regs (LPC_EEPROM w) CMD) = EEPROM_CMD_8BITS_WRITE ->
    regs (LPC_EEPROM w) ADDR = o ->
    0 <= o -> o + Z.of_nat n <= EEPROM_PAGE_SIZE ->
    exists w',
      EEPROM_WritePageRegister_loop fuel pData i n w = Some (tt, w')
      /\ same_kernel w w'
      /\ user_mem w' = user_mem w
      /\ cells (LPC_EEPROM w') = cells (LPC_EEPROM w)
      /\ forall y,
           page_register (LPC_EEPROM w') y
           = if (o <=? y) && (y <? o + Z.of_nat n)
             then to_u8 (user_mem w (pData + i + (y - o)))
             else page_register (LPC_EEPROM w) y.
Proof.
  induction n as [|n IH]; intros i o w Hfuel Hcmd Haddr Ho Hfit.
  - exists w. cbn [EEPROM_WritePageRegister_loop]. unfold ret.
    split; [reflexivity|]. split; [apply same_kernel_refl|].
    split; [reflexivity|]. split; [reflexivity|].
    intros y. replace ((o <=? y) && (y <? o + Z.of_nat 0)) with false;
      [reflexivity|].
    symmetry. apply andb_false_iff.
    destruct (o <=? y) eqn:E; [right | left; reflexivity].
    apply Z.leb_le in E. apply Z.ltb_ge. lia.
  - rewrite Nat2Z.inj_succ in Hfit.
    cbn [EEPROM_WritePageRegister_loop]. unfold_ri. simpl_machine.
    rewrite Hcmd, Z.eqb_refl. simpl_machine.
    match goal with
    | |- context [EEPROM_WaitForIntStatus fuel _ ?w1] =>
        destruct (EEPROM_WaitForIntStatus_returns EEPROM_INT_ENDOFRW fuel w1)
          as [w2 [polls (Hrun & Hk & Hu & _ & Hd & _)]]
    end.
    + simpl_machine. exact Hfuel.
    + simpl_machine. apply land_lor_raised.
    + rewrite Hrun.
      simpl_machine_in Hk. simpl_machine_in Hu.
      destruct Hd as (Hregs & Hpage & Hcells & _).
      simpl_machine_in Hregs. simpl_machine_in Hpage.
      simpl_machine_in Hcells.
      rewrite Haddr, land_byte, (land_page_offset o) in Hpage
        by (unfold EEPROM_PAGE_SIZE in *; lia).
      destruct (IH (i + 1) (o + 1) w2)
        as [w' (Hrun' & Hk' & Hu' & Hcells' & Hpage')].
      * destruct Hk as (_ & _ & Hk3). rewrite Hk3. exact Hfuel.
      * rewrite (Hregs CMD) by discriminate. exact Hcmd.
      * rewrite (Hregs ADDR) by discriminate. rewrite Haddr.
        apply land_address. unfold EEPROM_PAGE_SIZE in *. lia.
      * lia.
      * lia.
      * exists w'. split; [exact Hrun'|].
        split; [exact (same_kernel_trans w w2 w' Hk Hk')|].
        split; [congruence|]. split; [congruence|].
        intros y. rewrite Hpage', Hu, Hpage, Nat2Z.inj_succ. cbv beta.
        destruct (o + 1 <=? y) eqn:E1;
          destruct (y <? o + 1 + Z.of_nat n) eqn:E2;
          destruct (o <=? y) eqn:E3;
          destruct (y <? o + Z.succ (Z.of_nat n)) eqn:E4;
          destruct (y =? o) eqn:E5;
          cbn [andb];
          first [apply Z.leb_le in E1 | apply Z.leb_gt in E1];
          first [apply Z.ltb_lt in E2 | apply Z.ltb_ge in E2];
          first [apply Z.leb_le in E3 | apply Z.leb_gt in E3];
          first [apply Z.ltb_lt in E4 | apply Z.ltb_ge in E4];
          first [apply Z.eqb_eq in E5 | apply Z.eqb_neq in E5];
          try lia; try reflexivity; f_equal; f_equal; lia.
Qed.

Lemma EEPROM_WritePageRegister_data
  (fuel : nat) (pageOffset pData byteNum : Z) (w : world) :
  (latency (LPC_EEPROM w) < fuel)%nat ->
  0 <= pageOffset < EEPROM_PAGE_SIZE ->
  0 <= byteNum -> pageOffset + byteNum <= EEPROM_PAGE_SIZE ->
  exists w',
    EEPROM_WritePageRegister fuel pageOffset pData byteNum w
    = Some (byteNum, w')
    /\ same_kernel w w'
    /\ user_mem w' = user_mem w
    /\ cells (LPC_EEPROM w') = cells (LPC_EEPROM w)
    /\ forall y,
         page_register (LPC_EEPROM w') y
         = if (pageOffset <=? y) && (y <? pageOffset + byteNum)
           then to_u8 (user_mem w (pData + (y - pageOffset)))
           else page_register (LPC_EEPROM w) y.
Proof.
  intros Hfuel Hpo Hn Hfit.
  unfold EEPROM_WritePageRegister. unfold_ri. simpl_machine.
  change (cmd_op EEPROM_CMD_8BITS_WRITE =? EEPROM_CMD_ERASE_PRG_PAGE)
    with false.
  change (cmd_op EEPROM_CMD_8BITS_WRITE =? EEPROM_CMD_8BITS_READ) with false.
  cbv iota. simpl_machine.
  rewrite (to_u32_page_offset pageOffset Hpo).
  match goal with
  | |- context [EEPROM_WritePageRegister_loop fuel pData 0 ?n ?w1] =>
      destruct (EEPROM_WritePageRegister_loop_data fuel pData n 0 pageOffset w1)
        as [w' (Hrun & Hk & Hu & Hcells & Hpage)]
  end.
  - simpl_machine. exact Hfuel.
  - simpl_machine. reflexivity.
  - simpl_machine. apply land_address. unfold EEPROM_PAGE_SIZE in *. lia.
  - lia.
  - rewrite Z2Nat.id by lia. exact Hfit.
  - rewrite Hrun. exists w'.
    simpl_machine_in Hk. simpl_machine_in Hu. simpl_machine_in Hcells.
    simpl_machine_in Hpage.
    split; [reflexivity|]. split; [exact Hk|]. split; [exact Hu|].
    split; [exact Hcells|].
    intros y. rewrite Hpage, Z.add_0_r, Z2Nat.id by lia. reflexivity.
Qed.

Lemma EEPROM_EraseProgramPage_data (fuel : nat) (pageAddr : Z) (w : world) :
  (latency (LPC_EEPROM w) < fuel)%nat ->
  0 <= pageAddr < EEPROM_PAGE_NUM ->
  exists w',
    EEPROM_EraseProgramPage fuel pageAddr w = Some (tt, w')
    /\ same_kernel w w'
    /\ user_mem w' = user_mem w
    /\ forall a,
         cells (LPC_EEPROM w') a
         = if Z.shiftr a 6 =? pageAddr
           then page_register (LPC_EEPROM w) (Z.land a 63)
           else cells (LPC_EEPROM w) a.
Proof.
  intros Hfuel Hpa.
  assert (Haddr : Z.shiftr (Z.land (to_u32 (Z.lor (Z.shiftl pageAddr 6) 0))
                              4095) 6 = pageAddr).
  { rewrite to_u32_page_address by exact Hpa.
    rewrite land_address
      by (rewrite Z.shiftl_mul_pow2 by lia; unfold EEPROM_PAGE_NUM in *; lia).
    rewrite Z.shiftr_shiftl_l by lia. apply Z.shiftl_0_r. }
  unfold EEPROM_EraseProgramPage. unfold_ri. simpl_machine.
  change (cmd_op EEPROM_CMD_ERASE_PRG_PAGE =? EEPROM_CMD_ERASE_PRG_PAGE)
    with true. cbv iota. simpl_machine.
  match goal with
  | |- context [EEPROM_WaitForIntStatus fuel _ ?w1] =>
      destruct (EEPROM_WaitForIntStatus_returns EEPROM_INT_ENDOFPROG fuel w1)
        as [w' [polls (Hrun & Hk & Hu & _ & Hd & _)]]
  end.
  - simpl_machine. exact Hfuel.
  - simpl_machine. apply land_lor_raised.
  - exists w'. split; [exact Hrun|].
    simpl_machine_in Hk. simpl_machine_in Hu.
    destruct Hd as (_ & _ & Hcells & _). simpl_machine_in Hcells.
    rewrite Haddr in Hcells.
    split; [exact Hk|]. split; [exact Hu|].
    intros a. rewrite Hcells. reflexivity.
Qed.

Lemma eeprom_write_within_page
  (fuel : nat) (buffer len pos : Z) (w : world) :
  0 <= pos -> 0 < len -> pos + len <= CAPACITY ->
  pos mod EEPROM_PAGE_SIZE + len <= EEPROM_PAGE_SIZE ->
  access_ok w buffer len = true ->
  (latency (LPC_EEPROM w) < fuel)%nat -> (0 < fuel)%nat ->
  exists w',
    eeprom_write fuel buffer len pos w = Some ((len, pos + len), w')
    /\ same_kernel w w'
    /\ user_mem w' = user_mem w
    /\ forall i, 0 <= i < len ->
         cells (LPC_EEPROM w') (pos + i) = to_u8 (user_mem w (buffer + i)).
Proof.
  intros Hpos Hlen Hcap Hpage Hok Hfuel Hiters.
  assert (HC : CAPACITY = 4032) by reflexivity.
  assert (Hm : 0 <= pos mod EEPROM_PAGE_SIZE < EEPROM_PAGE_SIZE)
    by (apply Z.mod_pos_bound; reflexivity).
  assert (Hd : 0 <= pos / EEPROM_PAGE_SIZE < EEPROM_PAGE_NUM).
  { unfold CAPACITY, EEPROM_PAGE_SIZE, EEPROM_PAGE_NUM in *. split.
    - apply Z.div_pos; lia.
    - apply Z.div_lt_upper_bound; lia. }
  pose proof (Z.div_mod pos EEPROM_PAGE_SIZE ltac:(discriminate)) as Hdm.
  unfold eeprom_write. rewrite Hok. cbn [negb].
  rewrite (clamp_is_min len pos) by (unfold is_size_t, SIZE_MAX; lia).
  replace (Z.min len (CAPACITY - pos)) with len by lia.
  replace (len =? 0) with false by (symmetry; apply Z.eqb_neq; lia).
  destruct fuel as [|iters]; [lia|].
  unfold bind at 1. cbn [eeprom_write_loop].
  replace (len >? 0) with true by (symmetry; apply Z.gtb_lt; lia).
  destruct (loop_step_arith pos len Hpos Hlen Hcap)
    as (Epage & Epo & Epo16 & Echunk & Erest & Enext).
  cbv zeta. rewrite Echunk, Epage, Epo16, Erest, Enext.
  assert (Hchunk : st_chunk pos len = len) by (unfold st_chunk; lia).
  rewrite Hchunk, Z.sub_diag.
  unfold bind at 1.
  destruct (EEPROM_WritePageRegister_data (S iters)
              (pos mod EEPROM_PAGE_SIZE) buffer len w Hfuel Hm)
    as [w1 (Hrun1 & Hk1 & Hu1 & Hcells1 & Hpage1)]; try lia.
  rewrite Hrun1. unfold bind at 1.
  assert (Hfuel1 : (latency (LPC_EEPROM w1) < S iters)%nat)
    by (destruct Hk1 as (_ & _ & Hlat); rewrite Hlat; exact Hfuel).
  destruct (EEPROM_EraseProgramPage_data (S iters) (pos / EEPROM_PAGE_SIZE)
              w1 Hfuel1 Hd)
    as [w2 (Hrun2 & Hk2 & Hu2 & Hcells2)].
  rewrite Hrun2.
  replace (eeprom_write_loop iters (S iters) (buffer + len) 0 (pos + len) w2)
    with (Some (pos + len, w2)) by (destruct iters; reflexivity).
  exists w2. unfold ret.
  rewrite to_int_id by (unfold INT_MAX; lia).
  split; [reflexivity|].
  split; [exact (same_kernel_trans w w1 w2 Hk1 Hk2)|].
  split; [congruence|].
  intros i Hi. rewrite Hcells2.
  assert (Hq : Z.shiftr (pos + i) 6 = pos / EEPROM_PAGE_SIZE).
  { rewrite Z.shiftr_div_pow2 by lia. change (2 ^ 6) with EEPROM_PAGE_SIZE.
    symmetry.
    apply (Z.div_unique _ _ _ (pos mod EEPROM_PAGE_SIZE + i));
      unfold EEPROM_PAGE_SIZE in *; lia. }
  assert (Hr : Z.land (pos + i) 63 = pos mod EEPROM_PAGE_SIZE + i).
  { change 63 with (Z.ones 6). rewrite Z.land_ones by lia.
    change (2 ^ 6) with EEPROM_PAGE_SIZE. symmetry.
    apply (Z.mod_unique _ _ (pos / EEPROM_PAGE_SIZE));
      unfold EEPROM_PAGE_SIZE in *; lia. }
  rewrite Hq, Z.eqb_refl, Hr, Hpage1.
  replace ((pos mod EEPROM_PAGE_SIZE <=? pos mod EEPROM_PAGE_SIZE + i)
           && (pos mod EEPROM_PAGE_SIZE + i
               <? pos mod EEPROM_PAGE_SIZE + len)) with true.
  - f_equal. f_equal. lia.
  - symmetry. apply andb_true_iff. split.
    + apply Z.leb_le. lia.
    + apply Z.ltb_lt. lia.
Qed.

(** X12: The round trip within one page: the bytes written at a position are
    the bytes that a read of the same length at that position returns. *)
Theorem write_then_read_within_page
  (fuel : nat) (src dst len pos : Z) (w : world) :
  0 <= pos -> 0 < len -> pos + len <= CAPACITY ->
  pos mod EEPROM_PAGE_SIZE + len <= EEPROM_PAGE_SIZE ->
  access_ok w src len = true -> access_ok w dst len = true ->
  (latency (LPC_EEPROM w) < fuel)%nat -> (0 < fuel)%nat ->
  exists w1 w2,
    eeprom_write fuel src len pos w = Some ((len, pos + len), w1)
    /\ eeprom_llseek (pos + len) pos SEEK_SET = (pos, pos)
    /\ eeprom_read fuel dst len pos w1 = Some ((len, pos + len), w2)
    /\ forall i, 0 <= i < len ->
         user_mem w2 (dst + i) = to_u8 (user_mem w (src + i)).
Proof.
  intros Hpos Hlen Hcap Hpage Hsrc Hdst Hfuel Hiters.
  destruct (eeprom_write_within_page fuel src len pos w)
    as [w1 (Hwr & (_ & Hacc & Hlat) & _ & Hcells)]; try assumption.
  destruct (eeprom_read_within_page fuel dst len pos w1)
    as [w2 (Hrd & _ & Hmem)]; try assumption.
  { rewrite Hacc. exact Hdst. }
  { rewrite Hlat. exact Hfuel. }
  exists w1, w2. split; [exact Hwr|]. split.
  - unfold eeprom_llseek. cbn [Z.eqb SEEK_SET].
    replace (pos <? 0) with false by (symmetry; apply Z.ltb_ge; lia).
    reflexivity.
  - split; [exact Hrd|].
    intros i Hi. rewrite (Hmem i Hi), (Hcells i Hi).
    unfold to_u8. apply Z.mod_mod. discriminate.
Qed.

(** * Further properties of the driver *)

(** ** Buffers that the kernel rejects *)

(** X1: A read or write whose buffer fails [access_ok] returns -EINVAL and
    changes neither the file position nor the machine: no register is
    touched and nothing is logged. *)
Theorem transfer_rejects_inaccessible_buffer
  (fuel : nat) (buffer len pos : Z) (w : world) :
  access_ok w buffer len = false ->
  eeprom_read fuel buffer len pos w = Some ((- EINVAL, pos), w)
  /\ eeprom_write fuel buffer len pos w = Some ((- EINVAL, pos), w).
Proof.
  intros Hbad. unfold eeprom_read, eeprom_write. rewrite Hbad.
  split; reflexivity.
Qed.

Lemma transfer_rejects_inaccessible_buffer_witness :
  let w := mkWorld (idle_peripheral ramp 1) (fun _ => 0) 1
             (fun b _ => 0 <? b) [] in
  eeprom_read 5 0 16 100 w = Some ((- EINVAL, 100), w)
  /\ eeprom_write 5 0 16 100 w = Some ((- EINVAL, 100), w).
Proof.
  intros w. apply (transfer_rejects_inaccessible_buffer 5 0 16 100 w).
  reflexivity.
Defined.

Lemma eof_at_capacity_witness :
  eeprom_read 1 1000 16 CAPACITY (boot ramp 3)
  = Some ((0, CAPACITY), boot ramp 3)
  /\ eeprom_write 1 1000 16 CAPACITY (boot ramp 3)
     = Some ((0, CAPACITY), boot ramp 3).
Proof.
  apply (eof_at_capacity 1 1000 16 (boot ramp 3)).
  - unfold is_size_t, SIZE_MAX. lia.
  - reflexivity.
Defined.

(** ** The completion wait *)

Lemma land_lor_grows (a b m : Z) :
  Z.land a m = m -> Z.land (Z.lor a b) m = m.
Proof.
  intros H. apply Z.bits_inj'. intros i Hi.
  assert (Hb : Z.testbit (Z.land a m) i = Z.testbit m i) by (rewrite H; reflexivity).
  rewrite Z.land_spec in Hb. rewrite Z.land_spec, Z.lor_spec.
  destruct (Z.testbit a i), (Z.testbit b i), (Z.testbit m i);
    cbn in *; congruence.
Qed.

Lemma land_ldiff_cleared (a m : Z) : Z.land (Z.ldiff a m) m = 0.
Proof.
  apply Z.bits_inj'. intros i Hi.
  rewrite Z.land_spec, Z.ldiff_spec, Z.bits_0.
  destruct (Z.testbit a i), (Z.testbit m i); reflexivity.
Qed.

(** X3: The wait has no timeout: while the bits waited for are neither raised
    nor due, no number of polls makes it return. *)
Theorem EEPROM_WaitForIntStatus_spins (mask : Z) (fuel : nat) :
  forall w : world,
    Z.land (Z.lor (regs (LPC_EEPROM w) INTSTAT) (due (LPC_EEPROM w))) mask
    <> mask ->
    EEPROM_WaitForIntStatus fuel mask w = None.
Proof.
  induction fuel as [|fuel IH]; intros w Hnever; [reflexivity|].
  cbn [EEPROM_WaitForIntStatus]. unfold bind, EEPROM_GetIntStatus, load.
  cbn [mmio_load]. unfold poll.
  destruct (busy (LPC_EEPROM w)) as [|n] eqn:Hb.
  - cbn [regs reg_eqb record_event].
    replace (Z.land (Z.lor (regs (LPC_EEPROM w) INTSTAT) (due (LPC_EEPROM w)))
               mask =? mask) with false
      by (symmetry; apply Z.eqb_neq; exact Hnever).
    apply IH. cbn [LPC_EEPROM regs due record_event reg_eqb].
    rewrite Z.lor_0_r. exact Hnever.
  - cbn [regs record_event].
    replace (Z.land (regs (LPC_EEPROM w) INTSTAT) mask =? mask) with false.
    + apply IH. cbn [LPC_EEPROM regs due record_event]. exact Hnever.
    + symmetry. apply Z.eqb_neq. intros Hnow. apply Hnever.
      apply land_lor_grows. exact Hnow.
Qed.

Lemma EEPROM_WaitForIntStatus_spins_witness :
  EEPROM_WaitForIntStatus 1000 EEPROM_INT_ENDOFPROG (boot ramp 2) = None.
Proof.
  apply (EEPROM_WaitForIntStatus_spins EEPROM_INT_ENDOFPROG 1000
           (boot ramp 2)).
  vm_compute. discriminate.
Defined.

(** While the awaited bits are not yet in the status register, the wait
    sees the unchanged status once per poll of the operation's remaining
    latency, then the completed status, and clears the mask. *)
Lemma EEPROM_WaitForIntStatus_exact (mask : Z) (fuel : nat) :
  forall w : world,
    (busy (LPC_EEPROM w) < fuel)%nat ->
    Z.land (regs (LPC_EEPROM w) INTSTAT) mask <> mask ->
    Z.land (Z.lor (regs (LPC_EEPROM w) INTSTAT) (due (LPC_EEPROM w))) mask
    = mask ->
    exists w',
      EEPROM_WaitForIntStatus fuel mask w = Some (tt, w')
      /\ same_kernel w w'
      /\ user_mem w' = user_mem w
      /\ pe_log w' = pe_log w
      /\ same_data (LPC_EEPROM w) (LPC_EEPROM w')
      /\ settled mask
           (Z.lor (regs (LPC_EEPROM w) INTSTAT) (due (LPC_EEPROM w)))
           (LPC_EEPROM w')
      /\ traffic (LPC_EEPROM w')
         = traffic (LPC_EEPROM w)
           ++ repeat (LoadFrom INTSTAT (regs (LPC_EEPROM w) INTSTAT))
                (busy (LPC_EEPROM w))
           ++ [LoadFrom INTSTAT
                 (Z.lor (regs (LPC_EEPROM w) INTSTAT) (due (LPC_EEPROM w)));
               StoreTo INTSTATCLR mask].
Proof.
  induction fuel as [|fuel IH]; intros w Hbusy Hnot Hbits; [lia|].
  cbn [EEPROM_WaitForIntStatus]. unfold bind, EEPROM_GetIntStatus, load.
  cbn [mmio_load]. unfold poll.
  destruct (busy (LPC_EEPROM w)) as [|n] eqn:Hb.
  - cbn [regs reg_eqb]. rewrite Hbits, Z.eqb_refl.
    unfold EEPROM_ClearIntStatus, store.
    eexists. split; [reflexivity|].
    cbn [LPC_EEPROM user_mem eeprom_lock access_ok pe_log mmio_store
           record_event latch regs page_register cells latency traffic
           busy due reg_eqb repeat app].
    unfold settled.
    cbn [LPC_EEPROM record_event latch regs busy due reg_eqb].
    repeat split.
    + intros r Hr. destruct r; try reflexivity. contradiction.
    + rewrite <- app_assoc. reflexivity.
  - cbn [regs record_event].
    replace (Z.land (regs (LPC_EEPROM w) INTSTAT) mask =? mask) with false
      by (symmetry; apply Z.eqb_neq; exact Hnot).
    match goal with
    | |- context [EEPROM_WaitForIntStatus fuel mask ?w1] =>
        destruct (IH w1) as [w' (Hrun & Hk & Hu & Hl & Hd & Hs & Ht)]
    end.
    + cbn [LPC_EEPROM busy record_event]. lia.
    + cbn [LPC_EEPROM regs record_event]. exact Hnot.
    + cbn [LPC_EEPROM regs due record_event]. exact Hbits.
    + exists w'. split; [exact Hrun|].
      cbn [LPC_EEPROM user_mem eeprom_lock access_ok pe_log record_event
             regs page_register cells latency traffic busy due] in *.
      split; [exact Hk|]. split; [exact Hu|]. split; [exact Hl|].
      split; [exact Hd|]. split; [exact Hs|].
      rewrite Ht. cbn [repeat]. rewrite <- app_assoc. reflexivity.
Qed.

Lemma polls_of_app (t1 t2 : list bus_event) :
  polls_of (t1 ++ t2) = polls_of t1 ++ polls_of t2.
Proof. apply filter_app. Qed.

Lemma actions_of_app (t1 t2 : list bus_event) :
  actions_of (t1 ++ t2) = actions_of t1 ++ actions_of t2.
Proof. apply filter_app. Qed.

Lemma polls_of_repeat (v : Z) (n : nat) :
  polls_of (repeat (LoadFrom INTSTAT v) n) = repeat (LoadFrom INTSTAT v) n
  /\ actions_of (repeat (LoadFrom INTSTAT v) n) = [].
Proof.
  induction n as [|n [IHp IHa]]; [split; reflexivity|].
  unfold polls_of, actions_of in *.
  cbn [repeat filter is_status_poll negb]. rewrite IHp, IHa.
  split; reflexivity.
Qed.

(** The traffic of a completed wait: [polls] polls and one action. *)
Lemma wait_traffic_views (mask v v' : Z) (polls : nat) :
  let t := repeat (LoadFrom INTSTAT v) polls
           ++ [LoadFrom INTSTAT v'; StoreTo INTSTATCLR mask] in
  length (polls_of t) = S polls
  /\ actions_of t = [StoreTo INTSTATCLR mask].
Proof.
  cbv zeta. destruct (polls_of_repeat v polls) as [Hp Ha].
  rewrite polls_of_app, actions_of_app, Hp, Ha. split.
  - rewrite length_app, repeat_length. cbn. lia.
  - reflexivity.
Qed.

(** X4: A wait on bits that are due but not yet raised returns after exactly
    one poll more than the remaining latency of the operation in flight,
    with that operation complete and the awaited bits cleared from the
    status register; it changes nothing else. *)
Theorem EEPROM_WaitForIntStatus_completes (mask : Z) (fuel : nat) (w : world) :
  (busy (LPC_EEPROM w) < fuel)%nat ->
  Z.land (regs (LPC_EEPROM w) INTSTAT) mask <> mask ->
  Z.land (due (LPC_EEPROM w)) mask = mask ->
  exists w' t,
    EEPROM_WaitForIntStatus fuel mask w = Some (tt, w')
    /\ traffic (LPC_EEPROM w') = traffic (LPC_EEPROM w) ++ t
    /\ length (polls_of t) = S (busy (LPC_EEPROM w))
    /\ actions_of t = [StoreTo INTSTATCLR mask]
    /\ busy (LPC_EEPROM w') = O
    /\ Z.land (regs (LPC_EEPROM w') INTSTAT) mask = 0
    /\ same_data (LPC_EEPROM w) (LPC_EEPROM w')
    /\ user_mem w' = user_mem w
    /\ eeprom_lock w' = eeprom_lock w.
Proof.
  intros Hbusy Hnot Hdue.
  destruct (EEPROM_WaitForIntStatus_exact mask fuel w Hbusy Hnot)
    as [w' (Hrun & Hk & Hu & _ & Hd & Hs & Ht)].
  { rewrite Z.lor_comm. apply land_lor_grows. exact Hdue. }
  destruct Hs as (Hb & _ & Hstat).
  destruct (wait_traffic_views mask (regs (LPC_EEPROM w) INTSTAT)
              (Z.lor (regs (LPC_EEPROM w) INTSTAT) (due (LPC_EEPROM w)))
              (busy (LPC_EEPROM w))) as [Hp Ha].
  exists w'. eexists. split; [exact Hrun|]. split; [exact Ht|].
  split; [exact Hp|]. split; [exact Ha|]. split; [exact Hb|].
  split; [rewrite Hstat; apply land_ldiff_cleared|].
  split; [exact Hd|]. split; [exact Hu | apply Hk].
Qed.

Lemma EEPROM_WaitForIntStatus_completes_witness :
  let w := mkWorld (mkPeripheral (fun _ => 0) (fun _ => 0) ramp 3%nat 3%nat
                      EEPROM_INT_ENDOFRW [])
             (fun _ => 0) 1 (fun _ _ => true) [] in
  exists w' t,
    EEPROM_WaitForIntStatus 4 EEPROM_INT_ENDOFRW w = Some (tt, w')
    /\ traffic (LPC_EEPROM w') = traffic (LPC_EEPROM w) ++ t
    /\ length (polls_of t) = 4%nat
    /\ actions_of t = [StoreTo INTSTATCLR EEPROM_INT_ENDOFRW]
    /\ busy (LPC_EEPROM w') = O
    /\ Z.land (regs (LPC_EEPROM w') INTSTAT) EEPROM_INT_ENDOFRW = 0
    /\ same_data (LPC_EEPROM w) (LPC_EEPROM w')
    /\ user_mem w' = user_mem w
    /\ eeprom_lock w' = eeprom_lock w.
Proof.
  intros w.
  apply (EEPROM_WaitForIntStatus_completes EEPROM_INT_ENDOFRW 4 w).
  - cbn. lia.
  - vm_compute. discriminate.
  - reflexivity.
Defined.

(** ** The bus protocol of the page engine *)

Lemma same_result {A : Type} (x : option (A * world)) (a1 a2 : A)
  (w1 w2 : world) :
  x = Some (a1, w1) -> x = Some (a2, w2) -> w1 = w2.
Proof. intros H1 H2. congruence. Qed.

Lemma endofrw_cleared (status : Z) :
  Z.land (Z.ldiff status EEPROM_INT_ENDOFRW) EEPROM_INT_ENDOFRW
  <> EEPROM_INT_ENDOFRW.
Proof. rewrite land_ldiff_cleared. discriminate. Qed.

Lemma wait_traffic_intro (mask v v' : Z) (n : nat) :
  Z.land v mask <> mask -> Z.land v' mask = mask ->
  wait_traffic mask n
    (repeat (LoadFrom INTSTAT v) n
     ++ [LoadFrom INTSTAT v'; StoreTo INTSTATCLR mask]).
Proof.
  intros Hv Hv'. exists (repeat v n), v'.
  split; [rewrite map_repeat; reflexivity|].
  split; [apply repeat_length|]. split; [|exact Hv'].
  apply Forall_forall. intros x Hx. rewrite (repeat_spec _ _ _ Hx). exact Hv.
Qed.

Lemma EEPROM_Read_loop_protocol (fuel : nat) (pData : Z) (n : nat) :
  forall (i a : Z) (w : world),
    (latency (LPC_EEPROM w) < fuel)%nat ->
    regs (LPC_EEPROM w) CMD = read_prefetch ->
    regs (LPC_EEPROM w) RDATA = cells (LPC_EEPROM w) a ->
    regs (LPC_EEPROM w) ADDR = a + 1 ->
    0 <= a -> a + Z.of_nat n + 1 < 4096 ->
    Z.land (regs (LPC_EEPROM w) INTSTAT) EEPROM_INT_ENDOFRW
    <> EEPROM_INT_ENDOFRW ->
    exists w' t,
      EEPROM_Read_loop fuel pData i n w = Some (tt, w')
      /\ traffic (LPC_EEPROM w') = traffic (LPC_EEPROM w) ++ t
      /\ byte_traffic (LoadFrom RDATA) (latency (LPC_EEPROM w))
           (map (cells (LPC_EEPROM w)) (Zseq a n)) t
      /\ (n = O -> w' = w)
      /\ (n <> O ->
          busy (LPC_EEPROM w') = O
          /\ Z.land (regs (LPC_EEPROM w') INTSTAT) EEPROM_INT_ENDOFRW = 0).
Proof.
  induction n as [|n IH]; intros i a w Hfuel Hcmd Hdata Haddr Ha Hend Hclr.
  - exists w, []. cbn [EEPROM_Read_loop]. unfold ret.
    rewrite app_nil_r.
    split; [reflexivity|]. split; [reflexivity|]. split; [reflexivity|].
    split; [reflexivity | intros Hne; contradiction].
  - rewrite Nat2Z.inj_succ in Hend.
    cbn [EEPROM_Read_loop]. unfold_ri. simpl_machine.
    rewrite Hcmd.
    change ((cmd_op read_prefetch =? EEPROM_CMD_8BITS_READ)
            && cmd_prefetch read_prefetch) with true.
    cbv iota. simpl_machine.
    match goal with
    | |- context [EEPROM_WaitForIntStatus fuel _ ?w1] =>
        destruct (EEPROM_WaitForIntStatus_exact EEPROM_INT_ENDOFRW fuel w1)
          as [w2 (Hrun & Hk & _ & _ & Hd & Hs & Ht)]
    end.
    + simpl_machine. exact Hfuel.
    + simpl_machine. exact Hclr.
    + simpl_machine. apply land_lor_raised.
    + rewrite Hrun.
      simpl_machine_in Hk. simpl_machine_in Ht. simpl_machine_in Hs.
      destruct Hd as (Hregs & _ & Hcells & _).
      simpl_machine_in Hregs. simpl_machine_in Hcells.
      destruct Hk as (_ & _ & Hk3).
      change (latency (LPC_EEPROM w2) = latency (LPC_EEPROM w)) in Hk3.
      destruct Hs as (Hbusy2 & _ & Hstat).
      destruct (IH (i + 1) (a + 1) w2)
        as [w' [t (Hrun' & Ht' & Hbt' & Hnil' & Hset')]].
      * rewrite Hk3. exact Hfuel.
      * rewrite (Hregs CMD) by discriminate. exact Hcmd.
      * rewrite (Hregs RDATA) by discriminate. rewrite Hcells, Haddr.
        reflexivity.
      * rewrite (Hregs ADDR) by discriminate. rewrite Haddr.
        apply land_address. lia.
      * lia.
      * lia.
      * rewrite Hstat. apply endofrw_cleared.
      * pose proof
          (wait_traffic_intro EEPROM_INT_ENDOFRW
             (regs (LPC_EEPROM w) INTSTAT)
             (Z.lor (regs (LPC_EEPROM w) INTSTAT)
                (Z.lor (due (LPC_EEPROM w)) EEPROM_INT_ENDOFRW))
             (latency (LPC_EEPROM w)) Hclr
             (land_lor_raised _ _ _)) as Hwt.
        remember (repeat (LoadFrom INTSTAT (regs (LPC_EEPROM w) INTSTAT))
                    (latency (LPC_EEPROM w))
                  ++ [LoadFrom INTSTAT
                        (Z.lor (regs (LPC_EEPROM w) INTSTAT)
                           (Z.lor (due (LPC_EEPROM w)) EEPROM_INT_ENDOFRW));
                      StoreTo INTSTATCLR EEPROM_INT_ENDOFRW]) as tw.
        exists w'.
        exists (LoadFrom RDATA (cells (LPC_EEPROM w) a) :: tw ++ t).
        split; [exact Hrun'|]. split.
        -- rewrite Ht', Ht, Hdata. rewrite <- !app_assoc. reflexivity.
        -- split.
           ++ cbn [Zseq map byte_traffic]. exists tw, t.
              split; [reflexivity|]. split; [exact Hwt|].
              rewrite Hk3, Hcells in Hbt'. exact Hbt'.
           ++ split; [intros Hz; discriminate|]. intros _.
              destruct n as [|n].
              ** rewrite (Hnil' eq_refl). split; [exact Hbusy2|].
                 rewrite Hstat. apply land_ldiff_cleared.
              ** apply Hset'. discriminate.
Qed.

Lemma EEPROM_Read_bus
  (fuel : nat) (pageOffset pageAddr pData byteNum : Z) (w : world) :
  (latency (LPC_EEPROM w) < fuel)%nat ->
  0 <= pageAddr < EEPROM_PAGE_NUM -> 0 <= pageOffset < EEPROM_PAGE_SIZE ->
  0 <= byteNum -> pageOffset + byteNum <= EEPROM_PAGE_SIZE ->
  let a := pageAddr * EEPROM_PAGE_SIZE + pageOffset in
  exists w' t,
    EEPROM_Read fuel pageOffset pageAddr pData byteNum w = Some (byteNum, w')
    /\ traffic (LPC_EEPROM w')
       = traffic (LPC_EEPROM w)
         ++ [StoreTo INTSTATCLR EEPROM_INT_ENDOFRW; StoreTo ADDR a;
             StoreTo CMD read_prefetch]
         ++ t
    /\ byte_traffic (LoadFrom RDATA) (latency (LPC_EEPROM w))
         (map (cells (LPC_EEPROM w)) (Zseq a (Z.to_nat byteNum))) t
    /\ (0 < byteNum ->
        busy (LPC_EEPROM w') = O
        /\ Z.land (regs (LPC_EEPROM w') INTSTAT) EEPROM_INT_ENDOFRW = 0).
Proof.
  intros Hfuel Hpa Hpo Hn Hfit a.
  assert (Ha : 0 <= a /\ a + byteNum + 1 < 4096)
    by (unfold a, EEPROM_PAGE_SIZE, EEPROM_PAGE_NUM in *; lia).
  assert (Hu32 : to_u32 (Z.lor (Z.shiftl pageAddr 6) pageOffset) = a).
  { rewrite lor_page_offset by lia. fold a. apply to_u32_id. lia. }
  unfold EEPROM_Read. unfold_ri. simpl_machine.
  fold read_prefetch.
  change (cmd_op read_prefetch =? EEPROM_CMD_ERASE_PRG_PAGE) with false.
  change (cmd_op read_prefetch =? EEPROM_CMD_8BITS_READ) with true.
  cbv iota. simpl_machine. rewrite Hu32, (land_address a) by lia.
  match goal with
  | |- context [EEPROM_Read_loop fuel pData 0 ?n ?w1] =>
      destruct (EEPROM_Read_loop_protocol fuel pData n 0 a w1)
        as [w' [t (Hrun & Ht & Hbt & _ & Hset)]]
  end.
  - simpl_machine. exact Hfuel.
  - simpl_machine. reflexivity.
  - simpl_machine. reflexivity.
  - simpl_machine. apply land_address. lia.
  - lia.
  - rewrite Z2Nat.id by lia. lia.
  - simpl_machine. apply endofrw_cleared.
  - rewrite Hrun. exists w', t.
    simpl_machine_in Ht. simpl_machine_in Hbt.
    split; [reflexivity|]. split.
    + rewrite Ht. rewrite <- !app_assoc. reflexivity.
    + split; [exact Hbt|]. intros Hpos. apply Hset. lia.
Qed.

(** X5: [EEPROM_Read] clears END_OF_RW, programs the address and the 8-bit
    read command with pre-fetch, and then, byte by byte, loads RDATA, which
    holds the device byte of the next address, polls the status until the
    read has had its latency and END_OF_RW shows, and clears END_OF_RW;
    this is all its bus traffic, in this order, and it returns with no
    operation in flight and END_OF_RW clear. *)
Theorem EEPROM_Read_protocol
  (fuel : nat) (pageOffset pageAddr pData byteNum : Z) (w : world) :
  (latency (LPC_EEPROM w) < fuel)%nat ->
  0 <= pageAddr < EEPROM_PAGE_NUM -> 0 <= pageOffset < EEPROM_PAGE_SIZE ->
  0 <= byteNum -> pageOffset + byteNum <= EEPROM_PAGE_SIZE ->
  let a := pageAddr * EEPROM_PAGE_SIZE + pageOffset in
  exists w' t,
    EEPROM_Read fuel pageOffset pageAddr pData byteNum w = Some (byteNum, w')
    /\ traffic (LPC_EEPROM w')
       = traffic (LPC_EEPROM w)
         ++ [StoreTo INTSTATCLR EEPROM_INT_ENDOFRW; StoreTo ADDR a;
             StoreTo CMD read_prefetch]
         ++ t
    /\ byte_traffic (LoadFrom RDATA) (latency (LPC_EEPROM w))
         (map (cells (LPC_EEPROM w)) (Zseq a (Z.to_nat byteNum))) t
    /\ (0 < byteNum ->
        busy (LPC_EEPROM w') = O
        /\ Z.land (regs (LPC_EEPROM w') INTSTAT) EEPROM_INT_ENDOFRW = 0).
Proof.
  intros Hfuel Hpa Hpo Hn Hfit.
  exact (EEPROM_Read_bus fuel pageOffset pageAddr pData byteNum w
           Hfuel Hpa Hpo Hn Hfit).
Qed.

Lemma EEPROM_Read_protocol_witness :
  exists w' t,
    EEPROM_Read 3 60 0 1000 4 (boot ramp 2) = Some (4, w')
    /\ traffic (LPC_EEPROM w')
       = traffic (LPC_EEPROM (boot ramp 2))
         ++ [StoreTo INTSTATCLR EEPROM_INT_ENDOFRW; StoreTo ADDR 60;
             StoreTo CMD read_prefetch]
         ++ t
    /\ byte_traffic (LoadFrom RDATA) 2 [60; 61; 62; 63] t
    /\ (0 < 4 ->
        busy (LPC_EEPROM w') = O
        /\ Z.land (regs (LPC_EEPROM w') INTSTAT) EEPROM_INT_ENDOFRW = 0).
Proof.
  apply (EEPROM_Read_protocol 3 60 0 1000 4 (boot ramp 2)).
  - cbn. lia.
  - unfold EEPROM_PAGE_NUM. lia.
  - unfold EEPROM_PAGE_SIZE. lia.
  - lia.
  - unfold EEPROM_PAGE_SIZE. lia.
Defined.

Lemma EEPROM_WritePageRegister_loop_protocol
  (fuel : nat) (pData : Z) (n : nat) :
  forall (i : Z) (w : world),
    (latency (LPC_EEPROM w) < fuel)%nat ->
    cmd_op (regs (LPC_EEPROM w) CMD) = EEPROM_CMD_8BITS_WRITE ->
    Z.land (regs (LPC_EEPROM w) INTSTAT) EEPROM_INT_ENDOFRW
    <> EEPROM_INT_ENDOFRW ->
    exists w' t,
      EEPROM_WritePageRegister_loop fuel pData i n w = Some (tt, w')
      /\ traffic (LPC_EEPROM w') = traffic (LPC_EEPROM w) ++ t
      /\ byte_traffic (StoreTo WDATA) (latency (LPC_EEPROM w))
           (map (fun x => to_u8 (user_mem w x)) (Zseq (pData + i) n)) t
      /\ (n = O -> w' = w)
      /\ (n <> O ->
          busy (LPC_EEPROM w') = O
          /\ Z.land (regs (LPC_EEPROM w') INTSTAT) EEPROM_INT_ENDOFRW = 0).
Proof.
  induction n as [|n IH]; intros i w Hfuel Hcmd Hclr.
  - exists w, []. cbn [EEPROM_WritePageRegister_loop]. unfold ret.
    rewrite app_nil_r.
    split; [reflexivity|]. split; [reflexivity|]. split; [reflexivity|].
    split; [reflexivity | intros Hne; contradiction].
  - cbn [EEPROM_WritePageRegister_loop]. unfold_ri. simpl_machine.
    rewrite Hcmd, Z.eqb_refl. simpl_machine.
    match goal with
    | |- context [EEPROM_WaitForIntStatus fuel _ ?w1] =>
        destruct (EEPROM_WaitForIntStatus_exact EEPROM_INT_ENDOFRW fuel w1)
          as [w2 (Hrun & Hk & Hu & _ & Hd & Hs & Ht)]
    end.
    + simpl_machine. exact Hfuel.
    + simpl_machine. exact Hclr.
    + simpl_machine. apply land_lor_raised.
    + rewrite Hrun.
      simpl_machine_in Hu. simpl_machine_in Ht. simpl_machine_in Hs.
      destruct Hd as (Hregs & _). simpl_machine_in Hregs.
      destruct Hk as (_ & _ & Hk3).
      change (latency (LPC_EEPROM w2) = latency (LPC_EEPROM w)) in Hk3.
      destruct Hs as (Hbusy2 & _ & Hstat).
      destruct (IH (i + 1) w2)
        as [w' [t (Hrun' & Ht' & Hbt' & Hnil' & Hset')]].
      * rewrite Hk3. exact Hfuel.
      * rewrite (Hregs CMD) by discriminate. exact Hcmd.
      * rewrite Hstat. apply endofrw_cleared.
      * pose proof
          (wait_traffic_intro EEPROM_INT_ENDOFRW
             (regs (LPC_EEPROM w) INTSTAT)
             (Z.lor (regs (LPC_EEPROM w) INTSTAT)
                (Z.lor (due (LPC_EEPROM w)) EEPROM_INT_ENDOFRW))
             (latency (LPC_EEPROM w)) Hclr
             (land_lor_raised _ _ _)) as Hwt.
        remember (repeat (LoadFrom INTSTAT (regs (LPC_EEPROM w) INTSTAT))
                    (latency (LPC_EEPROM w))
                  ++ [LoadFrom INTSTAT
                        (Z.lor (regs (LPC_EEPROM w) INTSTAT)
                           (Z.lor (due (LPC_EEPROM w)) EEPROM_INT_ENDOFRW));
                      StoreTo INTSTATCLR EEPROM_INT_ENDOFRW]) as tw.
        exists w'.
        exists (StoreTo WDATA (to_u8 (user_mem w (pData + i))) :: tw ++ t).
        split; [exact Hrun'|]. split.
        -- rewrite Ht', Ht. rewrite <- !app_assoc. reflexivity.
        -- split.
           ++ cbn [Zseq map byte_traffic]. exists tw, t.
              split; [reflexivity|]. split; [exact Hwt|].
              rewrite Hk3, Hu in Hbt'.
              replace (pData + i + 1) with (pData + (i + 1)) by lia.
              exact Hbt'.
           ++ split; [intros Hz; discriminate|]. intros _.
              destruct n as [|n].
              ** rewrite (Hnil' eq_refl). split; [exact Hbusy2|].
                 rewrite Hstat. apply land_ldiff_cleared.
              ** apply Hset'. discriminate.
Qed.

Lemma EEPROM_WritePageRegister_bus
  (fuel : nat) (pageOffset pData byteNum : Z) (w : world) :
  (latency (LPC_EEPROM w) < fuel)%nat ->
  0 <= pageOffset < EEPROM_PAGE_SIZE ->
  0 <= byteNum -> pageOffset + byteNum <= EEPROM_PAGE_SIZE ->
  exists w' t,
    EEPROM_WritePageRegister fuel pageOffset pData byteNum w
    = Some (byteNum, w')
    /\ traffic (LPC_EEPROM w')
       = traffic (LPC_EEPROM w)
         ++ [StoreTo INTSTATCLR EEPROM_INT_ENDOFRW;
             StoreTo CMD EEPROM_CMD_8BITS_WRITE; StoreTo ADDR pageOffset]
         ++ t
    /\ byte_traffic (StoreTo WDATA) (latency (LPC_EEPROM w))
         (map (fun x => to_u8 (user_mem w x)) (Zseq pData (Z.to_nat byteNum)))
         t
    /\ (0 < byteNum ->
        busy (LPC_EEPROM w') = O
        /\ Z.land (regs (LPC_EEPROM w') INTSTAT) EEPROM_INT_ENDOFRW = 0).
Proof.
  intros Hfuel Hpo Hn Hfit.
  unfold EEPROM_WritePageRegister. unfold_ri. simpl_machine.
  change (cmd_op EEPROM_CMD_8BITS_WRITE =? EEPROM_CMD_ERASE_PRG_PAGE)
    with false.
  change (cmd_op EEPROM_CMD_8BITS_WRITE =? EEPROM_CMD_8BITS_READ)
    with false.
  cbv iota. simpl_machine.
  rewrite (to_u32_page_offset pageOffset Hpo).
  match goal with
  | |- context [EEPROM_WritePageRegister_loop fuel pData 0 ?n ?w1] =>
      destruct (EEPROM_WritePageRegister_loop_protocol fuel pData n 0 w1)
        as [w' [t (Hrun & Ht & Hbt & _ & Hset)]]
  end.
  - simpl_machine. exact Hfuel.
  - simpl_machine. reflexivity.
  - simpl_machine. apply endofrw_cleared.
  - rewrite Hrun. exists w', t.
    simpl_machine_in Ht. simpl_machine_in Hbt.
    rewrite Z.add_0_r in Hbt.
    split; [reflexivity|]. split.
    + rewrite Ht. rewrite <- !app_assoc. reflexivity.
    + split; [exact Hbt|]. intros Hpos. apply Hset. lia.
Qed.

(** X6: [EEPROM_WritePageRegister] clears END_OF_RW, programs the 8-bit write
    command and the page offset, and then, byte by byte in buffer order,
    stores the caller's byte to WDATA, polls the status until the write
    has had its latency and END_OF_RW shows, and clears END_OF_RW; this is
    all its bus traffic, in this order.  It stages the bytes in the page
    register and changes neither the non-volatile cells nor the caller's
    memory: nothing is programmed before the erase-program command. *)
Theorem EEPROM_WritePageRegister_protocol
  (fuel : nat) (pageOffset pData byteNum : Z) (w : world) :
  (latency (LPC_EEPROM w) < fuel)%nat ->
  0 <= pageOffset < EEPROM_PAGE_SIZE ->
  0 <= byteNum -> pageOffset + byteNum <= EEPROM_PAGE_SIZE ->
  exists w' t,
    EEPROM_WritePageRegister fuel pageOffset pData byteNum w
    = Some (byteNum, w')
    /\ traffic (LPC_EEPROM w')
       = traffic (LPC_EEPROM w)
         ++ [StoreTo INTSTATCLR EEPROM_INT_ENDOFRW;
             StoreTo CMD EEPROM_CMD_8BITS_WRITE; StoreTo ADDR pageOffset]
         ++ t
    /\ byte_traffic (StoreTo WDATA) (latency (LPC_EEPROM w))
         (map (fun x => to_u8 (user_mem w x)) (Zseq pData (Z.to_nat byteNum)))
         t
    /\ (0 < byteNum ->
        busy (LPC_EEPROM w') = O
        /\ Z.land (regs (LPC_EEPROM w') INTSTAT) EEPROM_INT_ENDOFRW = 0)
    /\ user_mem w' = user_mem w
    /\ cells (LPC_EEPROM w') = cells (LPC_EEPROM w)
    /\ forall y,
         page_register (LPC_EEPROM w') y
         = if (pageOffset <=? y) && (y <? pageOffset + byteNum)
           then to_u8 (user_mem w (pData + (y - pageOffset)))
           else page_register (LPC_EEPROM w) y.
Proof.
  intros Hfuel Hpo Hn Hfit.
  destruct (EEPROM_WritePageRegister_data fuel pageOffset pData byteNum w
              Hfuel Hpo Hn Hfit)
    as [w1 (Hrun1 & _ & Hu1 & Hcells1 & Hpage1)].
  destruct (EEPROM_WritePageRegister_bus fuel pageOffset pData byteNum w
              Hfuel Hpo Hn Hfit)
    as [w' [t (Hrun & Ht & Hbt & Hset)]].
  assert (w' = w1) by (eapply same_result; eassumption). subst w'.
  exists w1, t. repeat split; try assumption; apply Hset; assumption.
Qed.

Lemma EEPROM_WritePageRegister_protocol_witness :
  exists w' t,
    EEPROM_WritePageRegister 2 62 1000 2 (boot ramp 1) = Some (2, w')
    /\ traffic (LPC_EEPROM w')
       = traffic (LPC_EEPROM (boot ramp 1))
         ++ [StoreTo INTSTATCLR EEPROM_INT_ENDOFRW;
             StoreTo CMD EEPROM_CMD_8BITS_WRITE; StoreTo ADDR 62]
         ++ t
    /\ byte_traffic (StoreTo WDATA) 1 [0; 0] t
    /\ (0 < 2 ->
        busy (LPC_EEPROM w') = O
        /\ Z.land (regs (LPC_EEPROM w') INTSTAT) EEPROM_INT_ENDOFRW = 0)
    /\ user_mem w' = user_mem (boot ramp 1)
    /\ cells (LPC_EEPROM w') = cells (LPC_EEPROM (boot ramp 1))
    /\ forall y,
         page_register (LPC_EEPROM w') y
         = if (62 <=? y) && (y <? 62 + 2)
           then to_u8 (user_mem (boot ramp 1) (1000 + (y - 62)))
           else page_register (LPC_EEPROM (boot ramp 1)) y.
Proof.
  apply (EEPROM_WritePageRegister_protocol 2 62 1000 2 (boot ramp 1)).
  - cbn. lia.
  - unfold EEPROM_PAGE_SIZE. lia.
  - lia.
  - unfold EEPROM_PAGE_SIZE. lia.
Defined.

(** The status left over from an earlier operation does not contain
    END_OF_PROG. *)
Lemma endofprog_stays_clear (status : Z) :
  Z.land status EEPROM_INT_ENDOFPROG = 0 ->
  Z.land (Z.ldiff status EEPROM_CMD_ERASE_PRG_PAGE) EEPROM_INT_ENDOFPROG
  <> EEPROM_INT_ENDOFPROG.
Proof.
  intros Hclr.
  replace (Z.land (Z.ldiff status EEPROM_CMD_ERASE_PRG_PAGE)
             EEPROM_INT_ENDOFPROG) with 0; [discriminate|].
  symmetry. apply Z.bits_inj'. intros i Hi.
  assert (Hb : Z.testbit (Z.land status EEPROM_INT_ENDOFPROG) i = false)
    by (rewrite Hclr; apply Z.bits_0).
  rewrite Z.land_spec in Hb.
  rewrite Z.land_spec, Z.ldiff_spec, Z.bits_0.
  destruct (Z.testbit status i), (Z.testbit EEPROM_INT_ENDOFPROG i),
    (Z.testbit EEPROM_CMD_ERASE_PRG_PAGE i); cbn in *; congruence.
Qed.

(** X7: When END_OF_PROG is clear at entry, [EEPROM_EraseProgramPage] returns
    only after the programming has completed, one poll past its latency:
    it stores the page address and the erase-program command, the page
    holds the page register, and no other page, the page register and the
    caller's memory are as before. *)
Theorem EEPROM_EraseProgramPage_commits
  (fuel : nat) (pageAddr : Z) (w : world) :
  (latency (LPC_EEPROM w) < fuel)%nat ->
  0 <= pageAddr < EEPROM_PAGE_NUM ->
  Z.land (regs (LPC_EEPROM w) INTSTAT) EEPROM_INT_ENDOFPROG = 0 ->
  exists w' t,
    EEPROM_EraseProgramPage fuel pageAddr w = Some (tt, w')
    /\ traffic (LPC_EEPROM w') = traffic (LPC_EEPROM w) ++ t
    /\ actions_of t
       = [StoreTo INTSTATCLR EEPROM_CMD_ERASE_PRG_PAGE;
          StoreTo ADDR (pageAddr * EEPROM_PAGE_SIZE);
          StoreTo CMD EEPROM_CMD_ERASE_PRG_PAGE;
          StoreTo INTSTATCLR EEPROM_INT_ENDOFPROG]
    /\ length (polls_of t) = S (latency (LPC_EEPROM w))
    /\ busy (LPC_EEPROM w') = O
    /\ (forall a,
          cells (LPC_EEPROM w') a
          = if Z.shiftr a 6 =? pageAddr
            then page_register (LPC_EEPROM w) (Z.land a 63)
            else cells (LPC_EEPROM w) a)
    /\ page_register (LPC_EEPROM w') = page_register (LPC_EEPROM w)
    /\ user_mem w' = user_mem w.
Proof.
  intros Hfuel Hpa Hclr.
  assert (Hu32 : to_u32 (Z.lor (Z.shiftl pageAddr 6) 0)
                 = pageAddr * EEPROM_PAGE_SIZE).
  { rewrite to_u32_page_address by exact Hpa.
    rewrite Z.shiftl_mul_pow2 by lia. reflexivity. }
  assert (Haddr : Z.shiftr (Z.land (pageAddr * EEPROM_PAGE_SIZE) 4095) 6
                  = pageAddr).
  { rewrite land_address by (unfold EEPROM_PAGE_SIZE, EEPROM_PAGE_NUM in *; lia).
    rewrite Z.shiftr_div_pow2 by lia. apply Z.div_mul. discriminate. }
  unfold EEPROM_EraseProgramPage. unfold_ri. simpl_machine.
  change (cmd_op EEPROM_CMD_ERASE_PRG_PAGE =? EEPROM_CMD_ERASE_PRG_PAGE)
    with true. cbv iota. simpl_machine. rewrite Hu32.
  match goal with
  | |- context [EEPROM_WaitForIntStatus fuel _ ?w1] =>
      destruct (EEPROM_WaitForIntStatus_exact EEPROM_INT_ENDOFPROG fuel w1)
        as [w' (Hrun & _ & Hu & _ & Hd & Hs & Ht)]
  end.
  - simpl_machine. exact Hfuel.
  - simpl_machine. apply endofprog_stays_clear. exact Hclr.
  - simpl_machine. apply land_lor_raised.
  - simpl_machine_in Hu. simpl_machine_in Ht.
    destruct Hd as (_ & Hpage & Hcells & _).
    simpl_machine_in Hpage. simpl_machine_in Hcells.
    rewrite Haddr in Hcells.
    destruct Hs as (Hbusy & _).
    match type of Ht with
    | _ = _ ++ ?tw =>
        pose proof
          (wait_traffic_views EEPROM_INT_ENDOFPROG
             (Z.ldiff (regs (LPC_EEPROM w) INTSTAT) EEPROM_CMD_ERASE_PRG_PAGE)
             (Z.lor (Z.ldiff (regs (LPC_EEPROM w) INTSTAT)
                       EEPROM_CMD_ERASE_PRG_PAGE)
                (Z.lor (due (LPC_EEPROM w)) EEPROM_INT_ENDOFPROG))
             (latency (LPC_EEPROM w))) as [Hwp Hwa];
        remember tw as twait
    end.
    exists w'.
    exists ([StoreTo INTSTATCLR EEPROM_CMD_ERASE_PRG_PAGE;
             StoreTo ADDR (pageAddr * EEPROM_PAGE_SIZE);
             StoreTo CMD EEPROM_CMD_ERASE_PRG_PAGE] ++ twait).
    split; [exact Hrun|]. split.
    + rewrite Ht. rewrite <- !app_assoc. reflexivity.
    + rewrite actions_of_app, polls_of_app, length_app.
      subst twait. rewrite Hwa, Hwp.
      split; [reflexivity|]. split; [reflexivity|].
      split; [exact Hbusy|].
      split; [intros a; rewrite Hcells; reflexivity|].
      split; [exact Hpage | exact Hu].
Qed.

Lemma EEPROM_EraseProgramPage_commits_witness :
  exists w' t,
    EEPROM_EraseProgramPage 3 5 (boot ramp 2) = Some (tt, w')
    /\ traffic (LPC_EEPROM w') = traffic (LPC_EEPROM (boot ramp 2)) ++ t
    /\ actions_of t
       = [StoreTo INTSTATCLR EEPROM_CMD_ERASE_PRG_PAGE;
          StoreTo ADDR (5 * EEPROM_PAGE_SIZE);
          StoreTo CMD EEPROM_CMD_ERASE_PRG_PAGE;
          StoreTo INTSTATCLR EEPROM_INT_ENDOFPROG]
    /\ length (polls_of t) = S (latency (LPC_EEPROM (boot ramp 2)))
    /\ busy (LPC_EEPROM w') = O
    /\ (forall a,
          cells (LPC_EEPROM w') a
          = if Z.shiftr a 6 =? 5
            then page_register (LPC_EEPROM (boot ramp 2)) (Z.land a 63)
            else cells (LPC_EEPROM (boot ramp 2)) a)
    /\ page_register (LPC_EEPROM w')
       = page_register (LPC_EEPROM (boot ramp 2))
    /\ user_mem w' = user_mem (boot ramp 2).
Proof.
  apply (EEPROM_EraseProgramPage_commits 3 5 (boot ramp 2)).
  - cbn. lia.
  - unfold EEPROM_PAGE_NUM. lia.
  - reflexivity.
Defined.

(** ** What a read does to the caller's memory *)

Lemma eeprom_read_loop_frame (fuel : nat) (buffer : Z) (iters : nat) :
  forall (to_read offset : Z) (w : world),
    (latency (LPC_EEPROM w) < fuel)%nat ->
    0 <= offset -> 0 <= to_read -> offset + to_read <= CAPACITY ->
    (Z.to_nat to_read <= iters)%nat ->
    exists w',
      eeprom_read_loop iters fuel buffer to_read offset w
      = Some (offset + to_read, w')
      /\ cells (LPC_EEPROM w') = cells (LPC_EEPROM w)
      /\ forall x, x < buffer \/ buffer + to_read <= x ->
           user_mem w' x = user_mem w x.
Proof.
  induction iters as [|iters IH];
    intros to_read offset w Hfuel Hoff Hrd Hcap Hiters.
  - assert (to_read = 0) by lia. subst to_read.
    exists w. cbn [eeprom_read_loop]. unfold ret.
    rewrite Z.add_0_r. repeat split.
  - cbn [eeprom_read_loop].
    destruct (to_read >? 0) eqn:Hpos.
    + apply Z.gtb_lt in Hpos.
      destruct (loop_step_arith offset to_read Hoff Hpos Hcap)
        as (Epage & Epo & _ & Echunk & Erest & Enext).
      cbv zeta. rewrite Echunk, Epage, Epo, Erest, Enext.
      pose proof (st_chunk_bounds offset to_read ltac:(lia)) as [Hc Hp].
      assert (Hm : 0 <= offset mod EEPROM_PAGE_SIZE < EEPROM_PAGE_SIZE)
        by (apply Z.mod_pos_bound; reflexivity).
      assert (Hd : 0 <= offset / EEPROM_PAGE_SIZE < EEPROM_PAGE_NUM).
      { unfold CAPACITY, EEPROM_PAGE_SIZE, EEPROM_PAGE_NUM in *. split.
        - apply Z.div_pos; lia.
        - apply Z.div_lt_upper_bound; lia. }
      unfold bind at 1.
      destruct (EEPROM_Read_returns fuel (offset mod EEPROM_PAGE_SIZE)
                  (offset / EEPROM_PAGE_SIZE) buffer
                  (st_chunk offset to_read) w Hfuel)
        as [w1 (Hrun1 & (_ & _ & Hlat) & _)].
      destruct (EEPROM_Read_data fuel (offset mod EEPROM_PAGE_SIZE)
                  (offset / EEPROM_PAGE_SIZE) buffer
                  (st_chunk offset to_read) w Hfuel Hd Hm)
        as [w1' (Hrun1' & Hcells1 & Hmem1)]; try lia.
      assert (w1' = w1) by (eapply same_result; eassumption). subst w1'.
      rewrite Hrun1.
      destruct (IH (to_read - st_chunk offset to_read)
                  (offset + st_chunk offset to_read) w1)
        as [w' (Hrun & Hcells & Hmem)]; try lia.
      exists w'. split; [rewrite Hrun; f_equal; f_equal; lia|].
      split; [congruence|].
      intros x Hx. rewrite Hmem by lia. rewrite Hmem1.
      replace ((buffer <=? x) && (x <? buffer + st_chunk offset to_read))
        with false; [reflexivity|].
      symmetry. apply andb_false_iff.
      destruct Hx as [Hx|Hx].
      * left. apply Z.leb_gt. lia.
      * right. apply Z.ltb_ge. lia.
    + rewrite Z.gtb_ltb in Hpos. apply Z.ltb_ge in Hpos.
      assert (to_read = 0) by lia. subst to_read.
      exists w. unfold ret. rewrite Z.add_0_r. repeat split.
Qed.

(** X8: A read never writes outside the first n bytes of the caller's buffer,
    n being the count it returns, and never changes the device's cells. *)
Theorem eeprom_read_stays_in_buffer
  (fuel : nat) (buffer len pos : Z) (w : world) :
  0 <= pos <= CAPACITY -> is_size_t len ->
  access_ok w buffer len = true ->
  (latency (LPC_EEPROM w) < fuel)%nat -> (Z.to_nat CAPACITY <= fuel)%nat ->
  let n := Z.min len (CAPACITY - pos) in
  exists w',
    eeprom_read fuel buffer len pos w = Some ((n, pos + n), w')
    /\ cells (LPC_EEPROM w') = cells (LPC_EEPROM w)
    /\ forall x, x < buffer \/ buffer + n <= x ->
         user_mem w' x = user_mem w x.
Proof.
  intros Hoff Hlen Hok Hfuel Hiters n.
  assert (Hn : 0 <= n <= CAPACITY - pos)
    by (unfold n, is_size_t in *; lia).
  assert (HC : CAPACITY = 4032) by reflexivity.
  unfold eeprom_read. rewrite Hok. cbn [negb].
  rewrite (clamp_is_min len pos Hoff Hlen). fold n.
  destruct (n =? 0) eqn:Hz.
  - apply Z.eqb_eq in Hz. exists w. rewrite Hz, Z.add_0_r. repeat split.
  - unfold bind.
    destruct (eeprom_read_loop_frame fuel buffer fuel n pos w)
      as [w' (Hrun & Hcells & Hmem)]; try lia.
    exists w'. rewrite Hrun. unfold ret.
    rewrite to_int_id by (unfold INT_MAX; lia).
    split; [reflexivity|]. split; assumption.
Qed.

Lemma eeprom_read_stays_in_buffer_witness :
  exists w',
    eeprom_read 4032 1000 200 3900 (boot ramp 2)
    = Some ((132, 3900 + 132), w')
    /\ cells (LPC_EEPROM w') = cells (LPC_EEPROM (boot ramp 2))
    /\ forall x, x < 1000 \/ 1000 + 132 <= x ->
         user_mem w' x = user_mem (boot ramp 2) x.
Proof.
  apply (eeprom_read_stays_in_buffer 4032 1000 200 3900 (boot ramp 2)).
  - unfold CAPACITY, EEPROM_PAGE_SIZE, EEPROM_PAGE_NUM. lia.
  - unfold is_size_t, SIZE_MAX. lia.
  - reflexivity.
  - cbn. lia.
  - unfold CAPACITY, EEPROM_PAGE_SIZE, EEPROM_PAGE_NUM. lia.
Defined.

(** X9: A read that, after clamping at the end of the device, lies within one
    page delivers the device bytes at pos, pos + 1, ... to the buffer in
    order, also when fewer bytes remain than were asked for. *)
Theorem eeprom_read_delivers_page_bytes
  (fuel : nat) (buffer len pos : Z) (w : world) :
  0 <= pos <= CAPACITY -> is_size_t len ->
  pos mod EEPROM_PAGE_SIZE + Z.min len (CAPACITY - pos) <= EEPROM_PAGE_SIZE ->
  access_ok w buffer len = true ->
  (latency (LPC_EEPROM w) < fuel)%nat -> (0 < fuel)%nat ->
  let n := Z.min len (CAPACITY - pos) in
  exists w',
    eeprom_read fuel buffer len pos w = Some ((n, pos + n), w')
    /\ forall i, 0 <= i < n ->
         user_mem w' (buffer + i) = to_u8 (cells (LPC_EEPROM w) (pos + i)).
Proof.
  intros Hpos Hlen Hpage Hok Hfuel Hiters n. fold n in Hpage.
  assert (Hn : 0 <= n <= CAPACITY - pos)
    by (unfold n, is_size_t in *; lia).
  assert (HC : CAPACITY = 4032) by reflexivity.
  unfold eeprom_read. rewrite Hok. cbn [negb].
  rewrite (clamp_is_min len pos Hpos Hlen). fold n.
  destruct (n =? 0) eqn:Hz.
  - apply Z.eqb_eq in Hz. exists w. rewrite Hz, Z.add_0_r.
    split; [reflexivity|]. intros i Hi. lia.
  - apply Z.eqb_neq in Hz.
    assert (Hm : 0 <= pos mod EEPROM_PAGE_SIZE < EEPROM_PAGE_SIZE)
      by (apply Z.mod_pos_bound; reflexivity).
    assert (Hd : 0 <= pos / EEPROM_PAGE_SIZE < EEPROM_PAGE_NUM).
    { unfold CAPACITY, EEPROM_PAGE_SIZE, EEPROM_PAGE_NUM in *. split.
      - apply Z.div_pos; lia.
      - apply Z.div_lt_upper_bound; lia. }
    pose proof (Z.div_mod pos EEPROM_PAGE_SIZE ltac:(discriminate)) as Hdm.
    destruct fuel as [|iters]; [lia|].
    unfold bind at 1. cbn [eeprom_read_loop].
    replace (n >? 0) with true by (symmetry; apply Z.gtb_lt; lia).
    destruct (loop_step_arith pos n ltac:(lia) ltac:(lia) ltac:(lia))
      as (Epage & Epo & _ & Echunk & Erest & Enext).
    cbv zeta. rewrite Echunk, Epage, Epo, Erest, Enext.
    assert (Hchunk : st_chunk pos n = n) by (unfold st_chunk; lia).
    rewrite Hchunk, Z.sub_diag.
    unfold bind at 1.
    destruct (EEPROM_Read_data (S iters) (pos mod EEPROM_PAGE_SIZE)
                (pos / EEPROM_PAGE_SIZE) buffer n w Hfuel Hd Hm)
      as [w' (Hrun & Hcells & Hmem)]; try lia.
    rewrite Hrun.
    replace (eeprom_read_loop iters (S iters) buffer 0 (pos + n) w')
      with (Some (pos + n, w')) by (destruct iters; reflexivity).
    exists w'. unfold ret.
    rewrite to_int_id by (unfold INT_MAX; lia).
    split; [reflexivity|].
    intros i Hi. rewrite Hmem.
    replace ((buffer <=? buffer + i) && (buffer + i <? buffer + n)) with true.
    + f_equal. f_equal. lia.
    + symmetry. apply andb_true_iff. split.
      * apply Z.leb_le. lia.
      * apply Z.ltb_lt. lia.
Qed.

Lemma eeprom_read_delivers_page_bytes_witness :
  exists w',
    eeprom_read 3 1000 100 4000 (boot ramp 2) = Some ((32, 4000 + 32), w')
    /\ forall i, 0 <= i < 32 ->
         user_mem w' (1000 + i)
         = to_u8 (cells (LPC_EEPROM (boot ramp 2)) (4000 + i)).
Proof.
  apply (eeprom_read_delivers_page_bytes 3 1000 100 4000 (boot ramp 2)).
  - unfold CAPACITY, EEPROM_PAGE_SIZE, EEPROM_PAGE_NUM. lia.
  - unfold is_size_t, SIZE_MAX. lia.
  - vm_compute. discriminate.
  - reflexivity.
  - cbn. lia.
  - lia.
Defined.

(** ** What a write does to the device *)

Lemma page_of_chunk_byte (offset c i : Z) :
  0 <= offset -> 0 <= i < c ->
  offset mod EEPROM_PAGE_SIZE + c <= EEPROM_PAGE_SIZE ->
  Z.shiftr (offset + i) 6 = offset / EEPROM_PAGE_SIZE
  /\ Z.land (offset + i) 63 = offset mod EEPROM_PAGE_SIZE + i.
Proof.
  intros Hoff Hi Hfit.
  assert (Hm : 0 <= offset mod EEPROM_PAGE_SIZE < EEPROM_PAGE_SIZE)
    by (apply Z.mod_pos_bound; reflexivity).
  pose proof (Z.div_mod offset EEPROM_PAGE_SIZE ltac:(discriminate)) as Hdm.
  split.
  - rewrite Z.shiftr_div_pow2 by lia. change (2 ^ 6) with EEPROM_PAGE_SIZE.
    symmetry.
    apply (Z.div_unique _ _ _ (offset mod EEPROM_PAGE_SIZE + i));
      unfold EEPROM_PAGE_SIZE in *; lia.
  - change 63 with (Z.ones 6). rewrite Z.land_ones by lia.
    change (2 ^ 6) with EEPROM_PAGE_SIZE. symmetry.
    apply (Z.mod_unique _ _ (offset / EEPROM_PAGE_SIZE));
      unfold EEPROM_PAGE_SIZE in *; lia.
Qed.

Lemma next_chunk_page (offset to_write : Z) :
  0 <= offset -> st_chunk offset to_write < to_write ->
  (offset + st_chunk offset to_write) / EEPROM_PAGE_SIZE
  = offset / EEPROM_PAGE_SIZE + 1.
Proof.
  intros Hoff Hmore.
  assert (Hm : 0 <= offset mod EEPROM_PAGE_SIZE < EEPROM_PAGE_SIZE)
    by (apply Z.mod_pos_bound; reflexivity).
  pose proof (Z.div_mod offset EEPROM_PAGE_SIZE ltac:(discriminate)) as Hdm.
  assert (Hfull : st_chunk offset to_write
                  = EEPROM_PAGE_SIZE - offset mod EEPROM_PAGE_SIZE)
    by (unfold st_chunk in *; lia).
  replace (offset + st_chunk offset to_write)
    with ((offset / EEPROM_PAGE_SIZE + 1) * EEPROM_PAGE_SIZE) by lia.
  apply Z.div_mul. discriminate.
Qed.

Lemma eeprom_write_loop_data (fuel : nat) (iters : nat) :
  forall (buffer to_write offset : Z) (w : world),
    (latency (LPC_EEPROM w) < fuel)%nat ->
    0 <= offset -> 0 <= to_write -> offset + to_write <= CAPACITY ->
    (Z.to_nat to_write <= iters)%nat ->
    exists w',
      eeprom_write_loop iters fuel buffer to_write offset w
      = Some (offset + to_write, w')
      /\ (to_write = 0 -> w' = w)
      /\ user_mem w' = user_mem w
      /\ (forall i, 0 <= i < to_write ->
            cells (LPC_EEPROM w') (offset + i)
            = to_u8 (user_mem w (buffer + i)))
      /\ (forall a,
            a / EEPROM_PAGE_SIZE < offset / EEPROM_PAGE_SIZE
            \/ (offset + to_write - 1) / EEPROM_PAGE_SIZE
               < a / EEPROM_PAGE_SIZE ->
            cells (LPC_EEPROM w') a = cells (LPC_EEPROM w) a).
Proof.
  induction iters as [|iters IH];
    intros buffer to_write offset w Hfuel Hoff Hwr Hcap Hiters.
  - assert (to_write = 0) by lia. subst to_write.
    exists w. cbn [eeprom_write_loop]. unfold ret.
    rewrite Z.add_0_r. repeat split. intros i Hi. lia.
  - cbn [eeprom_write_loop].
    destruct (to_write >? 0) eqn:Hpos.
    + apply Z.gtb_lt in Hpos.
      destruct (loop_step_arith offset to_write Hoff Hpos Hcap)
        as (Epage & Epo & Epo16 & Echunk & Erest & Enext).
      cbv zeta. rewrite Echunk, Epage, Epo16, Erest, Enext.
      pose proof (st_chunk_bounds offset to_write ltac:(lia)) as [Hc Hp].
      assert (Hm : 0 <= offset mod EEPROM_PAGE_SIZE < EEPROM_PAGE_SIZE)
        by (apply Z.mod_pos_bound; reflexivity).
      assert (Hd : 0 <= offset / EEPROM_PAGE_SIZE < EEPROM_PAGE_NUM).
      { unfold CAPACITY, EEPROM_PAGE_SIZE, EEPROM_PAGE_NUM in *. split.
        - apply Z.div_pos; lia.
        - apply Z.div_lt_upper_bound; lia. }
      set (c := st_chunk offset to_write) in *.
      set (page := offset / EEPROM_PAGE_SIZE) in *.
      unfold bind at 1.
      destruct (EEPROM_WritePageRegister_data fuel
                  (offset mod EEPROM_PAGE_SIZE) buffer c w Hfuel Hm)
        as [w1 (Hrun1 & (_ & _ & Hlat1) & Hu1 & Hcells1 & Hpage1)]; try lia.
      rewrite Hrun1. unfold bind at 1.
      assert (Hfuel1 : (latency (LPC_EEPROM w1) < fuel)%nat) by lia.
      destruct (EEPROM_EraseProgramPage_data fuel page w1 Hfuel1 Hd)
        as [w2 (Hrun2 & (_ & _ & Hlat2) & Hu2 & Hcells2)].
      rewrite Hrun2.
      assert (Hfuel2 : (latency (LPC_EEPROM w2) < fuel)%nat) by lia.
      destruct (IH (buffer + c) (to_write - c) (offset + c) w2)
        as [w' (Hrun & Hdone & Hu & Hdata & Hframe)]; try lia.
      assert (Hlast : page <= (offset + to_write - 1) / EEPROM_PAGE_SIZE).
      { unfold page. apply Z.div_le_mono; [reflexivity | lia]. }
      (* the cells of the first chunk's page survive the rest of the loop *)
      assert (Hkeep : forall a, a / EEPROM_PAGE_SIZE <= page ->
                cells (LPC_EEPROM w') a = cells (LPC_EEPROM w2) a).
      { intros a Ha. destruct (Z.eq_dec (to_write - c) 0) as [Hz|Hnz].
        - rewrite (Hdone Hz). reflexivity.
        - apply Hframe. left.
          pose proof (next_chunk_page offset to_write Hoff) as Hnext.
          fold c page in Hnext. rewrite Hnext by lia. lia. }
      exists w'. split; [rewrite Hrun; f_equal; f_equal; lia|].
      split; [intros Hz; lia|]. split; [congruence|]. split.
      * intros i Hi. destruct (Z_lt_dec i c) as [Hfirst|Hrest].
        -- destruct (page_of_chunk_byte offset c i Hoff ltac:(lia) Hp)
             as [Hq Hr].
           rewrite Hkeep
             by (rewrite <- (Z.shiftr_div_pow2 _ 6) by lia; rewrite Hq;
                 fold page; lia).
           rewrite Hcells2, Hq. fold page. rewrite Z.eqb_refl, Hr, Hpage1.
           replace ((offset mod EEPROM_PAGE_SIZE
                     <=? offset mod EEPROM_PAGE_SIZE + i)
                    && (offset mod EEPROM_PAGE_SIZE + i
                        <? offset mod EEPROM_PAGE_SIZE + c)) with true.
           ++ f_equal. f_equal. lia.
           ++ symmetry. apply andb_true_iff. split.
              ** apply Z.leb_le. lia.
              ** apply Z.ltb_lt. lia.
        -- replace (offset + i) with (offset + c + (i - c)) by lia.
           rewrite Hdata by lia. rewrite Hu2, Hu1. f_equal. f_equal. lia.
      * intros a Ha.
        assert (Hother : (Z.shiftr a 6 =? page) = false).
        { apply Z.eqb_neq. rewrite Z.shiftr_div_pow2 by lia.
          change (2 ^ 6) with EEPROM_PAGE_SIZE. lia. }
        transitivity (cells (LPC_EEPROM w2) a).
        -- destruct Ha as [Ha|Ha].
           ++ apply Hkeep. lia.
           ++ destruct (Z.eq_dec (to_write - c) 0) as [Hz|Hnz].
              ** rewrite (Hdone Hz). reflexivity.
              ** apply Hframe. right.
                 replace (offset + c + (to_write - c) - 1)
                   with (offset + to_write - 1) by lia.
                 exact Ha.
        -- rewrite Hcells2, Hother, Hcells1. reflexivity.
    + rewrite Z.gtb_ltb in Hpos. apply Z.ltb_ge in Hpos.
      assert (to_write = 0) by lia. subst to_write.
      exists w. unfold ret. rewrite Z.add_0_r. repeat split.
      intros i Hi. lia.
Qed.

(** X10: A write stores the caller's bytes in the device, byte i of the buffer
    at position pos + i, over all the pages of the request; the count is
    clamped at the end of the device. *)
Theorem eeprom_write_stores_data
  (fuel : nat) (buffer len pos : Z) (w : world) :
  0 <= pos <= CAPACITY -> is_size_t len ->
  access_ok w buffer len = true ->
  (latency (LPC_EEPROM w) < fuel)%nat -> (Z.to_nat CAPACITY <= fuel)%nat ->
  let n := Z.min len (CAPACITY - pos) in
  exists w',
    eeprom_write fuel buffer len pos w = Some ((n, pos + n), w')
    /\ forall i, 0 <= i < n ->
         cells (LPC_EEPROM w') (pos + i) = to_u8 (user_mem w (buffer + i)).
Proof.
  intros Hoff Hlen Hok Hfuel Hiters n.
  assert (Hn : 0 <= n <= CAPACITY - pos)
    by (unfold n, is_size_t in *; lia).
  assert (HC : CAPACITY = 4032) by reflexivity.
  unfold eeprom_write. rewrite Hok. cbn [negb].
  rewrite (clamp_is_min len pos Hoff Hlen). fold n.
  destruct (n =? 0) eqn:Hz.
  - apply Z.eqb_eq in Hz. exists w. rewrite Hz, Z.add_0_r.
    split; [reflexivity|]. intros i Hi. lia.
  - unfold bind.
    destruct (eeprom_write_loop_data fuel fuel buffer n pos w)
      as [w' (Hrun & _ & _ & Hdata & _)]; try lia.
    exists w'. rewrite Hrun. unfold ret.
    rewrite to_int_id by (unfold INT_MAX; lia).
    split; [reflexivity | exact Hdata].
Qed.

Lemma eeprom_write_stores_data_witness :
  exists w',
    eeprom_write 4032 1000 200 3900 (boot ramp 2)
    = Some ((132, 3900 + 132), w')
    /\ forall i, 0 <= i < 132 ->
         cells (LPC_EEPROM w') (3900 + i)
         = to_u8 (user_mem (boot ramp 2) (1000 + i)).
Proof.
  apply (eeprom_write_stores_data 4032 1000 200 3900 (boot ramp 2)).
  - unfold CAPACITY, EEPROM_PAGE_SIZE, EEPROM_PAGE_NUM. lia.
  - unfold is_size_t, SIZE_MAX. lia.
  - reflexivity.
  - cbn. lia.
  - unfold CAPACITY, EEPROM_PAGE_SIZE, EEPROM_PAGE_NUM. lia.
Defined.

(** X11: A write changes no page but the pages that hold a byte of the
    request, and it leaves the caller's memory as it was. *)
Theorem eeprom_write_touches_only_its_pages
  (fuel : nat) (buffer len pos : Z) (w : world) :
  0 <= pos <= CAPACITY -> is_size_t len ->
  access_ok w buffer len = true ->
  (latency (LPC_EEPROM w) < fuel)%nat -> (Z.to_nat CAPACITY <= fuel)%nat ->
  let n := Z.min len (CAPACITY - pos) in
  exists w',
    eeprom_write fuel buffer len pos w = Some ((n, pos + n), w')
    /\ user_mem w' = user_mem w
    /\ forall a,
         a / EEPROM_PAGE_SIZE < pos / EEPROM_PAGE_SIZE
         \/ (pos + n - 1) / EEPROM_PAGE_SIZE < a / EEPROM_PAGE_SIZE ->
         cells (LPC_EEPROM w') a = cells (LPC_EEPROM w) a.
Proof.
  intros Hoff Hlen Hok Hfuel Hiters n.
  assert (Hn : 0 <= n <= CAPACITY - pos)
    by (unfold n, is_size_t in *; lia).
  assert (HC : CAPACITY = 4032) by reflexivity.
  unfold eeprom_write. rewrite Hok. cbn [negb].
  rewrite (clamp_is_min len pos Hoff Hlen). fold n.
  destruct (n =? 0) eqn:Hz.
  - apply Z.eqb_eq in Hz. exists w. rewrite Hz, Z.add_0_r.
    repeat split.
  - unfold bind.
    destruct (eeprom_write_loop_data fuel fuel buffer n pos w)
      as [w' (Hrun & _ & Hu & _ & Hframe)]; try lia.
    exists w'. rewrite Hrun. unfold ret.
    rewrite to_int_id by (unfold INT_MAX; lia).
    split; [reflexivity|]. split; [exact Hu | exact Hframe].
Qed.

Lemma eeprom_write_touches_only_its_pages_witness :
  exists w',
    eeprom_write 4032 1000 8 60 (boot ramp 2) = Some ((8, 60 + 8), w')
    /\ user_mem w' = user_mem (boot ramp 2)
    /\ forall a,
         a / EEPROM_PAGE_SIZE < 60 / EEPROM_PAGE_SIZE
         \/ (60 + 8 - 1) / EEPROM_PAGE_SIZE < a / EEPROM_PAGE_SIZE ->
         cells (LPC_EEPROM w') a = cells (LPC_EEPROM (boot ramp 2)) a.
Proof.
  apply (eeprom_write_touches_only_its_pages 4032 1000 8 60 (boot ramp 2)).
  - unfold CAPACITY, EEPROM_PAGE_SIZE, EEPROM_PAGE_NUM. lia.
  - unfold is_size_t, SIZE_MAX. lia.
  - reflexivity.
  - cbn. lia.
  - unfold CAPACITY, EEPROM_PAGE_SIZE, EEPROM_PAGE_NUM. lia.
Defined.

Lemma write_then_read_within_page_witness :
  exists w1 w2,
    eeprom_write 3 1000 8 16 (boot ramp 2) = Some ((8, 16 + 8), w1)
    /\ eeprom_llseek (16 + 8) 16 SEEK_SET = (16, 16)
    /\ eeprom_read 3 2000 8 16 w1 = Some ((8, 16 + 8), w2)
    /\ forall i, 0 <= i < 8 ->
         user_mem w2 (2000 + i) = to_u8 (user_mem (boot ramp 2) (1000 + i)).
Proof.
  apply (write_then_read_within_page 3 1000 2000 8 16 (boot ramp 2)).
  - lia.
  - lia.
  - unfold CAPACITY, EEPROM_PAGE_SIZE, EEPROM_PAGE_NUM. lia.
  - vm_compute. discriminate.
  - reflexivity.
  - reflexivity.
  - cbn. lia.
  - lia.
Defined.

(** ** Module initialisation *)


(** * The user-space utility *)

(** ** The effect of one read and one write *)

Lemma eeprom_read_effect (fuel : nat) (buffer len pos : Z) (w : world) :
  0 <= pos <= CAPACITY -> is_size_t len ->
  access_ok w buffer len = true ->
  (latency (LPC_EEPROM w) < fuel)%nat -> (Z.to_nat CAPACITY <= fuel)%nat ->
  let n := Z.min len (CAPACITY - pos) in
  exists w',
    eeprom_read fuel buffer len pos w = Some ((n, pos + n), w')
    /\ same_kernel w w'
    /\ cells (LPC_EEPROM w') = cells (LPC_EEPROM w)
    /\ (forall x, x < buffer \/ buffer + n <= x ->
          user_mem w' x = user_mem w x)
    /\ (0 < len -> pos + len <= CAPACITY ->
        pos mod EEPROM_PAGE_SIZE + len <= EEPROM_PAGE_SIZE ->
        forall i, 0 <= i < len ->
          user_mem w' (buffer + i) = to_u8 (cells (LPC_EEPROM w) (pos + i))).
Proof.
  intros Hoff Hlen Hok Hfuel Hiters n.
  assert (Hn : 0 <= n <= CAPACITY - pos)
    by (unfold n, is_size_t in *; lia).
  assert (HC : CAPACITY = 4032) by reflexivity.
  destruct (eeprom_read_returns fuel buffer len pos w Hoff Hlen Hok Hfuel
              Hiters) as [w' (Hrun & Hk & _)].
  fold n in Hrun.
  exists w'. split; [exact Hrun|]. split; [exact Hk|].
  assert (Hframe :
    exists w2,
      eeprom_read fuel buffer len pos w = Some ((n, pos + n), w2)
      /\ cells (LPC_EEPROM w2) = cells (LPC_EEPROM w)
      /\ forall x, x < buffer \/ buffer + n <= x ->
           user_mem w2 x = user_mem w x).
  { unfold eeprom_read. rewrite Hok. cbn [negb].
    rewrite (clamp_is_min len pos Hoff Hlen). fold n.
    destruct (n =? 0) eqn:Hz.
    - apply Z.eqb_eq in Hz. exists w. rewrite Hz, Z.add_0_r. repeat split.
    - unfold bind.
      destruct (eeprom_read_loop_frame fuel buffer fuel n pos w)
        as [w2 (Hrun2 & Hcells & Hmem)]; try lia.
      exists w2. rewrite Hrun2. unfold ret.
      rewrite to_int_id by (unfold INT_MAX; lia).
      split; [reflexivity|]. split; assumption. }
  destruct Hframe as [w2 (Hrun2 & Hcells & Hmem)].
  assert (w2 = w') by (eapply same_result; eassumption). subst w2.
  split; [exact Hcells|]. split; [exact Hmem|].
  intros Hpos Hcap Hpage i Hi.
  destruct (eeprom_read_within_page fuel buffer len pos w)
    as [w3 (Hrun3 & _ & Hdata)]; try assumption; try lia.
  replace n with len in Hrun by lia.
  assert (w3 = w') by (eapply same_result; eassumption). subst w3.
  apply Hdata. exact Hi.
Qed.

Lemma eeprom_write_effect (fuel : nat) (buffer len pos : Z) (w : world) :
  0 <= pos <= CAPACITY -> is_size_t len ->
  access_ok w buffer len = true ->
  (latency (LPC_EEPROM w) < fuel)%nat -> (Z.to_nat CAPACITY <= fuel)%nat ->
  let n := Z.min len (CAPACITY - pos) in
  exists w',
    eeprom_write fuel buffer len pos w = Some ((n, pos + n), w')
    /\ same_kernel w w'
    /\ user_mem w' = user_mem w
    /\ (n = 0 -> cells (LPC_EEPROM w') = cells (LPC_EEPROM w))
    /\ (forall i, 0 <= i < n ->
          cells (LPC_EEPROM w') (pos + i) = to_u8 (user_mem w (buffer + i))).
Proof.
  intros Hoff Hlen Hok Hfuel Hiters n.
  assert (Hn : 0 <= n <= CAPACITY - pos)
    by (unfold n, is_size_t in *; lia).
  assert (HC : CAPACITY = 4032) by reflexivity.
  destruct (eeprom_write_returns fuel buffer len pos w Hoff Hlen Hok Hfuel
              Hiters) as [w' [t (Hrun & Hk & Hu & _)]].
  fold n in Hrun.
  exists w'. split; [exact Hrun|]. split; [exact Hk|]. split; [exact Hu|].
  assert (Hdata :
    exists w2,
      eeprom_write fuel buffer len pos w = Some ((n, pos + n), w2)
      /\ (n = 0 -> w2 = w)
      /\ forall i, 0 <= i < n ->
           cells (LPC_EEPROM w2) (pos + i)
           = to_u8 (user_mem w (buffer + i))).
  { unfold eeprom_write. rewrite Hok. cbn [negb].
    rewrite (clamp_is_min len pos Hoff Hlen). fold n.
    destruct (n =? 0) eqn:Hz.
    - apply Z.eqb_eq in Hz. exists w. rewrite Hz, Z.add_0_r.
      split; [reflexivity|]. split; [reflexivity|]. intros i Hi. lia.
    - apply Z.eqb_neq in Hz. unfold bind.
      destruct (eeprom_write_loop_data fuel fuel buffer n pos w)
        as [w2 (Hrun2 & _ & _ & Hd & _)]; try lia.
      exists w2. rewrite Hrun2. unfold ret.
      rewrite to_int_id by (unfold INT_MAX; lia).
      split; [reflexivity|]. split; [intros Hzero; contradiction | exact Hd]. }
  destruct Hdata as [w2 (Hrun2 & Hzero & Hd)].
  assert (w2 = w') by (eapply same_result; eassumption). subst w2.
  split; [|exact Hd].
  intros Hz. rewrite (Hzero Hz). reflexivity.
Qed.

(** ** The bytes that a transfer moves *)

Lemma Zseq_app (n m : nat) :
  forall a : Z, Zseq a (n + m) = Zseq a n ++ Zseq (a + Z.of_nat n) m.
Proof.
  induction n as [|n IH]; intros a.
  - cbn [Zseq Nat.add app Z.of_nat]. rewrite Z.add_0_r. reflexivity.
  - cbn [Zseq Nat.add app]. rewrite IH, Nat2Z.inj_succ.
    replace (a + 1 + Z.of_nat n) with (a + Z.succ (Z.of_nat n)) by lia.
    reflexivity.
Qed.

Lemma Zseq_split (a c n : Z) :
  0 <= c <= n ->
  Zseq a (Z.to_nat n) = Zseq a (Z.to_nat c) ++ Zseq (a + c) (Z.to_nat (n - c)).
Proof.
  intros Hc.
  replace (Z.to_nat n) with (Z.to_nat c + Z.to_nat (n - c))%nat by lia.
  rewrite Zseq_app, Z2Nat.id by lia. reflexivity.
Qed.

Lemma Zseq_count (a : Z) (n : nat) : length (Zseq a n) = n.
Proof.
  revert a. induction n as [|n IH]; intros a; [reflexivity|].
  cbn [Zseq length]. rewrite IH. reflexivity.
Qed.

Lemma data_moves_app (t1 t2 : list bus_event) :
  data_moves (t1 ++ t2) = data_moves t1 ++ data_moves t2.
Proof. apply filter_app. Qed.

Lemma polls_move_nothing (polls : list bus_event) :
  Forall is_poll polls -> data_moves polls = [].
Proof.
  induction 1 as [|e l [v ->] _ IH]; [reflexivity|].
  unfold data_moves in *. cbn [filter is_data_move]. exact IH.
Qed.

Lemma wait_traffic_moves_nothing (mask : Z) (lat : nat) (t : list bus_event) :
  wait_traffic mask lat t -> data_moves t = [].
Proof.
  intros (early & last & -> & _). rewrite data_moves_app.
  rewrite polls_move_nothing; [reflexivity|].
  apply Forall_forall. intros e He. apply in_map_iff in He.
  destruct He as (v & <- & _). exists v. reflexivity.
Qed.

Lemma byte_traffic_data_moves
  (move : Z -> bus_event) (lat : nat) (vs : list Z) :
  (forall v, is_data_move (move v) = true) ->
  forall t, byte_traffic move lat vs t -> data_moves t = map move vs.
Proof.
  intros Hmove. induction vs as [|v vs IH]; intros t Ht.
  - cbn [byte_traffic] in Ht. subst t. reflexivity.
  - destruct Ht as (tw & t' & -> & Hw & Hb).
    change (move v :: tw ++ t') with ([move v] ++ tw ++ t').
    rewrite !data_moves_app, (wait_traffic_moves_nothing _ _ _ Hw), (IH t' Hb).
    unfold data_moves. cbn [filter map app]. rewrite Hmove. reflexivity.
Qed.

Lemma delivered_ext (contents : Z -> Z) (buffer : Z)
  (chunks : list (Z * Z * Z)) :
  forall m1 m2 : Z -> Z,
    (forall x, m1 x = m2 x) ->
    forall x, delivered contents buffer chunks m1 x
              = delivered contents buffer chunks m2 x.
Proof.
  induction chunks as [|[[page page_offset] chunk] rest IH];
    intros m1 m2 Hm x; cbn [delivered]; [apply Hm|].
  apply IH. intros y.
  destruct ((buffer <=? y) && (y <? buffer + chunk)); [reflexivity | apply Hm].
Qed.

(** One call of [EEPROM_Read]: its loads of RDATA are the device bytes of
    the chunk in order, and they land at [pData]. *)
Lemma EEPROM_Read_moves
  (fuel : nat) (pageOffset pageAddr pData byteNum : Z) (w : world) :
  (latency (LPC_EEPROM w) < fuel)%nat ->
  0 <= pageAddr < EEPROM_PAGE_NUM -> 0 <= pageOffset < EEPROM_PAGE_SIZE ->
  0 <= byteNum -> pageOffset + byteNum <= EEPROM_PAGE_SIZE ->
  exists w' t,
    EEPROM_Read fuel pageOffset pageAddr pData byteNum w = Some (byteNum, w')
    /\ same_kernel w w'
    /\ cells (LPC_EEPROM w') = cells (LPC_EEPROM w)
    /\ (forall x,
          user_mem w' x
          = if (pData <=? x) && (x <? pData + byteNum)
            then to_u8 (cells (LPC_EEPROM w)
                          (pageAddr * EEPROM_PAGE_SIZE + pageOffset
                           + (x - pData)))
            else user_mem w x)
    /\ traffic (LPC_EEPROM w') = traffic (LPC_EEPROM w) ++ t
    /\ data_moves t
       = map (fun a => LoadFrom RDATA (cells (LPC_EEPROM w) a))
           (Zseq (pageAddr * EEPROM_PAGE_SIZE + pageOffset)
              (Z.to_nat byteNum)).
Proof.
  intros Hfuel Hpa Hpo Hn Hfit.
  destruct (EEPROM_Read_returns fuel pageOffset pageAddr pData byteNum w Hfuel)
    as [w' (Hrun & Hk & _)].
  destruct (EEPROM_Read_data fuel pageOffset pageAddr pData byteNum w
              Hfuel Hpa Hpo Hn Hfit) as [w1 (Hrun1 & Hcells & Hmem)].
  destruct (EEPROM_Read_bus fuel pageOffset pageAddr pData byteNum w
              Hfuel Hpa Hpo Hn Hfit) as [w2 [t (Hrun2 & Ht & Hbt & _)]].
  assert (w1 = w') by (eapply same_result; eassumption). subst w1.
  assert (w2 = w') by (eapply same_result; eassumption). subst w2.
  exists w'. eexists. split; [exact Hrun|]. split; [exact Hk|].
  split; [exact Hcells|]. split; [exact Hmem|]. split; [exact Ht|].
  rewrite data_moves_app.
  rewrite (byte_traffic_data_moves (LoadFrom RDATA) _ _ (fun _ => eq_refl)
             t Hbt), map_map.
  reflexivity.
Qed.

Lemma eeprom_read_loop_moves (fuel : nat) (buffer : Z) (iters : nat) :
  forall (to_read offset : Z) (w : world),
    (latency (LPC_EEPROM w) < fuel)%nat ->
    0 <= offset -> 0 <= to_read -> offset + to_read <= CAPACITY ->
    (Z.to_nat to_read <= iters)%nat ->
    exists w' t,
      eeprom_read_loop iters fuel buffer to_read offset w
      = Some (offset + to_read, w')
      /\ cells (LPC_EEPROM w') = cells (LPC_EEPROM w)
      /\ traffic (LPC_EEPROM w') = traffic (LPC_EEPROM w) ++ t
      /\ data_moves t
         = map (fun a => LoadFrom RDATA (cells (LPC_EEPROM w) a))
             (Zseq offset (Z.to_nat to_read))
      /\ forall x,
           user_mem w' x
           = delivered (cells (LPC_EEPROM w)) buffer
               (st_chunks offset to_read) (user_mem w) x.
Proof.
  induction iters as [|iters IH];
    intros to_read offset w Hfuel Hoff Hrd Hcap Hiters.
  - assert (to_read = 0) by lia. subst to_read.
    exists w, []. cbn [eeprom_read_loop]. unfold ret.
    rewrite Z.add_0_r, app_nil_r, st_chunks_done by lia.
    repeat split.
  - cbn [eeprom_read_loop].
    destruct (to_read >? 0) eqn:Hpos.
    + apply Z.gtb_lt in Hpos.
      destruct (loop_step_arith offset to_read Hoff Hpos Hcap)
        as (Epage & Epo & _ & Echunk & Erest & Enext).
      cbv zeta. rewrite Echunk, Epage, Epo, Erest, Enext.
      pose proof (st_chunk_bounds offset to_read ltac:(lia)) as [Hc Hp].
      assert (Hm : 0 <= offset mod EEPROM_PAGE_SIZE < EEPROM_PAGE_SIZE)
        by (apply Z.mod_pos_bound; reflexivity).
      assert (Hd : 0 <= offset / EEPROM_PAGE_SIZE < EEPROM_PAGE_NUM).
      { unfold CAPACITY, EEPROM_PAGE_SIZE, EEPROM_PAGE_NUM in *. split.
        - apply Z.div_pos; lia.
        - apply Z.div_lt_upper_bound; lia. }
      assert (Hstart : offset / EEPROM_PAGE_SIZE * EEPROM_PAGE_SIZE
                       + offset mod EEPROM_PAGE_SIZE = offset).
      { pose proof (Z.div_mod offset EEPROM_PAGE_SIZE ltac:(discriminate)).
        lia. }
      unfold bind at 1.
      destruct (EEPROM_Read_moves fuel (offset mod EEPROM_PAGE_SIZE)
                  (offset / EEPROM_PAGE_SIZE) buffer
                  (st_chunk offset to_read) w Hfuel Hd Hm)
        as [w1 [t1 (Hrun1 & (_ & _ & Hlat) & Hcells1 & Hmem1 & Ht1 & Hmv1)]];
        try lia.
      rewrite Hrun1. rewrite Hstart in Hmv1.
      destruct (IH (to_read - st_chunk offset to_read)
                  (offset + st_chunk offset to_read) w1)
        as [w' [t2 (Hrun & Hcells & Ht2 & Hmv2 & Hmem)]]; try lia.
      exists w', (t1 ++ t2).
      split; [rewrite Hrun; f_equal; f_equal; lia|].
      split; [congruence|].
      split; [rewrite Ht2, Ht1, app_assoc; reflexivity|].
      split.
      * rewrite data_moves_app, Hmv1, Hmv2, Hcells1.
        rewrite (Zseq_split offset (st_chunk offset to_read) to_read) by lia.
        rewrite map_app. reflexivity.
      * intros x. rewrite Hmem, Hcells1.
        rewrite (st_chunks_step offset to_read) by lia.
        cbn [delivered]. apply delivered_ext. exact Hmem1.
    + rewrite Z.gtb_ltb in Hpos. apply Z.ltb_ge in Hpos.
      assert (to_read = 0) by lia. subst to_read.
      exists w, []. unfold ret.
      rewrite Z.add_0_r, app_nil_r, st_chunks_done by lia.
      repeat split.
Qed.

(** A read: the bytes loaded from the device are those at [pos],
    [pos + 1], ..., one load each, and every chunk of them goes to the
    start of the buffer. *)
Lemma eeprom_read_moves (fuel : nat) (buffer len pos : Z) (w : world) :
  0 <= pos <= CAPACITY -> is_size_t len ->
  access_ok w buffer len = true ->
  (latency (LPC_EEPROM w) < fuel)%nat -> (Z.to_nat CAPACITY <= fuel)%nat ->
  let n := Z.min len (CAPACITY - pos) in
  exists w' t,
    eeprom_read fuel buffer len pos w = Some ((n, pos + n), w')
    /\ pe_log w' = pe_log w ++ read_calls buffer (st_chunks pos n)
    /\ cells (LPC_EEPROM w') = cells (LPC_EEPROM w)
    /\ traffic (LPC_EEPROM w') = traffic (LPC_EEPROM w) ++ t
    /\ data_moves t
       = map (fun a => LoadFrom RDATA (cells (LPC_EEPROM w) a))
           (Zseq pos (Z.to_nat n))
    /\ forall x,
         user_mem w' x
         = delivered (cells (LPC_EEPROM w)) buffer (st_chunks pos n)
             (user_mem w) x.
Proof.
  intros Hoff Hlen Hok Hfuel Hiters n.
  assert (Hn : 0 <= n <= CAPACITY - pos)
    by (unfold n, is_size_t in *; lia).
  assert (HC : CAPACITY = 4032) by reflexivity.
  destruct (eeprom_read_returns fuel buffer len pos w Hoff Hlen Hok Hfuel
              Hiters) as [w' (Hrun & _ & Hlog)].
  fold n in Hrun, Hlog.
  assert (Hmoves :
    exists w2 t,
      eeprom_read fuel buffer len pos w = Some ((n, pos + n), w2)
      /\ cells (LPC_EEPROM w2) = cells (LPC_EEPROM w)
      /\ traffic (LPC_EEPROM w2) = traffic (LPC_EEPROM w) ++ t
      /\ data_moves t
         = map (fun a => LoadFrom RDATA (cells (LPC_EEPROM w) a))
             (Zseq pos (Z.to_nat n))
      /\ forall x,
           user_mem w2 x
           = delivered (cells (LPC_EEPROM w)) buffer (st_chunks pos n)
               (user_mem w) x).
  { unfold eeprom_read. rewrite Hok. cbn [negb].
    rewrite (clamp_is_min len pos Hoff Hlen). fold n.
    destruct (n =? 0) eqn:Hz.
    - apply Z.eqb_eq in Hz. exists w, [].
      rewrite Hz, Z.add_0_r, app_nil_r, st_chunks_done by lia.
      repeat split.
    - unfold bind.
      destruct (eeprom_read_loop_moves fuel buffer fuel n pos w)
        as [w2 [t (Hrun2 & Hcells & Ht & Hmv & Hmem)]]; try lia.
      exists w2, t. rewrite Hrun2. unfold ret.
      rewrite to_int_id by (unfold INT_MAX; lia).
      split; [reflexivity|]. repeat split; assumption. }
  destruct Hmoves as [w2 [t (Hrun2 & Hcells & Ht & Hmv & Hmem)]].
  assert (w2 = w') by (eapply same_result; eassumption). subst w2.
  exists w', t. repeat split; assumption.
Qed.

(** One call of [EEPROM_WritePageRegister]: its stores to WDATA are the
    caller's bytes in order. *)
Lemma EEPROM_WritePageRegister_moves
  (fuel : nat) (pageOffset pData byteNum : Z) (w : world) :
  (latency (LPC_EEPROM w) < fuel)%nat ->
  0 <= pageOffset < EEPROM_PAGE_SIZE ->
  0 <= byteNum -> pageOffset + byteNum <= EEPROM_PAGE_SIZE ->
  exists w' t,
    EEPROM_WritePageRegister fuel pageOffset pData byteNum w
    = Some (byteNum, w')
    /\ same_kernel w w'
    /\ user_mem w' = user_mem w
    /\ traffic (LPC_EEPROM w') = traffic (LPC_EEPROM w) ++ t
    /\ data_moves t
       = map (fun a => StoreTo WDATA (to_u8 (user_mem w a)))
           (Zseq pData (Z.to_nat byteNum)).
Proof.
  intros Hfuel Hpo Hn Hfit.
  destruct (EEPROM_WritePageRegister_data fuel pageOffset pData byteNum w
              Hfuel Hpo Hn Hfit) as [w' (Hrun & Hk & Hu & _)].
  destruct (EEPROM_WritePageRegister_bus fuel pageOffset pData byteNum w
              Hfuel Hpo Hn Hfit) as [w2 [t (Hrun2 & Ht & Hbt & _)]].
  assert (w2 = w') by (eapply same_result; eassumption). subst w2.
  exists w'. eexists. split; [exact Hrun|]. split; [exact Hk|].
  split; [exact Hu|]. split; [exact Ht|].
  rewrite data_moves_app.
  rewrite (byte_traffic_data_moves (StoreTo WDATA) _ _ (fun _ => eq_refl)
             t Hbt), map_map.
  reflexivity.
Qed.

Lemma eeprom_write_loop_moves (fuel : nat) (iters : nat) :
  forall (buffer to_write offset : Z) (w : world),
    (latency (LPC_EEPROM w) < fuel)%nat ->
    0 <= offset -> 0 <= to_write -> offset + to_write <= CAPACITY ->
    (Z.to_nat to_write <= iters)%nat ->
    exists w' t,
      eeprom_write_loop iters fuel buffer to_write offset w
      = Some (offset + to_write, w')
      /\ user_mem w' = user_mem w
      /\ traffic (LPC_EEPROM w') = traffic (LPC_EEPROM w) ++ t
      /\ data_moves t
         = map (fun a => StoreTo WDATA (to_u8 (user_mem w a)))
             (Zseq buffer (Z.to_nat to_write)).
Proof.
  induction iters as [|iters IH];
    intros buffer to_write offset w Hfuel Hoff Hwr Hcap Hiters.
  - assert (to_write = 0) by lia. subst to_write.
    exists w, []. cbn [eeprom_write_loop]. unfold ret.
    rewrite Z.add_0_r, app_nil_r. repeat split.
  - cbn [eeprom_write_loop].
    destruct (to_write >? 0) eqn:Hpos.
    + apply Z.gtb_lt in Hpos.
      destruct (loop_step_arith offset to_write Hoff Hpos Hcap)
        as (Epage & Epo & Epo16 & Echunk & Erest & Enext).
      cbv zeta. rewrite Echunk, Epage, Epo16, Erest, Enext.
      pose proof (st_chunk_bounds offset to_write ltac:(lia)) as [Hc Hp].
      assert (Hm : 0 <= offset mod EEPROM_PAGE_SIZE < EEPROM_PAGE_SIZE)
        by (apply Z.mod_pos_bound; reflexivity).
      unfold bind at 1.
      destruct (EEPROM_WritePageRegister_moves fuel
                  (offset mod EEPROM_PAGE_SIZE) buffer
                  (st_chunk offset to_write) w Hfuel Hm)
        as [w1 [t1 (Hrun1 & (_ & _ & Hlat1) & Hu1 & Ht1 & Hmv1)]]; try lia.
      rewrite Hrun1. unfold bind at 1.
      assert (Hfuel1 : (latency (LPC_EEPROM w1) < fuel)%nat) by lia.
      destruct (EEPROM_EraseProgramPage_returns fuel
                  (offset / EEPROM_PAGE_SIZE) w1 Hfuel1)
        as [w2 [polls (Hrun2 & (_ & _ & Hlat2) & Hu2 & _ & _ & Hp2 & Ht2)]].
      rewrite Hrun2.
      assert (Hfuel2 : (latency (LPC_EEPROM w2) < fuel)%nat) by lia.
      destruct (IH (buffer + st_chunk offset to_write)
                  (to_write - st_chunk offset to_write)
                  (offset + st_chunk offset to_write) w2)
        as [w' [t3 (Hrun & Hu & Ht3 & Hmv3)]]; try lia.
      exists w'. eexists.
      split; [rewrite Hrun; f_equal; f_equal; lia|].
      split; [congruence|].
      split; [rewrite Ht3, Ht2, Ht1, <- !app_assoc; reflexivity|].
      rewrite !data_moves_app, Hmv1, Hmv3, (polls_move_nothing polls Hp2).
      rewrite Hu2, Hu1.
      rewrite (Zseq_split buffer (st_chunk offset to_write) to_write) by lia.
      rewrite map_app. reflexivity.
    + rewrite Z.gtb_ltb in Hpos. apply Z.ltb_ge in Hpos.
      assert (to_write = 0) by lia. subst to_write.
      exists w, []. unfold ret.
      rewrite Z.add_0_r, app_nil_r. repeat split.
Qed.

(** A write: the bytes handed to the device are the caller's at [buffer],
    [buffer + 1], ..., one store each, and they end up in the cells at
    [pos], [pos + 1], ... *)
Lemma eeprom_write_moves (fuel : nat) (buffer len pos : Z) (w : world) :
  0 <= pos <= CAPACITY -> is_size_t len ->
  access_ok w buffer len = true ->
  (latency (LPC_EEPROM w) < fuel)%nat -> (Z.to_nat CAPACITY <= fuel)%nat ->
  let n := Z.min len (CAPACITY - pos) in
  exists w' t,
    eeprom_write fuel buffer len pos w = Some ((n, pos + n), w')
    /\ pe_log w' = pe_log w ++ st_write pos buffer n
    /\ user_mem w' = user_mem w
    /\ traffic (LPC_EEPROM w') = traffic (LPC_EEPROM w) ++ t
    /\ data_moves t
       = map (fun a => StoreTo WDATA (to_u8 (user_mem w a)))
           (Zseq buffer (Z.to_nat n))
    /\ forall i, 0 <= i < n ->
         cells (LPC_EEPROM w') (pos + i) = to_u8 (user_mem w (buffer + i)).
Proof.
  intros Hoff Hlen Hok Hfuel Hiters n.
  assert (Hn : 0 <= n <= CAPACITY - pos)
    by (unfold n, is_size_t in *; lia).
  assert (HC : CAPACITY = 4032) by reflexivity.
  destruct (eeprom_write_returns fuel buffer len pos w Hoff Hlen Hok Hfuel
              Hiters) as [w' [t0 (Hrun & _ & Hu & Hlog & _)]].
  destruct (eeprom_write_effect fuel buffer len pos w Hoff Hlen Hok Hfuel
              Hiters) as [w1 (Hrun1 & _ & _ & _ & Hdata)].
  fold n in Hrun, Hlog, Hrun1, Hdata.
  assert (w1 = w') by (eapply same_result; eassumption). subst w1.
  assert (Hmoves :
    exists w2 t,
      eeprom_write fuel buffer len pos w = Some ((n, pos + n), w2)
      /\ traffic (LPC_EEPROM w2) = traffic (LPC_EEPROM w) ++ t
      /\ data_moves t
         = map (fun a => StoreTo WDATA (to_u8 (user_mem w a)))
             (Zseq buffer (Z.to_nat n))).
  { unfold eeprom_write. rewrite Hok. cbn [negb].
    rewrite (clamp_is_min len pos Hoff Hlen). fold n.
    destruct (n =? 0) eqn:Hz.
    - apply Z.eqb_eq in Hz. exists w, [].
      rewrite Hz, Z.add_0_r, app_nil_r. repeat split.
    - unfold bind.
      destruct (eeprom_write_loop_moves fuel fuel buffer n pos w)
        as [w2 [t (Hrun2 & _ & Ht & Hmv)]]; try lia.
      exists w2, t. rewrite Hrun2. unfold ret.
      rewrite to_int_id by (unfold INT_MAX; lia).
      split; [reflexivity|]. split; assumption. }
  destruct Hmoves as [w2 [t (Hrun2 & Ht & Hmv)]].
  assert (w2 = w') by (eapply same_result; eassumption). subst w2.
  exists w', t. repeat split; assumption.
Qed.

(** C7: a read or write of [len] bytes at a position in [0, C] moves
    n = min(len, C - pos) bytes, returns that count, and leaves the file
    position at the old position plus that count; the count is at most
    [len] and the position stays at most C.  The bytes moved are counted
    three ways, which agree: the byte counts of the calls into the page
    engine add up to n; the data register sees exactly n transactions,
    for a read the loads of the device bytes at pos, pos + 1, ... and for
    a write the stores of the caller's bytes at buffer, buffer + 1, ...;
    and the bytes arrive: a write leaves byte i of the buffer in the cell
    at pos + i, a read leaves each chunk of the device bytes at the start
    of the buffer. *)
Theorem transfer_is_clamped
  (fuel : nat) (buffer len pos : Z) (w : world) :
  0 <= pos <= CAPACITY -> is_size_t len ->
  access_ok w buffer len = true ->
  (latency (LPC_EEPROM w) < fuel)%nat -> (Z.to_nat CAPACITY <= fuel)%nat ->
  let n := Z.min len (CAPACITY - pos) in
  (exists w' calls t,
     eeprom_read fuel buffer len pos w = Some ((n, pos + n), w')
     /\ pe_log w' = pe_log w ++ calls /\ transferred calls = n
     /\ traffic (LPC_EEPROM w') = traffic (LPC_EEPROM w) ++ t
     /\ data_moves t
        = map (fun a => LoadFrom RDATA (cells (LPC_EEPROM w) a))
            (Zseq pos (Z.to_nat n))
     /\ Z.of_nat (length (data_moves t)) = n
     /\ forall x,
          user_mem w' x
          = delivered (cells (LPC_EEPROM w)) buffer (st_chunks pos n)
              (user_mem w) x)
  /\ (exists w' calls t,
        eeprom_write fuel buffer len pos w = Some ((n, pos + n), w')
        /\ pe_log w' = pe_log w ++ calls /\ transferred calls = n
        /\ traffic (LPC_EEPROM w') = traffic (LPC_EEPROM w) ++ t
        /\ data_moves t
           = map (fun a => StoreTo WDATA (to_u8 (user_mem w a)))
               (Zseq buffer (Z.to_nat n))
        /\ Z.of_nat (length (data_moves t)) = n
        /\ forall i, 0 <= i < n ->
             cells (LPC_EEPROM w') (pos + i)
             = to_u8 (user_mem w (buffer + i)))
  /\ 0 <= n <= len /\ pos + n <= CAPACITY.
Proof.
  intros Hpos Hlen Hok Hfuel Hiters n.
  assert (Hn : 0 <= n <= len /\ pos + n <= CAPACITY)
    by (unfold n, is_size_t in *; lia).
  split; [|split; [|exact Hn]].
  - destruct (eeprom_read_moves fuel buffer len pos w Hpos Hlen Hok Hfuel
                Hiters) as [w' [t (Hrun & Hl & _ & Ht & Hmv & Hmem)]].
    exists w', (read_calls buffer (st_chunks pos n)), t.
    split; [exact Hrun|]. split; [exact Hl|].
    split; [apply st_chunks_transferred; lia|].
    split; [exact Ht|]. split; [exact Hmv|]. split; [|exact Hmem].
    fold n in Hmv. rewrite Hmv, length_map, Zseq_count. lia.
  - destruct (eeprom_write_moves fuel buffer len pos w Hpos Hlen Hok Hfuel
                Hiters) as [w' [t (Hrun & Hl & _ & Ht & Hmv & Hdata)]].
    exists w', (st_write pos buffer n), t.
    split; [exact Hrun|]. split; [exact Hl|].
    split; [apply st_chunks_transferred; lia|].
    split; [exact Ht|]. split; [exact Hmv|]. split; [|exact Hdata].
    fold n in Hmv. rewrite Hmv, length_map, Zseq_count. lia.
Qed.

Lemma transfer_is_clamped_witness :
  (exists w' calls t,
     eeprom_read 4032 1000 16 4028 (boot ramp 2) = Some ((4, 4032), w')
     /\ pe_log w' = pe_log (boot ramp 2) ++ calls /\ transferred calls = 4
     /\ traffic (LPC_EEPROM w') = traffic (LPC_EEPROM (boot ramp 2)) ++ t
     /\ data_moves t
        = [LoadFrom RDATA 188; LoadFrom RDATA 189; LoadFrom RDATA 190;
           LoadFrom RDATA 191]
     /\ Z.of_nat (length (data_moves t)) = 4
     /\ forall x,
          user_mem w' x
          = delivered ramp 1000 (st_chunks 4028 4) (fun _ => 0) x)
  /\ (exists w' calls t,
        eeprom_write 4032 1000 16 4028 (boot ramp 2) = Some ((4, 4032), w')
        /\ pe_log w' = pe_log (boot ramp 2) ++ calls
        /\ transferred calls = 4
        /\ traffic (LPC_EEPROM w') = traffic (LPC_EEPROM (boot ramp 2)) ++ t
        /\ data_moves t
           = [StoreTo WDATA 0; StoreTo WDATA 0; StoreTo WDATA 0;
              StoreTo WDATA 0]
        /\ Z.of_nat (length (data_moves t)) = 4
        /\ forall i, 0 <= i < 4 ->
             cells (LPC_EEPROM w') (4028 + i)
             = to_u8 (user_mem (boot ramp 2) (1000 + i)))
  /\ 0 <= 4 <= 16 /\ 4028 + 4 <= CAPACITY.
Proof.
  apply (transfer_is_clamped 4032 1000 16 4028 (boot ramp 2)).
  - unfold CAPACITY, EEPROM_PAGE_SIZE, EEPROM_PAGE_NUM. lia.
  - unfold is_size_t, SIZE_MAX. lia.
  - reflexivity.
  - cbn [boot idle_peripheral LPC_EEPROM latency]. lia.
  - unfold CAPACITY, EEPROM_PAGE_SIZE, EEPROM_PAGE_NUM. lia.
Defined.

Lemma map_Zseq_shift (f g : Z -> Z) (n : nat) :
  forall a b : Z,
    (forall j, 0 <= j < Z.of_nat n -> f (a + j) = g (b + j)) ->
    map f (Zseq a n) = map g (Zseq b n).
Proof.
  induction n as [|n IH]; intros a b Hfg; [reflexivity|].
  cbn [Zseq map]. f_equal.
  - specialize (Hfg 0). rewrite !Z.add_0_r in Hfg. apply Hfg. lia.
  - apply IH. intros j Hj.
    replace (a + 1 + j) with (a + (1 + j)) by lia.
    replace (b + 1 + j) with (b + (1 + j)) by lia.
    apply Hfg. lia.
Qed.

Lemma block_within_page (k : Z) :
  0 <= k -> (8 * k) mod EEPROM_PAGE_SIZE + 8 <= EEPROM_PAGE_SIZE.
Proof.
  intros Hk. change EEPROM_PAGE_SIZE with (8 * 8).
  rewrite Z.mul_mod_distr_l by discriminate.
  pose proof (Z.mod_pos_bound k 8 eq_refl). lia.
Qed.

(** ** The reads of the utility *)

Lemma read_block (fuel : nat) (buf k : Z) (s : session) :
  f_pos s = 8 * k -> 0 <= k < BLOCKS ->
  access_ok (machine s) buf 8 = true ->
  (latency (LPC_EEPROM (machine s)) < fuel)%nat ->
  (Z.to_nat CAPACITY <= fuel)%nat ->
  exists s',
    dispatch fuel (Req_read buf 8) s = Some (8, s')
    /\ f_pos s' = 8 * (k + 1)
    /\ same_session_kernel s s'
    /\ print_line (8 * k) buf (machine s')
       = device_line (cells (LPC_EEPROM (machine s))) k.
Proof.
  intros Hpos Hk Hok Hfuel Hiters.
  assert (HC : CAPACITY = 4032) by reflexivity.
  unfold BLOCKS in Hk.
  destruct (eeprom_read_effect fuel buf 8 (f_pos s) (machine s))
    as [w' (Hrun & Hkern & Hcells & _ & Hdata)];
    try assumption; try (unfold is_size_t, SIZE_MAX; lia).
  replace (Z.min 8 (CAPACITY - f_pos s)) with 8 in Hrun by lia.
  cbn [dispatch]. rewrite Hrun.
  eexists. split; [reflexivity|]. cbn [f_pos machine].
  split; [lia|]. split; [split; assumption|].
  unfold print_line, device_line. f_equal.
  apply map_Zseq_shift. intros j Hj.
  rewrite <- Hpos. apply Hdata; try lia.
  rewrite Hpos. apply block_within_page. lia.
Qed.

Lemma read_at_end (fuel : nat) (buf len : Z) (s : session) :
  f_pos s = CAPACITY -> is_size_t len ->
  access_ok (machine s) buf len = true ->
  (latency (LPC_EEPROM (machine s)) < fuel)%nat ->
  (Z.to_nat CAPACITY <= fuel)%nat ->
  exists s',
    dispatch fuel (Req_read buf len) s = Some (0, s')
    /\ f_pos s' = CAPACITY
    /\ same_session_kernel s s'
    /\ forall x, user_mem (machine s') x = user_mem (machine s) x.
Proof.
  intros Hpos Hlen Hok Hfuel Hiters.
  assert (HC : CAPACITY = 4032) by reflexivity.
  destruct (eeprom_read_effect fuel buf len (f_pos s) (machine s))
    as [w' (Hrun & Hkern & Hcells & Hmem & _)];
    try assumption; try lia.
  unfold is_size_t in Hlen.
  replace (Z.min len (CAPACITY - f_pos s)) with 0 in Hrun, Hmem by lia.
  cbn [dispatch]. rewrite Hrun.
  eexists. split; [reflexivity|]. cbn [f_pos machine].
  split; [lia|]. split; [split; assumption|].
  intros x. apply Hmem. lia.
Qed.

Lemma same_session_kernel_trans (s1 s2 s3 : session) :
  same_session_kernel s1 s2 -> same_session_kernel s2 s3 ->
  same_session_kernel s1 s3.
Proof.
  intros [K1 C1] [K2 C2]. split.
  - exact (same_kernel_trans _ _ _ K1 K2).
  - congruence.
Qed.

Lemma main_seek_pages_spec (fuel : nat) (buf : Z) (n : nat) :
  forall (k : Z) (s : session),
    f_pos s = 8 * k -> 0 <= k <= BLOCKS ->
    access_ok (machine s) buf 8 = true ->
    (latency (LPC_EEPROM (machine s)) < fuel)%nat ->
    (Z.to_nat CAPACITY <= fuel)%nat ->
    exists addr s',
      main_seek_pages fuel buf n (8 * k) s
      = Some (k + Z.of_nat n <=? BLOCKS, addr, s')
      /\ (k + Z.of_nat n <= BLOCKS ->
          addr = 8 * (k + Z.of_nat n) /\ f_pos s' = 8 * (k + Z.of_nat n))
      /\ same_session_kernel s s'.
Proof.
  induction n as [|n IH]; intros k s Hpos Hk Hok Hfuel Hiters.
  - exists (8 * k), s. cbn [main_seek_pages Z.of_nat].
    rewrite Z.add_0_r.
    replace (k <=? BLOCKS) with true by (symmetry; apply Z.leb_le; lia).
    split; [reflexivity|]. split; [intros _; split; [reflexivity|exact Hpos]|].
    split; [apply same_kernel_refl | reflexivity].
  - rewrite Nat2Z.inj_succ. cbn [main_seek_pages].
    destruct (Z_lt_dec k BLOCKS) as [Hin|Hend].
    + destruct (read_block fuel buf k s Hpos ltac:(lia) Hok Hfuel Hiters)
        as [s1 (Hrun1 & Hpos1 & Hss1 & _)].
      rewrite Hrun1. cbn [Z.eqb Pos.eqb].
      rewrite to_int_id
        by (unfold BLOCKS, INT_MAX in *; lia).
      replace (8 * k + 8) with (8 * (k + 1)) by lia.
      destruct Hss1 as [Hk1 Hc1].
      destruct (IH (k + 1) s1 Hpos1 ltac:(lia)) as [addr [s' (Hrun & Hok' & Hss)]].
      * destruct Hk1 as (_ & Hacc & _). rewrite Hacc. exact Hok.
      * destruct Hk1 as (_ & _ & Hlat). rewrite Hlat. exact Hfuel.
      * exact Hiters.
      * exists addr, s'.
        replace (k + Z.succ (Z.of_nat n)) with (k + 1 + Z.of_nat n) by lia.
        split; [exact Hrun|]. split; [exact Hok'|].
        exact (same_session_kernel_trans s s1 s' (conj Hk1 Hc1) Hss).
    + assert (k = BLOCKS) by lia. subst k.
      destruct (read_at_end fuel buf 8 s) as [s1 (Hrun1 & Hpos1 & Hss1 & _)];
        try assumption.
      { unfold is_size_t, SIZE_MAX. lia. }
      rewrite Hrun1. cbn [Z.eqb].
      exists (8 * BLOCKS), s1.
      replace (BLOCKS + Z.succ (Z.of_nat n) <=? BLOCKS) with false
        by (symmetry; apply Z.leb_gt; lia).
      split; [reflexivity|]. split; [intros Hle; lia | exact Hss1].
Qed.

Lemma main_dump_spec (fuel : nat) (buf : Z) (n : nat) :
  forall (k : Z) (s : session),
    f_pos s = 8 * k -> 0 <= k <= BLOCKS ->
    access_ok (machine s) buf 8 = true ->
    (latency (LPC_EEPROM (machine s)) < fuel)%nat ->
    (Z.to_nat CAPACITY <= fuel)%nat ->
    exists s',
      main_dump fuel buf n (8 * k) s
      = Some (k + Z.of_nat n <=? BLOCKS,
              map (device_line (cells (LPC_EEPROM (machine s))))
                (Zseq k (Z.to_nat (Z.min (Z.of_nat n) (BLOCKS - k)))),
              s')
      /\ same_session_kernel s s'.
Proof.
  induction n as [|n IH]; intros k s Hpos Hk Hok Hfuel Hiters.
  - exists s. cbn [main_dump Z.of_nat].
    rewrite Z.add_0_r.
    replace (k <=? BLOCKS) with true by (symmetry; apply Z.leb_le; lia).
    replace (Z.min 0 (BLOCKS - k)) with 0 by lia.
    split; [reflexivity|]. split; [apply same_kernel_refl | reflexivity].
  - rewrite Nat2Z.inj_succ. cbn [main_dump].
    destruct (Z_lt_dec k BLOCKS) as [Hin|Hend].
    + destruct (read_block fuel buf k s Hpos ltac:(lia) Hok Hfuel Hiters)
        as [s1 (Hrun1 & Hpos1 & Hss1 & Hline)].
      rewrite Hrun1. cbn [Z.eqb Pos.eqb].
      rewrite to_int_id
        by (unfold BLOCKS, INT_MAX in *; lia).
      replace (8 * k + 8) with (8 * (k + 1)) by lia.
      destruct Hss1 as [Hk1 Hc1].
      destruct (IH (k + 1) s1 Hpos1 ltac:(lia)) as [s' (Hrun & Hss)].
      * destruct Hk1 as (_ & Hacc & _). rewrite Hacc. exact Hok.
      * destruct Hk1 as (_ & _ & Hlat). rewrite Hlat. exact Hfuel.
      * exact Hiters.
      * exists s'. rewrite Hrun, Hline, Hc1.
        replace (k + Z.succ (Z.of_nat n)) with (k + 1 + Z.of_nat n) by lia.
        replace (Z.min (Z.succ (Z.of_nat n)) (BLOCKS - k))
          with (Z.succ (Z.min (Z.of_nat n) (BLOCKS - (k + 1)))) by lia.
        rewrite Z2Nat.inj_succ by lia. cbn [Zseq map].
        split; [reflexivity|].
        exact (same_session_kernel_trans s s1 s' (conj Hk1 Hc1) Hss).
    + assert (k = BLOCKS) by lia. subst k.
      destruct (read_at_end fuel buf 8 s) as [s1 (Hrun1 & Hpos1 & Hss1 & _)];
        try assumption.
      { unfold is_size_t, SIZE_MAX. lia. }
      rewrite Hrun1. cbn [Z.eqb].
      exists s1.
      replace (BLOCKS + Z.succ (Z.of_nat n) <=? BLOCKS) with false
        by (symmetry; apply Z.leb_gt; lia).
      replace (Z.min (Z.succ (Z.of_nat n)) (BLOCKS - BLOCKS)) with 0 by lia.
      split; [reflexivity | exact Hss1].
Qed.

Lemma sys_open_free (s : session) :
  eeprom_lock (machine s) = 0 ->
  exists s1,
    sys_open s = (0, s1)
    /\ f_pos s1 = 0
    /\ eeprom_lock (machine s1) = 1
    /\ LPC_EEPROM (machine s1) = LPC_EEPROM (machine s)
    /\ user_mem (machine s1) = user_mem (machine s)
    /\ access_ok (machine s1) = access_ok (machine s).
Proof.
  intros Hfree. unfold sys_open, eeprom_open. rewrite Hfree.
  eexists. split; [reflexivity|]. cbn [f_pos machine eeprom_lock].
  repeat split.
Qed.

Lemma sys_release_frees (s : session) :
  open_state_of (machine (snd (sys_release s))) = free
  /\ cells (LPC_EEPROM (machine (snd (sys_release s))))
     = cells (LPC_EEPROM (machine s)).
Proof. split; reflexivity. Qed.

(** The dump for counts that [atoi] returned without a sign. *)
Lemma main_read_counted
  (fuel : nat) (buf page npages : Z) (s : session) :
  eeprom_lock (machine s) = 0 ->
  access_ok (machine s) buf 8 = true ->
  (latency (LPC_EEPROM (machine s)) < fuel)%nat ->
  (Z.to_nat CAPACITY <= fuel)%nat ->
  0 <= page -> 8 * page <= INT_MAX ->
  0 <= npages -> 8 * npages <= INT_MAX ->
  exists s',
    main fuel buf (Cmd_read page npages) s
    = Some (if page + npages <=? EEPROM_PAGE_NUM then 0 else -1,
            map (device_line (cells (LPC_EEPROM (machine s))))
              (Zseq (8 * page)
                 (Z.to_nat (Z.min (8 * npages) (BLOCKS - 8 * page)))),
            s')
    /\ open_state_of (machine s') = free
    /\ cells (LPC_EEPROM (machine s')) = cells (LPC_EEPROM (machine s)).
Proof.
  intros Hfree Hok Hfuel Hiters Hpage Hpmax Hnp Hnmax.
  destruct (sys_open_free s Hfree)
    as [s1 (Hopen & Hpos1 & _ & Hdev1 & _ & Hacc1)].
  cbn [main]. rewrite Hopen. cbn [Z.ltb Z.compare].
  rewrite (to_int_id (page * 8)) by (unfold INT_MAX in *; lia).
  rewrite (to_int_id (8 * npages)) by (unfold INT_MAX in *; lia).
  destruct (main_seek_pages_spec fuel buf (Z.to_nat (page * 8)) 0 s1)
    as [addr [s2 (Hseek & Haddr & Hss2)]].
  { rewrite Hpos1. reflexivity. }
  { unfold BLOCKS. lia. }
  { rewrite Hacc1. exact Hok. }
  { rewrite Hdev1. exact Hfuel. }
  { exact Hiters. }
  change (8 * 0) with 0 in Hseek. rewrite Hseek.
  rewrite Z2Nat.id in Hseek, Haddr |- * by lia.
  rewrite Z.add_0_l in Haddr |- *.
  destruct (page * 8 <=? BLOCKS) eqn:Hin.
  - apply Z.leb_le in Hin. destruct (Haddr Hin) as [-> Hpos2].
    destruct Hss2 as [Hk2 Hc2].
    destruct (main_dump_spec fuel buf (Z.to_nat (8 * npages)) (page * 8) s2)
      as [s3 (Hdump & Hss3)].
    + exact Hpos2.
    + lia.
    + destruct Hk2 as (_ & Hacc & _). rewrite Hacc, Hacc1. exact Hok.
    + destruct Hk2 as (_ & _ & Hlat). rewrite Hlat, Hdev1. exact Hfuel.
    + exact Hiters.
    + rewrite Hdump. rewrite Z2Nat.id by lia.
      exists (snd (sys_release s3)).
      destruct Hss3 as [_ Hc3].
      rewrite Hc2, Hdev1.
      replace (8 * page) with (page * 8) by lia.
      replace (page * 8 + 8 * npages <=? BLOCKS)
        with (page + npages <=? EEPROM_PAGE_NUM).
      * split; [reflexivity|]. split; [reflexivity|].
        cbn [sys_release eeprom_release snd machine LPC_EEPROM].
        rewrite Hc3, Hc2, Hdev1. reflexivity.
      * unfold BLOCKS, EEPROM_PAGE_NUM.
        destruct (page + npages <=? 63) eqn:E1;
          destruct (page * 8 + 8 * npages <=? 504) eqn:E2;
          try reflexivity;
          first [apply Z.leb_le in E1 | apply Z.leb_gt in E1];
          first [apply Z.leb_le in E2 | apply Z.leb_gt in E2]; lia.
  - apply Z.leb_gt in Hin.
    exists (snd (sys_release s2)).
    replace (page + npages <=? EEPROM_PAGE_NUM) with false
      by (symmetry; apply Z.leb_gt; unfold BLOCKS, EEPROM_PAGE_NUM in *; lia).
    replace (Z.to_nat (Z.min (8 * npages) (BLOCKS - 8 * page))) with O by lia.
    split; [reflexivity|]. split; [reflexivity|].
    destruct Hss2 as [_ Hc2].
    cbn [sys_release eeprom_release snd machine LPC_EEPROM].
    rewrite Hc2, Hdev1. reflexivity.
Qed.

(** X16: [app -r page npages] on a free device, for every pair of [int]
    values that [atoi] can return and whose eightfold is an [int]: a
    negative value makes its loop run no iteration, so it counts as 0.
    With first = max(page, 0) and count = max(npages, 0) the utility
    returns 0 exactly when first + count is at most the 63 pages of the
    device; it prints one line per 8-byte block from the start of page
    [first], each with the block's address and the device's bytes, up to
    the end of the range or of the device (none when the start is beyond
    the device); it leaves the device free and its contents as they
    were. *)
Theorem main_read_dumps_device
  (fuel : nat) (buf page npages : Z) (s : session) :
  eeprom_lock (machine s) = 0 ->
  access_ok (machine s) buf 8 = true ->
  (latency (LPC_EEPROM (machine s)) < fuel)%nat ->
  (Z.to_nat CAPACITY <= fuel)%nat ->
  - 2 ^ 31 <= 8 * page <= INT_MAX ->
  - 2 ^ 31 <= 8 * npages <= INT_MAX ->
  let first := Z.max page 0 in
  let count := Z.max npages 0 in
  exists s',
    main fuel buf (Cmd_read page npages) s
    = Some (if first + count <=? EEPROM_PAGE_NUM then 0 else -1,
            map (device_line (cells (LPC_EEPROM (machine s))))
              (Zseq (8 * first)
                 (Z.to_nat (Z.min (8 * count) (BLOCKS - 8 * first)))),
            s')
    /\ open_state_of (machine s') = free
    /\ cells (LPC_EEPROM (machine s')) = cells (LPC_EEPROM (machine s)).
Proof.
  intros Hfree Hok Hfuel Hiters Hpage Hnp first count.
  assert (Hseek : Z.to_nat (to_int (page * 8))
                  = Z.to_nat (to_int (first * 8))).
  { rewrite !to_int_id by (unfold first, INT_MAX in *; lia).
    unfold first. lia. }
  assert (Hdump : Z.to_nat (to_int (8 * npages))
                  = Z.to_nat (to_int (8 * count))).
  { rewrite !to_int_id by (unfold count, INT_MAX in *; lia).
    unfold count. lia. }
  assert (Hsame : main fuel buf (Cmd_read page npages) s
                  = main fuel buf (Cmd_read first count) s)
    by (cbn [main]; rewrite Hseek, Hdump; reflexivity).
  rewrite Hsame.
  apply (main_read_counted fuel buf first count s Hfree Hok Hfuel Hiters);
    unfold first, count, INT_MAX in *; lia.
Qed.

Lemma main_read_dumps_device_witness :
  exists s',
    main 4032 5000 (Cmd_read (-1) 64) (mkSession (boot ramp 1) 0)
    = Some (if Z.max (-1) 0 + Z.max 64 0 <=? EEPROM_PAGE_NUM then 0 else -1,
            map (device_line
                   (cells (LPC_EEPROM (machine (mkSession (boot ramp 1) 0)))))
              (Zseq (8 * Z.max (-1) 0)
                 (Z.to_nat (Z.min (8 * Z.max 64 0)
                              (BLOCKS - 8 * Z.max (-1) 0)))),
            s')
    /\ open_state_of (machine s') = free
    /\ cells (LPC_EEPROM (machine s'))
       = cells (LPC_EEPROM (machine (mkSession (boot ramp 1) 0))).
Proof.
  apply (main_read_dumps_device 4032 5000 (-1) 64
           (mkSession (boot ramp 1) 0)).
  - reflexivity.
  - reflexivity.
  - cbn. lia.
  - unfold CAPACITY, EEPROM_PAGE_SIZE, EEPROM_PAGE_NUM. lia.
  - unfold INT_MAX. lia.
  - unfold INT_MAX. lia.
Defined.



(** ** The write of the utility *)

Lemma main_seek_bytes_spec (fuel : nat) (buf : Z) (iters : nat) :
  forall (offset : Z) (s : session),
    0 <= f_pos s <= CAPACITY -> is_size_t offset ->
    (Z.to_nat offset <= iters)%nat ->
    (forall l, access_ok (machine s) buf l = true) ->
    (latency (LPC_EEPROM (machine s)) < fuel)%nat ->
    (Z.to_nat CAPACITY <= fuel)%nat ->
    exists s',
      main_seek_bytes iters fuel buf offset s = Some s'
      /\ f_pos s' = Z.min (f_pos s + offset) CAPACITY
      /\ same_session_kernel s s'
      /\ forall x, x < buf \/ buf + 8 <= x ->
           user_mem (machine s') x = user_mem (machine s) x.
Proof.
  induction iters as [|iters IH];
    intros offset s Hpos Hoff Hiters Hok Hfuel Hcap.
  - unfold is_size_t in Hoff. assert (offset = 0) by lia. subst offset.
    exists s. cbn [main_seek_bytes]. split; [reflexivity|].
    split; [lia|]. split; [split; [apply same_kernel_refl | reflexivity]|].
    reflexivity.
  - cbn [main_seek_bytes]. unfold is_size_t, SIZE_MAX in Hoff.
    destruct (offset >? 0) eqn:Hgt.
    + apply Z.gtb_lt in Hgt.
      destruct (offset >? 8) eqn:Hbig.
      * apply Z.gtb_lt in Hbig.
        destruct (eeprom_read_effect fuel buf 8 (f_pos s) (machine s))
          as [w1 (Hrun & Hk1 & Hc1 & Hm1 & _)];
          try assumption; try (unfold is_size_t, SIZE_MAX; lia).
        { apply Hok. }
        cbn [dispatch]. rewrite Hrun.
        rewrite to_size_t_id by (unfold is_size_t, SIZE_MAX; lia).
        set (s1 := mkSession w1 (f_pos s + Z.min 8 (CAPACITY - f_pos s))).
        destruct (IH (offset - 8) s1) as [s' (Hseek & Hpos' & Hss & Hmem)].
        -- unfold s1. cbn [f_pos]. lia.
        -- unfold is_size_t, SIZE_MAX. lia.
        -- lia.
        -- intros l. unfold s1. cbn [machine].
           destruct Hk1 as (_ & Hacc & _). rewrite Hacc. apply Hok.
        -- unfold s1. cbn [machine].
           destruct Hk1 as (_ & _ & Hlat). rewrite Hlat. exact Hfuel.
        -- exact Hcap.
        -- exists s'. split; [exact Hseek|].
           unfold s1 in Hpos', Hss, Hmem. cbn [f_pos machine] in *.
           split; [lia|]. split.
           ++ exact (same_session_kernel_trans s
                       (mkSession w1
                          (f_pos s + Z.min 8 (CAPACITY - f_pos s))) s'
                       (conj Hk1 Hc1) Hss).
           ++ intros x Hx. rewrite Hmem by exact Hx. apply Hm1. lia.
      * rewrite Z.gtb_ltb in Hbig. apply Z.ltb_ge in Hbig.
        destruct (eeprom_read_effect fuel buf offset (f_pos s) (machine s))
          as [w1 (Hrun & Hk1 & Hc1 & Hm1 & _)];
          try assumption; try (unfold is_size_t, SIZE_MAX; lia).
        { apply Hok. }
        cbn [dispatch]. rewrite Hrun.
        eexists. split; [reflexivity|]. cbn [f_pos machine].
        split; [lia|]. split; [split; assumption|].
        intros x Hx. apply Hm1. lia.
    + rewrite Z.gtb_ltb in Hgt. apply Z.ltb_ge in Hgt.
      assert (offset = 0) by lia. subst offset.
      exists s. split; [reflexivity|].
      split; [lia|]. split; [split; [apply same_kernel_refl | reflexivity]|].
      reflexivity.
Qed.

(** X18: [app -w offset text] on a free device, for every value of [atoi]
    and a text of [len] bytes that does not overlap [buf]: [offset]
    becomes a [size_t], so a negative value is a large one; the dummy
    reads leave the file position at that offset, or at the end of the
    device when the offset is beyond it, without changing the device or
    the text; the write then stores as much of the text as fits there,
    and the utility returns 0 exactly when all of it did; the device is
    free afterwards. *)
Theorem main_write_stores_text
  (fuel : nat) (buf offset text len : Z) (s : session) :
  eeprom_lock (machine s) = 0 ->
  (forall b l, access_ok (machine s) b l = true) ->
  (latency (LPC_EEPROM (machine s)) < fuel)%nat ->
  (Z.to_nat CAPACITY <= fuel)%nat ->
  (Z.to_nat (to_size_t offset) <= fuel)%nat ->
  0 <= len <= INT_MAX ->
  text + len <= buf \/ buf + 8 <= text ->
  let pos := Z.min (to_size_t offset) CAPACITY in
  let n := Z.min len (CAPACITY - pos) in
  exists s',
    main fuel buf (Cmd_write offset text len) s
    = Some (if n =? len then 0 else -1, [], s')
    /\ f_pos s' = pos + n
    /\ (forall i, 0 <= i < n ->
          cells (LPC_EEPROM (machine s')) (pos + i)
          = to_u8 (user_mem (machine s) (text + i)))
    /\ (n = 0 ->
        cells (LPC_EEPROM (machine s')) = cells (LPC_EEPROM (machine s)))
    /\ (- 2 ^ 31 <= offset < 0 -> pos = CAPACITY)
    /\ (0 <= offset <= CAPACITY -> pos = offset)
    /\ open_state_of (machine s') = free.
Proof.
  intros Hfree Hok Hfuel Hcap Hofuel Hlen Hdisj pos n.
  assert (HC : CAPACITY = 4032) by reflexivity.
  assert (Hsz : is_size_t (to_size_t offset)).
  { unfold is_size_t, SIZE_MAX, to_size_t, to_u32.
    pose proof (Z.mod_pos_bound offset (2 ^ 32) eq_refl). lia. }
  assert (Hneg : - 2 ^ 31 <= offset < 0 -> pos = CAPACITY).
  { intros Hlt. unfold pos, to_size_t, to_u32.
    rewrite <- (Z.mod_add offset 1 (2 ^ 32)) by discriminate.
    rewrite Z.mod_small by lia. lia. }
  assert (Hin : 0 <= offset <= CAPACITY -> pos = offset).
  { intros Hr. unfold pos. rewrite to_size_t_id
      by (unfold is_size_t, SIZE_MAX; lia). lia. }
  destruct (sys_open_free s Hfree)
    as [s1 (Hopen & Hpos1 & _ & Hdev1 & Hmem1 & Hacc1)].
  cbn [main]. rewrite Hopen. cbn [Z.ltb Z.compare].
  rewrite (to_size_t_id len)
    by (unfold is_size_t, SIZE_MAX, INT_MAX in *; lia).
  rewrite (to_int_id len) by (unfold INT_MAX in *; lia).
  destruct (main_seek_bytes_spec fuel buf fuel (to_size_t offset) s1)
    as [s2 (Hseek & Hpos2 & [Hk2 Hc2] & Hm2)].
  { rewrite Hpos1. lia. }
  { exact Hsz. }
  { exact Hofuel. }
  { intros l. rewrite Hacc1. apply Hok. }
  { rewrite Hdev1. exact Hfuel. }
  { exact Hcap. }
  rewrite Hseek. rewrite Hpos1, Z.add_0_l in Hpos2. fold pos in Hpos2.
  destruct (eeprom_write_effect fuel text len (f_pos s2) (machine s2))
    as [w3 (Hrun & Hk3 & Hu3 & Hzero & Hdata)].
  { rewrite Hpos2. unfold pos. unfold is_size_t in Hsz. lia. }
  { unfold is_size_t, SIZE_MAX, INT_MAX in *. lia. }
  { destruct Hk2 as (_ & Hacc & _). rewrite Hacc, Hacc1. apply Hok. }
  { destruct Hk2 as (_ & _ & Hlat). rewrite Hlat, Hdev1. exact Hfuel. }
  { exact Hcap. }
  rewrite Hpos2 in Hrun, Hzero, Hdata. fold n in Hrun, Hzero, Hdata.
  cbn [dispatch]. rewrite Hpos2, Hrun.
  eexists. split; [reflexivity|].
  cbn [sys_release eeprom_release snd machine f_pos LPC_EEPROM].
  split; [reflexivity|].
  split; [|split; [|split; [exact Hneg | split; [exact Hin | reflexivity]]]].
  - intros i Hi. rewrite (Hdata i Hi). f_equal.
    rewrite Hm2 by (unfold n in Hi; lia). rewrite Hmem1. reflexivity.
  - intros Hz. rewrite (Hzero Hz), Hc2, Hdev1. reflexivity.
Qed.

Lemma main_write_stores_text_witness :
  let s := mkSession (boot ramp 1) 0 in
  exists s',
    main 4032 5000 (Cmd_write 4030 1000 8) s
    = Some (if 2 =? 8 then 0 else -1, [], s')
    /\ f_pos s' = 4030 + 2
    /\ (forall i, 0 <= i < 2 ->
          cells (LPC_EEPROM (machine s')) (4030 + i)
          = to_u8 (user_mem (machine s) (1000 + i)))
    /\ (2 = 0 ->
        cells (LPC_EEPROM (machine s')) = cells (LPC_EEPROM (machine s)))
    /\ (- 2 ^ 31 <= 4030 < 0 -> 4030 = CAPACITY)
    /\ (0 <= 4030 <= CAPACITY -> 4030 = 4030)
    /\ open_state_of (machine s') = free.
Proof.
  intros s.
  apply (main_write_stores_text 4032 5000 4030 1000 8 s).
  - reflexivity.
  - reflexivity.
  - cbn. lia.
  - unfold CAPACITY, EEPROM_PAGE_SIZE, EEPROM_PAGE_NUM. lia.
  - vm_compute. lia.
  - unfold INT_MAX. lia.
  - left. lia.
Defined.

(** * Seek and transfer together *)

(** X14: A seek to k bytes before the end of the device returns C - k and
    leaves the position there; a read or write of [len] bytes then moves
    n = min(len, k) bytes, returns n and leaves the position n further:
    the last k bytes of the device are all that is left.  The bytes
    moved: the read makes exactly n loads of RDATA, of the device bytes
    at C - k, C - k + 1, ..., and leaves each chunk of them at the start
    of the buffer; the write makes exactly n stores to WDATA, of the
    caller's bytes in order, and byte i of the buffer ends up in the cell
    at C - k + i. *)
Theorem transfer_after_seek_from_end
  (fuel : nat) (buffer len k pos0 : Z) (w : world) :
  0 <= k <= CAPACITY -> is_size_t len ->
  access_ok w buffer len = true ->
  (latency (LPC_EEPROM w) < fuel)%nat -> (Z.to_nat CAPACITY <= fuel)%nat ->
  let pos := snd (eeprom_llseek pos0 (- k) SEEK_END) in
  let n := Z.min len k in
  eeprom_llseek pos0 (- k) SEEK_END = (CAPACITY - k, CAPACITY - k)
  /\ (exists w' t,
        eeprom_read fuel buffer len pos w
        = Some ((n, CAPACITY - k + n), w')
        /\ traffic (LPC_EEPROM w') = traffic (LPC_EEPROM w) ++ t
        /\ data_moves t
           = map (fun a => LoadFrom RDATA (cells (LPC_EEPROM w) a))
               (Zseq (CAPACITY - k) (Z.to_nat n))
        /\ forall x,
             user_mem w' x
             = delivered (cells (LPC_EEPROM w)) buffer
                 (st_chunks (CAPACITY - k) n) (user_mem w) x)
  /\ (exists w' t,
        eeprom_write fuel buffer len pos w
        = Some ((n, CAPACITY - k + n), w')
        /\ traffic (LPC_EEPROM w') = traffic (LPC_EEPROM w) ++ t
        /\ data_moves t
           = map (fun a => StoreTo WDATA (to_u8 (user_mem w a)))
               (Zseq buffer (Z.to_nat n))
        /\ forall i, 0 <= i < n ->
             cells (LPC_EEPROM w') (CAPACITY - k + i)
             = to_u8 (user_mem w (buffer + i))).
Proof.
  intros Hk Hlen Hok Hfuel Hiters pos n.
  assert (HC : CAPACITY = 4032) by reflexivity.
  assert (Hseek : eeprom_llseek pos0 (- k) SEEK_END
                  = (CAPACITY - k, CAPACITY - k)).
  { unfold eeprom_llseek.
    change (SEEK_END =? SEEK_SET) with false.
    change (SEEK_END =? SEEK_CUR) with false.
    change (SEEK_END =? SEEK_END) with true. cbv iota.
    change (EEPROM_PAGE_SIZE * EEPROM_PAGE_NUM) with CAPACITY.
    rewrite to_loff_t_id
      by (unfold is_loff_t, LOFF_MIN, LOFF_MAX; lia).
    replace (CAPACITY + - k <? 0) with false
      by (symmetry; apply Z.ltb_ge; lia).
    replace (CAPACITY + - k) with (CAPACITY - k) by lia. reflexivity. }
  split; [exact Hseek|].
  unfold pos. rewrite Hseek. cbn [snd].
  destruct (eeprom_read_moves fuel buffer len (CAPACITY - k) w)
    as [w1 [t1 (Hrd & _ & _ & Ht1 & Hmv1 & Hmem1)]];
    try assumption; try lia.
  destruct (eeprom_write_moves fuel buffer len (CAPACITY - k) w)
    as [w2 [t2 (Hwr & _ & _ & Ht2 & Hmv2 & Hdata2)]];
    try assumption; try lia.
  replace (CAPACITY - (CAPACITY - k)) with k in * by lia.
  fold n in Hrd, Hmv1, Hmem1, Hwr, Hmv2, Hdata2.
  split.
  - exists w1, t1. repeat split; assumption.
  - exists w2, t2. repeat split; assumption.
Qed.

Lemma transfer_after_seek_from_end_witness :
  let pos := snd (eeprom_llseek 7 (- 10) SEEK_END) in
  eeprom_llseek 7 (- 10) SEEK_END = (CAPACITY - 10, CAPACITY - 10)
  /\ (exists w' t,
        eeprom_read 4032 1000 64 pos (boot ramp 1)
        = Some ((10, CAPACITY - 10 + 10), w')
        /\ traffic (LPC_EEPROM w') = traffic (LPC_EEPROM (boot ramp 1)) ++ t
        /\ data_moves t
           = map (fun a => LoadFrom RDATA (ramp a)) (Zseq 4022 10)
        /\ forall x,
             user_mem w' x
             = delivered ramp 1000 (st_chunks (CAPACITY - 10) 10)
                 (fun _ => 0) x)
  /\ (exists w' t,
        eeprom_write 4032 1000 64 pos (boot ramp 1)
        = Some ((10, CAPACITY - 10 + 10), w')
        /\ traffic (LPC_EEPROM w') = traffic (LPC_EEPROM (boot ramp 1)) ++ t
        /\ data_moves t
           = map (fun a => StoreTo WDATA (to_u8 (user_mem (boot ramp 1) a)))
               (Zseq 1000 10)
        /\ forall i, 0 <= i < 10 ->
             cells (LPC_EEPROM w') (CAPACITY - 10 + i)
             = to_u8 (user_mem (boot ramp 1) (1000 + i))).
Proof.
  apply (transfer_after_seek_from_end 4032 1000 64 10 7 (boot ramp 1)).
  - unfold CAPACITY, EEPROM_PAGE_SIZE, EEPROM_PAGE_NUM. lia.
  - unfold is_size_t, SIZE_MAX. lia.
  - reflexivity.
  - cbn. lia.
  - unfold CAPACITY, EEPROM_PAGE_SIZE, EEPROM_PAGE_NUM. lia.
Defined.

(** * The timing registers *)

Lemma lor_shiftl_add (a b n : Z) :
  0 <= n -> 0 <= a < 2 ^ n -> 0 <= b ->
  Z.lor a (Z.shiftl b n) = a + b * 2 ^ n.
Proof.
  intros Hn Ha Hb.
  assert (Hdisjoint : Z.land a (Z.shiftl b n) = 0).
  { apply Z.bits_inj'. intros i Hi.
    rewrite Z.land_spec, Z.bits_0.
    destruct (Z_lt_dec i n) as [Hlow|Hhigh].
    - rewrite Z.shiftl_spec_low by exact Hlow. apply andb_false_r.
    - replace (Z.testbit a i) with false; [reflexivity|].
      symmetry. destruct (Z.eq_dec a 0) as [->|Hnz].
      + apply Z.bits_0.
      + apply Z.bits_above_log2; [lia|].
        assert (Z.log2 a < n) by (apply Z.log2_lt_pow2; lia). lia. }
  rewrite <- Z.lxor_lor by exact Hdisjoint.
  rewrite <- Z.add_nocarry_lxor by exact Hdisjoint.
  rewrite Z.shiftl_mul_pow2 by lia. reflexivity.
Qed.

(** X15: For every 32-bit clock rate from 375 kHz up the three wait states
    fit their 8-bit
    fields, so each can be read back from the WSTATE value that
    [EEPROM_Init] programs; and the clock divider it programs is the
    largest that keeps the divided clock at 375 kHz or above. *)
Theorem EEPROM_Init_fields (f_pclk : Z) (w : world) :
  375000 <= f_pclk < 2 ^ 32 ->
  exists w',
    EEPROM_Init f_pclk w = Some (tt, w')
    /\ Z.land (regs (LPC_EEPROM w') WSTATE) 255
       = f_pclk / 1000000 * 15 / 1000 + 1
    /\ Z.land (Z.shiftr (regs (LPC_EEPROM w') WSTATE) 8) 255
       = f_pclk / 1000000 * 55 / 1000 + 1
    /\ Z.shiftr (regs (LPC_EEPROM w') WSTATE) 16
       = f_pclk / 1000000 * 35 / 1000 + 1
    /\ 375000 * (regs (LPC_EEPROM w') CLKDIV + 1) <= f_pclk
       < 375000 * (regs (LPC_EEPROM w') CLKDIV + 2).
Proof.
  intros Hf.
  destruct (wait_state_field f_pclk 15) as [E1 B1]; [lia | lia |].
  destruct (wait_state_field f_pclk 55) as [E2 B2]; [lia | lia |].
  destruct (wait_state_field f_pclk 35) as [E3 B3]; [lia | lia |].
  set (ws1 := f_pclk / 1000000 * 15 / 1000 + 1) in *.
  set (ws2 := f_pclk / 1000000 * 55 / 1000 + 1) in *.
  set (ws3 := f_pclk / 1000000 * 35 / 1000 + 1) in *.
  assert (S2 : to_u32 (Z.shiftl ws2 8) = Z.shiftl ws2 8).
  { apply to_u32_id. rewrite Z.shiftl_mul_pow2 by lia. lia. }
  assert (S3 : to_u32 (Z.shiftl ws3 16) = Z.shiftl ws3 16).
  { apply to_u32_id. rewrite Z.shiftl_mul_pow2 by lia. lia. }
  assert (Hpack : Z.lor (Z.lor ws1 (Z.shiftl ws2 8)) (Z.shiftl ws3 16)
                  = ws1 + ws2 * 2 ^ 8 + ws3 * 2 ^ 16).
  { rewrite (lor_shiftl_add ws1 ws2 8) by lia.
    rewrite (lor_shiftl_add (ws1 + ws2 * 2 ^ 8) ws3 16) by lia.
    reflexivity. }
  assert (Hdiv : 1 <= f_pclk / 375000 < 11454).
  { split.
    - apply Z.div_le_lower_bound; lia.
    - apply Z.div_lt_upper_bound; lia. }
  pose proof (Z.div_mod f_pclk 375000 ltac:(discriminate)) as Hdm.
  pose proof (Z.mod_pos_bound f_pclk 375000 eq_refl) as Hmod.
  eexists. split.
  - unfold EEPROM_Init, EEPROM_DisablePowerDown, EEPROM_SetWaitState, bind,
      store. cbv zeta. rewrite E1, E2, E3, S2, S3. reflexivity.
  - cbn [LPC_EEPROM regs mmio_store latch record_event reg_eqb].
    rewrite Hpack.
    rewrite (to_u32_id (f_pclk / 375000 - 1)) by lia.
    change 255 with (Z.ones 8).
    rewrite !Z.land_ones, !Z.shiftr_div_pow2 by lia.
    split; [|split; [|split]].
    + symmetry. apply (Z.mod_unique _ _ (ws2 + ws3 * 2 ^ 8)); lia.
    + replace ((ws1 + ws2 * 2 ^ 8 + ws3 * 2 ^ 16) / 2 ^ 8)
        with (ws2 + ws3 * 2 ^ 8)
        by (apply (Z.div_unique _ _ _ ws1); lia).
      symmetry. apply (Z.mod_unique _ _ ws3); lia.
    + symmetry. apply (Z.div_unique _ _ _ (ws1 + ws2 * 2 ^ 8)); lia.
    + lia.
Qed.

Lemma EEPROM_Init_fields_witness :
  exists w',
    EEPROM_Init 60000000 (boot ramp 0) = Some (tt, w')
    /\ Z.land (regs (LPC_EEPROM w') WSTATE) 255
       = 60000000 / 1000000 * 15 / 1000 + 1
    /\ Z.land (Z.shiftr (regs (LPC_EEPROM w') WSTATE) 8) 255
       = 60000000 / 1000000 * 55 / 1000 + 1
    /\ Z.shiftr (regs (LPC_EEPROM w') WSTATE) 16
       = 60000000 / 1000000 * 35 / 1000 + 1
    /\ 375000 * (regs (LPC_EEPROM w') CLKDIV + 1) <= 60000000
       < 375000 * (regs (LPC_EEPROM w') CLKDIV + 2).
Proof.
  apply (EEPROM_Init_fields 60000000 (boot ramp 0)). lia.
Defined.
